(* ===== verification/_CoqProject ===== *)
-Q . S2P
Prelude.v
PyString.v
PyFloat.v
Interval.v
DataFrame.v
Pearson.v
ColumnInfos.v
Format.v
Helper.v
Tables.v
Columns.v
Correlations.v
Advices.v
FirstAnalysis.v
Lifecycle.v
Scenarios.v
