(* ===== verification/Prelude.v ===== *)
(** * Verification of AnalysisHelper.py (data-science-utils)

    The program is one Python module, [src/AnalysisHelper.py]: a console
    reporting utility over a pandas DataFrame.  It has two classes and two
    free functions.

    - [ColumnInfos] (lines 12-56) holds the statistics of one column and
      derives an advice text from them ([has_advice], [get_advice],
      [__str__]).
    - [Helper] (lines 59-171) holds the DataFrame, the display options, the
      last correlation matrix and a dict of [ColumnInfos].  Its methods are
      [analyze_columns] (fills the dict and renders the column table),
      [analyze_correlations] (stores [dataframe.corr()] and reports the
      upper-triangular pairs whose strength bucket is above 0),
      [get_advices] (joins the advice of the columns that carry one) and
      [firstAnalysis] (prints the three reports and may draw a heatmap).
    - [format_col_infos] (lines 174-190) renders one line per column.
    - [get_interval] (lines 193-207) maps a value to the index of the first
      breakpoint that exceeds its magnitude, clamped to the last bucket.

    ** Files

    - [Prelude] (this file): Python exceptions as a type [exn]; the error
      monad [result] for code that may raise; the state-and-error monad
      [prog S] for methods that mutate [self] (the state survives a raised
      exception, as a Python object does); [foldM], the [for] loop;
      subscripts and [range]; the tactics and the lemmas on loops the
      other files share.
    - [PyString]: the Python string operations the source uses
      ([str(int)], ["%d"], [s * n], [sep.join], [len], [+=]), and a
      reader of decimal text against which the printing is checked.
    - [PyFloat]: binary64 floats (Rocq's primitive floats, which are the
      IEEE 754 binary64 numbers Python's [float] is), their order lemmas
      from the Standard Library's axiomatisation, [pd.isnull] and
      ["%f"] with its rounding.
    - [Interval]: [get_interval] and its loop, with the class constants
      [corr_categories_intervals] and [corr_categories_names].
    - [DataFrame]: the pandas objects the source calls, modelled from the
      specification (pandas is not part of the repository): scalars with
      null detection and [str], [Series], [Index], [DataFrame],
      [Series.unique], [isna().sum()], item selection, and the interface
      [Corr] of [DataFrame.corr()] with its shape laws.
    - [Pearson]: an executable instance of [Corr] on the scalars [value].
    - [ColumnInfos]: the record, [has_advice], [get_advice].
    - [Format]: [format_col_infos] over any subscriptable container of
      column-like objects (the interfaces [Subscript] and [ColumnLike]),
      and [ColumnInfos.__str__].
    - [Helper]: the [Helper] record, the class constant [color_dict],
      [__init__] and the attribute assignments.
    - [Tables]: the tables of the specification's scenarios and others,
      on which the theorems are instantiated.
    - [Columns]: [Helper.analyze_columns], a program on the object's
      state; the summaries [column_info_spec] and [col_infos_spec] it
      stores, and its outcome on every table in closed form
      ([columns_result], [columns_state]).
    - [Correlations]: [Helper.analyze_correlations]; the reference list
      [findings] of the reported pairs.
    - [Advices]: [Helper.get_advices].
    - [FirstAnalysis]: [Helper.firstAnalysis], a program on the object
      and the trace of the calls to [print], [sns.heatmap] and
      [plt.show].
    - [Lifecycle]: sessions, that is sequences of method calls on one
      object ([invoke], the step relation [step], [run]), and their
      specification, a machine with two flags ([progress],
      [model_call]).
    - [Scenarios]: the scenarios of section 8 of the specification and
      the error paths, evaluated on the example tables; these examples
      are instances of the theorems of the other files.

    ** Modelling choices

    - Python [int] is [Z] (unbounded); loop indices produced by [range]
      are [nat].  Python [float] is [PrimFloat.float]; float literals of
      the source are the same binary64 values.
    - Python [str] is [string]; [len] counts characters, which for the
      8-bit strings of the model are bytes: names are taken to be ASCII.
    - A Python dict is a [gmap]; [d[k]] on a missing key raises
      [KeyError].  A Python list is a [list]; [l[i]] out of range raises
      [IndexError].
    - Exceptions are values of [exn]; a function that may raise returns
      [result A]; a method returns [prog (Helper V) A], a function from
      the object's state to a result and the new state.  Attribute reads
      on objects of the wrong kind raise [AttributeError], as duck typing
      has it.
    - No fuel is used anywhere: every loop of the source ranges over a
      finite sequence and is modelled by structural recursion on it, so
      every definition is total and evaluates by [vm_compute].

    ** What is proved

    - [PyString], [PyFloat]: reading the text of an int gives the int;
      the count of millionths printed by ["%f"] is the nearest one,
      ties to even, and reading the text gives that count; a float of
      magnitude at most 1 is printed in a field of fixed width.
    - [Interval]: [get_interval] equals its reference; the bucket is in
      range, is the first breakpoint above the magnitude, ignores the
      sign, is monotone in the magnitude, clamps NaN to the last bucket,
      and [None]/[str] arguments give [None].
    - [ColumnInfos], [Format]: advice presence and wording per branch;
      the lines of a list and the failures of a dict; the dict the
      program passes gives what the list of the docstring gives;
      [__str__] always raises.
    - [Columns]: what [analyze_columns] returns and stores on every
      table, when it raises and what; the stored dict has the keys
      [0 .. n_cols - 1] and holds the reference summaries, whose counts
      sum to the row count, whose categories are set exactly under the
      threshold rule and whose number of uniques counts a null as a
      value; the shape and alignment of the text; independence from the
      dict of an earlier call; the tables on which the call raises
      [KeyError], with the dict it leaves.
    - [Correlations]: [analyze_correlations] never raises and reports
      exactly the pairs above the diagonal with a non-null coefficient
      outside bucket 0, in row-major order; the names printed are the
      labels of the matrix exactly when the numeric columns come first.
    - [Advices]: [get_advices] on a dict with dense keys, its [KeyError]
      otherwise, and its result after [analyze_columns].
    - [FirstAnalysis]: the trace of a run that returns, the state of a
      run that raises, and when the heatmap is drawn.
    - [Lifecycle]: the methods implement the two-flag machine
      (simulation, extended from one call to sessions by induction); the
      objects a session reaches from a new object are exactly the
      objects of the flags (rule induction on [step]); in every such
      state [get_advices] returns; the events of a session do not depend
      on the order of its calls; calling a method twice gives what
      calling it once gives; [analyze_columns] and
      [analyze_correlations] commute.

    ** Not modelled

    - The numerics of [DataFrame.corr()] inside pandas: the matrix is an
      input obeying the shape laws of the interface [Corr]; the instance
      of [Pearson] evaluates the textbook formula in binary64.
    - Rendering ([sns.heatmap], [plt.show]) beyond the call and its
      arguments: in the model these calls never raise.  The colours of a
      terminal; [str] of floating-point category values; dtypes other
      than as the string pandas prints.
    - Tables outside the model of [DataFrame]: column labels that are
      no [str] (on which [len(name)] raises [TypeError]), cells that
      cannot be hashed (on which [unique] raises [TypeError]), and the
      versions of pandas whose [corr()] raises on a column that is not
      numeric instead of leaving it out.  A label that names several
      columns raises its [AttributeError] at the selection in the model
      and two calls later, at [.unique()], in pandas; the object is not
      touched in between.
    - Arguments of [get_interval] other than [None], a [str] or a
      [float]; the program passes floats only.
    - Unicode: [len] counts the 8-bit characters of the model. *)

From stdpp Require Export base tactics option list strings gmap pretty.
From Stdlib Require Export ZArith.

(** ** Exceptions and results *)

(** The exception classes the program can raise. *)
Inductive exn : Type :=
| AssertionError
| AttributeError
| KeyError
| TypeError
| IndexError.

#[export] Instance exn_eq_dec : EqDecision exn.
Proof. solve_decision. Defined.

(** The outcome of an expression that may raise. *)
Inductive result (A : Type) : Type :=
| Ok (a : A)
| Raise (e : exn).
Arguments Ok {A} a.
Arguments Raise {A} e.

#[export] Instance result_eq_dec `{EqDecision A} : EqDecision (result A).
Proof. solve_decision. Defined.

#[export] Instance result_ret : MRet result := @Ok.
#[export] Instance result_bind : MBind result := λ A B f m,
  match m with Ok a => f a | Raise e => Raise e end.
#[export] Instance result_fmap : FMap result := λ A B f m,
  match m with Ok a => Ok (f a) | Raise e => Raise e end.

Definition is_Ok {A} (r : result A) : Prop := ∃ a, r = Ok a.
Definition is_Okb {A} (r : result A) : bool :=
  match r with Ok _ => true | Raise _ => false end.

(** [d[k]] on a dict. *)
Definition dict_get `{Countable K} {V} (d : gmap K V) (k : K) : result V :=
  match d !! k with Some v => Ok v | None => Raise KeyError end.

(** [l[i]] on a list or tuple, for a non-negative [i]. *)
Definition list_get {A} (l : list A) (i : nat) : result A :=
  match l !! i with Some v => Ok v | None => Raise IndexError end.

(** ** Stateful programs: the state outlives an exception *)

Definition prog (S A : Type) : Type := S → result A * S.

#[export] Instance prog_ret {S} : MRet (prog S) := λ A a s, (Ok a, s).
#[export] Instance prog_bind {S} : MBind (prog S) := λ A B f m s,
  match m s with
  | (Ok a, s') => f a s'
  | (Raise e, s') => (Raise e, s')
  end.

Definition get {S} : prog S S := λ s, (Ok s, s).
Definition put {S} (s : S) : prog S unit := λ _, (Ok tt, s).
Definition modify {S} (f : S → S) : prog S unit := λ s, (Ok tt, f s).
Definition raise {S A} (e : exn) : prog S A := λ s, (Raise e, s).
Definition lift {S A} (r : result A) : prog S A := λ s, (r, s).

(** Run a program on a component of a larger state. *)
Definition zoom {S T A} (proj : T → S) (upd : S → T → T) (m : prog S A) : prog T A :=
  λ t, let '(r, s') := m (proj t) in (r, upd s' t).

(** A [for] loop over the items [l] that threads the local variables [b]
    through the body; in [prog S] it threads the state as well, and it
    stops at the first iteration that raises. *)
Fixpoint foldM `{MBind M, MRet M} {A B} (body : B → A → M B) (b : B) (l : list A) : M B :=
  match l with
  | [] => mret b
  | x :: l' => b' ← body b x; foldM body b' l'
  end.

(** [l[k]] on a list or tuple for a Python integer [k]: a negative index
    counts from the end. *)
Definition seq_get {A} (l : list A) (k : Z) : result A :=
  if (0 <=? k)%Z then list_get l (Z.to_nat k)
  else if (0 <=? Z.of_nat (length l) + k)%Z then list_get l (Z.to_nat (Z.of_nat (length l) + k))
  else Raise IndexError.

(** [range(stop)] for a Python integer [stop]. *)
Definition py_range (stop : Z) : list nat := seq 0 (Z.to_nat stop).

(** [range(start, stop)]. *)
Definition py_range2 (start stop : Z) : list nat :=
  seq (Z.to_nat start) (Z.to_nat (stop - start)).

(** ** Automation *)

Create HintDb py discriminated.

(** Case analysis on the scrutinee of the first monadic bind or match. *)
Ltac case_result :=
  match goal with
  | |- context [match ?r with Ok _ => _ | Raise _ => _ end] =>
      let E := fresh "E" in destruct r eqn:E
  | H : context [match ?r with Ok _ => _ | Raise _ => _ end] |- _ =>
      let E := fresh "E" in destruct r eqn:E
  end.

Ltac unfold_result :=
  unfold mbind, mret, fmap, result_bind, result_ret, result_fmap in *.

Ltac simplify_result :=
  repeat (unfold_result; simpl in *; simplify_eq; try case_result).

(** ** Lemmas on stateful programs *)

Lemma prog_bind_eq {S A B} (m : prog S A) (f : A → prog S B) (s : S) :
  (m ≫= f) s =
  match m s with (Ok a, s') => f a s' | (Raise e, s') => (Raise e, s') end.
Proof. done. Qed.

Lemma prog_ret_eq {S A} (a : A) (s : S) : mret (M := prog S) a s = (Ok a, s).
Proof. done. Qed.

(** Run a program one bind at a time. *)
Ltac prog_simpl :=
  repeat (rewrite ?prog_bind_eq, ?prog_ret_eq;
          unfold get, put, modify, raise, lift; simpl).

(** ** Lemmas on results *)

Lemma is_Ok_Ok {A} (a : A) : is_Ok (Ok a).
Proof. by exists a. Qed.

Lemma is_Ok_Raise {A} (e : exn) : ¬ is_Ok (@Raise A e).
Proof. by intros [a ?]. Qed.

Lemma is_Okb_spec {A} (r : result A) : is_Okb r = true ↔ is_Ok r.
Proof. destruct r; split; try done; [by eexists | by intros [??]]. Qed.

Lemma bind_Ok {A B} (f : A → result B) (a : A) : Ok a ≫= f = f a.
Proof. done. Qed.

Lemma bind_Raise {A B} (f : A → result B) (e : exn) : Raise e ≫= f = Raise e.
Proof. done. Qed.

Lemma bind_Ok_inv {A B} (f : A → result B) (m : result A) (b : B) :
  m ≫= f = Ok b ↔ ∃ a, m = Ok a ∧ f a = Ok b.
Proof. destruct m; split; naive_solver. Qed.

Lemma bind_Raise_inv {A B} (f : A → result B) (m : result A) (e : exn) :
  m ≫= f = Raise e ↔ m = Raise e ∨ ∃ a, m = Ok a ∧ f a = Raise e.
Proof. destruct m; split; naive_solver. Qed.

Lemma fmap_Ok_inv {A B} (f : A → B) (m : result A) (b : B) :
  f <$> m = Ok b ↔ ∃ a, m = Ok a ∧ b = f a.
Proof. destruct m; split; naive_solver. Qed.

Lemma dict_get_Ok `{Countable K} {V} (d : gmap K V) (k : K) (v : V) :
  dict_get d k = Ok v ↔ d !! k = Some v.
Proof. unfold dict_get. destruct (d !! k); naive_solver. Qed.

Lemma dict_get_Raise `{Countable K} {V} (d : gmap K V) (k : K) (e : exn) :
  dict_get d k = Raise e ↔ d !! k = None ∧ e = KeyError.
Proof. unfold dict_get. destruct (d !! k); naive_solver. Qed.

Lemma list_get_Ok {A} (l : list A) (i : nat) (v : A) :
  list_get l i = Ok v ↔ l !! i = Some v.
Proof. unfold list_get. destruct (l !! i); naive_solver. Qed.

Lemma list_get_Raise {A} (l : list A) (i : nat) (e : exn) :
  list_get l i = Raise e ↔ length l ≤ i ∧ e = IndexError.
Proof.
  unfold list_get. destruct (l !! i) eqn:E.
  - apply lookup_lt_Some in E. split; [done | lia].
  - apply lookup_ge_None in E. naive_solver.
Qed.

Lemma list_get_lt {A} (l : list A) (i : nat) :
  i < length l → is_Ok (list_get l i).
Proof.
  intros [v Hv]%lookup_lt_is_Some. exists v. by apply list_get_Ok.
Qed.

#[export] Hint Rewrite @bind_Ok @bind_Raise : py.
#[export] Hint Resolve is_Ok_Ok : py.

(** ** Lemmas on lists *)

Lemma filter_nil_Forall {A} (P : A → Prop) `{∀ x, Decision (P x)} (l : list A) :
  Forall (λ x, ¬ P x) l → filter P l = [].
Proof. induction 1 as [|x l Hx _ IH]; [done|]. by rewrite filter_cons_False. Qed.

(** When exactly one item satisfies [P], two positions that do are one. *)
Lemma filter_singleton_lookup_inj {A} (P : A → Prop) `{∀ x, Decision (P x)}
    (l : list A) x i j a b :
  filter P l = [x] → l !! i = Some a → l !! j = Some b → P a → P b → i = j.
Proof.
  revert i j. induction l as [|y l IH]; intros i j Hf Hi Hj Ha Hb; [done|].
  rewrite filter_cons in Hf. destruct (decide (P y)) as [Hy|Hy].
  - injection Hf as -> Hnil.
    destruct i as [|i], j as [|j]; simplify_eq/=; [done|..].
    + apply list_elem_of_lookup_2 in Hj. by destruct (filter_nil_not_elem_of P l b).
    + apply list_elem_of_lookup_2 in Hi. by destruct (filter_nil_not_elem_of P l a).
    + apply list_elem_of_lookup_2 in Hi. by destruct (filter_nil_not_elem_of P l a).
  - destruct i as [|i], j as [|j]; simplify_eq/=; [done..|]. f_equal. by apply IH.
Qed.

(** Either every item satisfies [P], or there is a first one that does not. *)
Lemma Forall_or_first_failure {A} (P : A → Prop) `{∀ x, Decision (P x)} (l : list A) :
  Forall P l ∨ ∃ l1 x l2, l = l1 ++ x :: l2 ∧ Forall P l1 ∧ ¬ P x.
Proof.
  induction l as [|y l IH]; [by left|].
  destruct (decide (P y)) as [Hy|Hy]; [|right; by exists [], y, l].
  destruct IH as [IH|(l1 & x & l2 & -> & Hl1 & Hx)]; [left; by constructor|].
  right. exists (y :: l1), x, l2. split; [done|]. split; [by constructor|done].
Qed.

Lemma seq_get_nonneg {A} (l : list A) (k : Z) :
  (0 ≤ k)%Z → seq_get l k = list_get l (Z.to_nat k).
Proof. intros. unfold seq_get. by rewrite (proj2 (Z.leb_le 0 k)). Qed.

(** ** Lemmas on loops *)

(** Loops in [result]: splitting the range splits the loop. *)
Lemma foldM_result_app {A B} (body : B → A → result B) (b : B) (l1 l2 : list A) :
  foldM body b (l1 ++ l2) = foldM body b l1 ≫= (λ b', foldM body b' l2).
Proof.
  revert b. induction l1 as [|x l1 IH]; intros b; simpl; [done|].
  destruct (body b x); simpl; [apply IH|done].
Qed.

(** An invariant of the local variables that every iteration preserves
    holds when the loop ends. *)
Lemma foldM_result_inv {A B} (P : B → Prop) (body : B → A → result B) (b b' : B) (l : list A) :
  P b → (∀ b x b', x ∈ l → P b → body b x = Ok b' → P b') →
  foldM body b l = Ok b' → P b'.
Proof.
  revert b. induction l as [|x l IH]; intros b Hb Hstep; simpl.
  - by intros [= <-].
  - destruct (body b x) as [b1|] eqn:E; simpl; [|done].
    apply IH; [by eapply Hstep; [left|..]|].
    intros ??? Hin. apply Hstep. by right.
Qed.

(** A loop whose every iteration succeeds under the invariant succeeds. *)
Lemma foldM_result_Ok {A B} (P : B → Prop) (body : B → A → result B) (b : B) (l : list A) :
  P b → (∀ b x, x ∈ l → P b → ∃ b', body b x = Ok b' ∧ P b') →
  ∃ b', foldM body b l = Ok b' ∧ P b'.
Proof.
  revert b. induction l as [|x l IH]; intros b Hb Hstep; simpl; [by exists b|].
  destruct (Hstep b x) as (b1 & -> & Hb1); [left|done|]. simpl.
  apply IH; [done|]. intros ?? Hin. apply Hstep. by right.
Qed.

(** A loop whose iterations never raise is a left fold. *)
Lemma foldM_result_pure {A B} (body : B → A → result B) (f : B → A → B) (b : B) (l : list A) :
  (∀ b x, x ∈ l → body b x = Ok (f b x)) → foldM body b l = Ok (foldl f b l).
Proof.
  revert b. induction l as [|x l IH]; intros b Hbody; simpl; [done|].
  rewrite Hbody by left. simpl. apply IH. intros ?? Hin. apply Hbody. by right.
Qed.

(** A property of the state that every iteration preserves, whether it
    returns or raises, holds after the loop, however it ends. *)
Lemma foldM_prog_inv {S A B} (P : S → Prop) (body : B → A → prog S B) (b : B)
    (l : list A) (s : S) :
  P s → (∀ b x s, P s → P (body b x s).2) → P (foldM body b l s).2.
Proof.
  intros Hs Hbody. revert b s Hs. induction l as [|x l IH]; intros b s Hs; [done|].
  cbn [foldM]. rewrite prog_bind_eq. pose proof (Hbody b x s Hs) as Hstep.
  destruct (body b x s) as [[b'|e] s']; [by apply IH|done].
Qed.

(** Loops in [prog]: splitting the range splits the loop, and the second
    part runs only when the first returns. *)
Lemma foldM_prog_app {S A B} (body : B → A → prog S B) (b : B) (l1 l2 : list A) (s : S) :
  foldM body b (l1 ++ l2) s =
  match foldM body b l1 s with
  | (Ok b', s') => foldM body b' l2 s'
  | (Raise e, s') => (Raise e, s')
  end.
Proof.
  revert b s. induction l1 as [|x l1 IH]; intros b s; [done|].
  cbn [app foldM]. rewrite !prog_bind_eq. destruct (body b x s) as [[b'|e] s']; [apply IH|done].
Qed.

(** Loops that build a list item by item are [mapM]. *)
Section mapM_result.
Context {A B : Type}.
Implicit Types (f : A → result B).

Lemma mapM_result_cons f x l :
  mapM f (x :: l) = y ← f x; k ← mapM f l; Ok (y :: k).
Proof. done. Qed.

Lemma mapM_result_Ok f l k :
  mapM f l = Ok k ↔ Forall2 (λ x y, f x = Ok y) l k.
Proof.
  revert k. induction l as [|x l IH]; intros k.
  { split; [intros [= <-]; constructor|by intros ->%Forall2_nil_inv_l]. }
  rewrite mapM_result_cons. split.
  - intros (y & Hy & (k' & Hk' & [= <-])%bind_Ok_inv)%bind_Ok_inv.
    constructor; [done|]. by apply IH.
  - intros (y & k' & Hy & Hk'%IH & ->)%Forall2_cons_inv_l.
    by rewrite Hy, Hk'.
Qed.

Lemma mapM_result_ext f (g : A → result B) l :
  (∀ x, x ∈ l → f x = g x) → mapM f l = mapM g l.
Proof.
  induction l as [|x l IH]; intros Hfg; [done|].
  rewrite !mapM_result_cons, Hfg by left. by rewrite IH by (intros; apply Hfg; by right).
Qed.

Lemma mapM_result_length f l k : mapM f l = Ok k → length k = length l.
Proof. intros Hk%mapM_result_Ok. symmetry. by eapply Forall2_length. Qed.

Lemma mapM_result_lookup f l k i x :
  mapM f l = Ok k → l !! i = Some x → ∃ y, k !! i = Some y ∧ f x = Ok y.
Proof. intros Hk%mapM_result_Ok Hx. by eapply Forall2_lookup_l in Hk. Qed.

Lemma mapM_result_is_Ok f l : is_Ok (mapM f l) ↔ Forall (λ x, is_Ok (f x)) l.
Proof.
  induction l as [|x l IH]; [split; [constructor|by eexists]|].
  rewrite mapM_result_cons, Forall_cons, <-IH. unfold is_Ok.
  destruct (f x) as [y|]; simpl; [|naive_solver].
  destruct (mapM f l); simpl; naive_solver.
Qed.

(** The exception of a failing loop is that of its first failing item. *)
Lemma mapM_result_Raise f l e :
  mapM f l = Raise e ↔
  ∃ l1 x l2, l = l1 ++ x :: l2 ∧ Forall (λ y, is_Ok (f y)) l1 ∧ f x = Raise e.
Proof.
  induction l as [|x l IH].
  { split; [done|]. by intros ([|??] & ? & ? & ? & _). }
  rewrite mapM_result_cons. destruct (f x) as [y|e'] eqn:E; simpl.
  - assert (mapM f l ≫= (λ k, Ok (y :: k)) = Raise e ↔ mapM f l = Raise e) as ->
      by (destruct (mapM f l); naive_solver).
    rewrite IH. split.
    + intros (l1 & x' & l2 & -> & ? & ?). exists (x :: l1), x', l2.
      split; [done|]. split; [|done]. constructor; [by eexists|done].
    + intros ([|z l1] & x' & l2 & Heq & Hl1 & He); simplify_eq/=; [congruence|].
      apply Forall_cons in Hl1 as [_ Hl1]. by exists l1, x', l2.
  - split.
    + intros [= ->]. by exists [], x, l.
    + intros ([|z l1] & x' & l2 & Heq & Hl1 & He); simplify_eq/=; [congruence|].
      apply Forall_cons in Hl1 as [[? ?] _]. congruence.
Qed.

Lemma foldM_snoc_mapM f (acc : list B) l :
  foldM (λ ret x, y ← f x; Ok (ret ++ [y])) acc l = (λ ys, acc ++ ys) <$> mapM f l.
Proof.
  revert acc. induction l as [|x l IH]; intros acc.
  - simpl. by rewrite app_nil_r.
  - rewrite mapM_result_cons. simpl. destruct (f x) as [y|e]; simpl; [|done].
    rewrite IH. destruct (mapM f l); simpl; [|done]. by rewrite <-app_assoc.
Qed.

End mapM_result.

(** Loops over [range(n)], by index. *)
Lemma mapM_seq_Ok {B} (f : nat → result B) (n : nat) (k : list B) :
  mapM f (seq 0 n) = Ok k ↔ length k = n ∧ ∀ i, i < n → ∃ y, k !! i = Some y ∧ f i = Ok y.
Proof.
  rewrite mapM_result_Ok, Forall2_same_length_lookup, length_seq. split.
  - intros [Hlen Hall]. split; [done|]. intros i Hi.
    destruct (lookup_lt_is_Some_2 k i) as [y Hy]; [lia|]. exists y. split; [done|].
    apply (Hall i); [|done]. apply lookup_seq. lia.
  - intros [Hlen Hall]. split; [done|]. intros i x y [-> Hi]%lookup_seq Hy.
    destruct (Hall i Hi) as (y' & ? & ?). by simplify_eq/=.
Qed.

Lemma mapM_seq_is_Ok {B} (f : nat → result B) (n : nat) :
  is_Ok (mapM f (seq 0 n)) ↔ ∀ i, i < n → is_Ok (f i).
Proof.
  rewrite mapM_result_is_Ok, Forall_forall. setoid_rewrite elem_of_seq.
  split; intros Hall i ?; apply Hall; lia.
Qed.

Lemma mapM_seq_Raise {B} (f : nat → result B) (n : nat) (e : exn) :
  mapM f (seq 0 n) = Raise e ↔
  ∃ i, i < n ∧ f i = Raise e ∧ ∀ j, j < i → is_Ok (f j).
Proof.
  rewrite mapM_result_Raise. split.
  - intros (l1 & x & l2 & Heq & Hl1 & He).
    assert (seq 0 n !! length l1 = Some x) as [-> Hlt]%lookup_seq
      by (rewrite Heq; by apply list_lookup_middle).
    exists (length l1). split; [done|]. split; [done|]. intros j Hj.
    rewrite Forall_forall in Hl1. apply Hl1.
    assert (seq 0 n !! j = Some j) as Hsj by (apply lookup_seq; lia).
    rewrite Heq, lookup_app_l in Hsj by done. by eapply list_elem_of_lookup_2.
  - intros (i & Hi & He & Hbefore).
    exists (seq 0 i), i, (seq (S i) (n - S i)). split; [|split; [|done]].
    + replace n with (i + S (n - S i)) at 1 by lia. by rewrite seq_app.
    + apply Forall_forall. intros j [_ ?]%elem_of_seq. apply Hbefore. lia.
Qed.

(** ** Lemmas on ranges *)

Lemma py_range_length (stop : Z) : length (py_range stop) = Z.to_nat stop.
Proof. apply length_seq. Qed.

Lemma elem_of_py_range (stop : Z) (i : nat) :
  i ∈ py_range stop ↔ (Z.of_nat i < stop)%Z.
Proof. unfold py_range. rewrite elem_of_seq. lia. Qed.

Lemma py_range_of_nat (n : nat) : py_range (Z.of_nat n) = seq 0 n.
Proof. unfold py_range. by rewrite Nat2Z.id. Qed.

(** Reading a list at its positions, in order, gives the list. *)
Lemma omap_lookup_seq {A} (l : list A) : omap (l !!.) (seq 0 (length l)) = l.
Proof.
  induction l as [|x l IH] using rev_ind; [done|].
  rewrite length_app, Nat.add_1_r, seq_S, omap_app. simpl.
  rewrite lookup_app_r, Nat.sub_diag by done. simpl. f_equal.
  rewrite <-IH at 2. apply list_omap_ext, Forall2_same_length_lookup. split; [done|].
  intros i j k [Hj Hlt]%lookup_seq [Hk _]%lookup_seq. simplify_eq/=.
  by rewrite lookup_app_l.
Qed.

(** A dict built from a list has the positions of the list as keys. *)
Lemma size_map_seq {A} (k : nat) (l : list A) : size (map_seq k l : gmap nat A) = length l.
Proof. by rewrite <-size_dom, dom_seq_L, size_set_seq. Qed.

Lemma omap_lookup_map_seq {A} (l : list A) :
  omap ((map_seq 0 l : gmap nat A) !!.) (seq 0 (size (map_seq 0 l : gmap nat A))) = l.
Proof.
  rewrite size_map_seq.
  rewrite <-(omap_lookup_seq l) at 2. apply list_omap_ext, Forall2_same_length_lookup.
  split; [done|]. intros i j k [Hj Hlt]%lookup_seq [Hk _]%lookup_seq. simplify_eq/=.
  apply lookup_map_seq_0.
Qed.

Lemma map_seq_keys {A} (l : list A) :
  Forall (λ i, is_Some ((map_seq 0 l : gmap nat A) !! i))
    (seq 0 (size (map_seq 0 l : gmap nat A))).
Proof.
  apply Forall_forall. intros i [_ Hi]%elem_of_seq. revert Hi.
  rewrite size_map_seq, lookup_map_seq_0. simpl. apply lookup_lt_is_Some_2.
Qed.

(** A function with distinct images on a list is injective on it. *)
Lemma NoDup_fmap_elem_inj {A B} (f : A → B) (l : list A) (x y : A) :
  NoDup (f <$> l) → x ∈ l → y ∈ l → f x = f y → x = y.
Proof.
  induction l as [|a l IH]; [by intros _ ?%elem_of_nil|].
  rewrite fmap_cons, NoDup_cons, !elem_of_cons. intros [Ha Hnd] [->|Hx] [->|Hy] Hxy; auto.
  - destruct Ha. rewrite Hxy. by apply list_elem_of_fmap_2.
  - destruct Ha. rewrite <-Hxy. by apply list_elem_of_fmap_2.
Qed.

Lemma filter_Forall_id {A} (P : A → Prop) `{∀ x, Decision (P x)} (l : list A) :
  Forall P l → filter P l = l.
Proof. induction 1 as [|x l Hx _ IH]; [done|]. by rewrite filter_cons_True, IH. Qed.

(** The items that pass a filter come first when as many items at the
    head of the list pass it. *)
Lemma take_filter_Forall {A} (P : A → Prop) `{∀ x, Decision (P x)} (l : list A) :
  Forall P (take (length (filter P l)) l) → take (length (filter P l)) l = filter P l.
Proof.
  intros Hall. pose proof (length_filter P l) as Hn.
  set (n := length (filter P l)) in *.
  assert (filter P l = take n l ++ filter P (drop n l)) as Heq.
  { rewrite <-(take_drop n l) at 1. by rewrite filter_app, filter_Forall_id. }
  assert (length (filter P (drop n l)) = 0) as Hd%length_zero_iff_nil.
  { apply (f_equal length) in Heq. rewrite length_app, length_take in Heq.
    fold n in Heq. lia. }
  by rewrite Heq, Hd, app_nil_r.
Qed.

Lemma py_range_pred (n : nat) : py_range (Z.of_nat n - 1) = seq 0 (n - 1).
Proof. unfold py_range. f_equal. lia. Qed.

Lemma py_range_nonpos (stop : Z) : (stop ≤ 0)%Z → py_range stop = [].
Proof. intros. unfold py_range. by replace (Z.to_nat stop) with 0 by lia. Qed.

Lemma elem_of_py_range2 (start stop : Z) (i : nat) :
  (0 ≤ start)%Z → i ∈ py_range2 start stop ↔ (start ≤ Z.of_nat i < stop)%Z.
Proof. intros. unfold py_range2. rewrite elem_of_seq. lia. Qed.

Lemma py_range2_0 (n : nat) : py_range2 0 (Z.of_nat n) = seq 0 n.
Proof. unfold py_range2. f_equal; lia. Qed.

Lemma py_range2_of_nat (a b : nat) :
  py_range2 (Z.of_nat a) (Z.of_nat b) = seq a (b - a).
Proof. unfold py_range2. f_equal; lia. Qed.
