(* ===== verification/PyString.v ===== *)
(** * Python string operations used by AnalysisHelper.py

    [str(int)] and ["%d"] (decimal printing, stdpp's [pretty] on [Z]),
    [s * n] (repetition, empty for [n <= 0]), [sep.join(l)], [len(s)],
    the text accumulated by [+=] in a loop, and the characters the source
    writes with escapes.  The lemmas give lengths, concatenation laws and
    injectivity of decimal printing.  [read_digits] and [int_of_str] read
    decimal text back: they are no part of the source, and serve to state
    that the texts printed lose nothing. *)

From Stdlib Require Import Ascii.
From S2P Require Import Prelude.

#[local] Open Scope string_scope.

(** ** Characters written with escapes in the source *)

Definition TAB : string := String "009"%char EmptyString.
Definition LF : string := String "010"%char EmptyString.
Definition ESC : string := String "027"%char EmptyString.
Definition DQUOTE : string := String "034"%char EmptyString.

(** ** Operations *)

(** [str(z)] for an int. *)
Definition str_int (z : Z) : string := pretty z.

(** ["%d" % z] for an int. *)
Definition fmt_d (z : Z) : string := pretty z.

(** [str(b)] for a bool. *)
Definition str_bool (b : bool) : string := if b then "True" else "False".

(** [len(s)]. *)
Definition py_len (s : string) : Z := Z.of_nat (String.length s).

Fixpoint str_replicate (n : nat) (s : string) : string :=
  match n with
  | O => EmptyString
  | S n' => s +:+ str_replicate n' s
  end.

(** [s * n]: the empty string when [n] is zero or negative. *)
Definition str_mul (s : string) (n : Z) : string := str_replicate (Z.to_nat n) s.

(** [sep.join(l)]. *)
Definition str_join (sep : string) (l : list string) : string := String.concat sep l.

(** [sep.join(l)] for a list that may hold [None]: a non-string item is a
    [TypeError]. *)
Definition str_join_opt (sep : string) (l : list (option string)) : result string :=
  match mapM id l with
  | Some l' => Ok (str_join sep l')
  | None => Raise TypeError
  end.

(** The text built by repeated [+=]: the pieces one after the other. *)
Definition str_concat (l : list string) : string := foldr String.append EmptyString l.

(** ** Reading decimal text *)

(** The value of a decimal digit. *)
Definition digit_of (c : ascii) : option N :=
  let n := N_of_ascii c in
  if (48 <=? n)%N && (n <=? 57)%N then Some (n - 48)%N else None.

(** The number written by [s] after the digits that gave [acc]. *)
Fixpoint read_digits (acc : N) (s : string) : option N :=
  match s with
  | EmptyString => Some acc
  | String c s' => d ← digit_of c; read_digits (10 * acc + d) s'
  end.

(** [int(s)] for the texts [str] writes: digits, after a minus sign for a
    negative number. *)
Definition int_of_str (s : string) : option Z :=
  match s with
  | EmptyString => None
  | String c s' =>
      if Ascii.eqb c "-" then
        match s' with
        | EmptyString => None
        | _ => n ← read_digits 0 s'; Some (- Z.of_N n)%Z
        end
      else Z.of_N <$> read_digits 0 s
  end.

(** The text before the first point and the text after it. *)
Fixpoint split_dot (s : string) : option (string * string) :=
  match s with
  | EmptyString => None
  | String c s' =>
      if Ascii.eqb c "." then Some (EmptyString, s')
      else '(a, b) ← split_dot s'; Some (String c a, b)
  end.

(** ** Concatenation *)

Lemma str_app_nil_l (s : string) : EmptyString +:+ s = s.
Proof. reflexivity. Qed.

Lemma str_app_cons (c : ascii) (s t : string) :
  String c s +:+ t = String c (s +:+ t).
Proof. reflexivity. Qed.

Lemma str_app_nil_r (s : string) : s +:+ EmptyString = s.
Proof. induction s as [|c s IH]; [done|]. by rewrite str_app_cons, IH. Qed.

Lemma str_app_assoc (s1 s2 s3 : string) : s1 +:+ (s2 +:+ s3) = (s1 +:+ s2) +:+ s3.
Proof. induction s1 as [|c s1 IH]; [done|]. by rewrite !str_app_cons, IH. Qed.

Lemma str_length_app (s1 s2 : string) :
  String.length (s1 +:+ s2) = String.length s1 + String.length s2.
Proof. induction s1 as [|c s1 IH]; [done|]. rewrite str_app_cons. simpl. by rewrite IH. Qed.

Lemma str_app_inv_head (s s1 s2 : string) : s +:+ s1 = s +:+ s2 → s1 = s2.
Proof. apply String.app_inj. Qed.

(** Two concatenations with heads of equal length agree part by part. *)
Lemma str_app_inj_length (a b c d : string) :
  String.length a = String.length c → a +:+ b = c +:+ d → a = c ∧ b = d.
Proof.
  revert c. induction a as [|x a IH]; intros [|y c] Hlen Heq; simpl in *; try done.
  rewrite !str_app_cons in Heq. injection Heq as -> Heq.
  destruct (IH c) as [-> ->]; [lia | done | done].
Qed.

Lemma str_app_inv_tail (s s1 s2 : string) : s1 +:+ s = s2 +:+ s → s1 = s2.
Proof.
  intros Heq. apply (str_app_inj_length s1 s s2 s); [|done].
  apply (f_equal String.length) in Heq. rewrite !str_length_app in Heq. lia.
Qed.

#[export] Hint Rewrite str_app_nil_r str_length_app : py.

(** ** Repetition *)

Lemma str_replicate_length (n : nat) (s : string) :
  String.length (str_replicate n s) = n * String.length s.
Proof. induction n; simpl; [done|]. rewrite str_length_app. lia. Qed.

Lemma str_mul_length (s : string) (n : Z) :
  String.length (str_mul s n) = Z.to_nat n * String.length s.
Proof. apply str_replicate_length. Qed.

Lemma str_mul_nonpos (s : string) (n : Z) : (n ≤ 0)%Z → str_mul s n = EmptyString.
Proof. intros. unfold str_mul. by replace (Z.to_nat n) with 0 by lia. Qed.

Lemma str_mul_char_length (c : ascii) (n : Z) :
  (0 ≤ n)%Z → py_len (str_mul (String c EmptyString) n) = n.
Proof. intros. unfold py_len. rewrite str_mul_length. simpl. lia. Qed.

(** ** Joining *)

Lemma str_join_nil (sep : string) : str_join sep [] = EmptyString.
Proof. done. Qed.

Lemma str_join_singleton (sep s : string) : str_join sep [s] = s.
Proof. done. Qed.

Lemma str_join_cons (sep s s' : string) (l : list string) :
  str_join sep (s :: s' :: l) = s +:+ sep +:+ str_join sep (s' :: l).
Proof. done. Qed.

Lemma str_join_snoc (sep s : string) (l : list string) :
  l ≠ [] → str_join sep (l ++ [s]) = str_join sep l +:+ sep +:+ s.
Proof.
  induction l as [|x [|y l] IH]; intros Hne; [done|done|].
  change (str_join sep ((x :: y :: l) ++ [s])%list)
    with (x +:+ sep +:+ str_join sep ((y :: l) ++ [s])%list).
  rewrite IH, str_join_cons by done.
  by rewrite !str_app_assoc.
Qed.

Lemma mapM_id_Some {A} (l : list (option A)) (l' : list A) :
  mapM id l = Some l' ↔ l = Some <$> l'.
Proof.
  rewrite mapM_Some. split.
  - intros E. apply list_eq_Forall2. apply Forall2_fmap_r.
    eapply Forall2_impl; [exact E|]. by intros ?? ?.
  - intros ->. apply Forall2_fmap_l. by apply Forall_Forall2_diag, Forall_true.
Qed.

Lemma mapM_id_None {A} (l : list (option A)) : mapM id l = None ↔ None ∈ l.
Proof.
  rewrite mapM_None, Exists_exists. split.
  - by intros ([|] & ? & ?).
  - intros ?. by exists None.
Qed.

Lemma str_join_opt_Ok (sep : string) (l : list (option string)) (s : string) :
  str_join_opt sep l = Ok s ↔ ∃ l', l = Some <$> l' ∧ s = str_join sep l'.
Proof.
  unfold str_join_opt. destruct (mapM id l) as [l'|] eqn:E.
  - apply mapM_id_Some in E as ->. split; [naive_solver|].
    intros (l'' & ->%(inj (fmap Some)) & ->). done.
  - apply mapM_id_None in E. split; [done|]. intros (l' & -> & _).
    apply list_elem_of_fmap in E as (? & [=] & _).
Qed.

Lemma str_join_opt_Some (sep : string) (l : list string) :
  str_join_opt sep (Some <$> l) = Ok (str_join sep l).
Proof. apply str_join_opt_Ok. eauto. Qed.

Lemma str_join_opt_Raise (sep : string) (l : list (option string)) (e : exn) :
  str_join_opt sep l = Raise e ↔ None ∈ l ∧ e = TypeError.
Proof.
  unfold str_join_opt. destruct (mapM id l) as [l'|] eqn:E.
  - apply mapM_id_Some in E as ->. split; [done|].
    intros [(? & [=] & _)%list_elem_of_fmap _].
  - apply mapM_id_None in E. naive_solver.
Qed.

(** ** Accumulation *)

Lemma str_concat_cons (s : string) (l : list string) :
  str_concat (s :: l) = s +:+ str_concat l.
Proof. done. Qed.

Lemma str_concat_app (l1 l2 : list string) :
  str_concat (l1 ++ l2) = str_concat l1 +:+ str_concat l2.
Proof.
  induction l1 as [|s l1 IH]; [done|].
  by rewrite <-app_comm_cons, !str_concat_cons, IH, str_app_assoc.
Qed.

(** A loop of [acc += f x] appends the pieces in order. *)
Lemma foldl_str_concat {A} (f : A → string) (acc : string) (l : list A) :
  foldl (λ acc x, acc +:+ f x) acc l = acc +:+ str_concat (f <$> l).
Proof.
  revert acc. induction l as [|x l IH]; intros acc.
  - apply eq_sym, str_app_nil_r.
  - rewrite fmap_cons, str_concat_cons, str_app_assoc. apply IH.
Qed.

(** Iterations that append nothing can be left out. *)
Lemma str_concat_omap {A B} (f : A → option B) (g : B → string) (l : list A) :
  str_concat ((λ x, from_option g EmptyString (f x)) <$> l) = str_concat (g <$> omap f l).
Proof.
  induction l as [|x l IH]; [done|].
  rewrite fmap_cons, str_concat_cons, IH. simpl. by destruct (f x).
Qed.

(** The pieces of a nested loop, grouped by iteration of the outer one. *)
Lemma str_concat_bind {A B} (g : B → string) (f : A → list B) (l : list A) :
  str_concat (g <$> (l ≫= f)) = str_concat ((λ x, str_concat (g <$> f x)) <$> l).
Proof.
  induction l as [|x l IH]; [done|].
  by rewrite bind_cons, fmap_app, str_concat_app, fmap_cons, str_concat_cons, IH.
Qed.

(** ** Decimal printing *)

Lemma str_int_inj (z1 z2 : Z) : str_int z1 = str_int z2 → z1 = z2.
Proof. apply (inj pretty). Qed.

Lemma fmt_d_str_int (z : Z) : fmt_d z = str_int z.
Proof. done. Qed.

Lemma str_int_of_nat_inj (n1 n2 : nat) :
  str_int (Z.of_nat n1) = str_int (Z.of_nat n2) → n1 = n2.
Proof. intros H%str_int_inj. lia. Qed.

(** ** Decimal digits *)

Lemma digit_of_pretty_N_char (d : N) : (d < 10)%N → digit_of (pretty_N_char d) = Some d.
Proof.
  intros Hd.
  assert (d ∈ [0; 1; 2; 3; 4; 5; 6; 7; 8; 9]%N) as Hin
    by (rewrite !elem_of_cons; lia).
  rewrite !elem_of_cons, elem_of_nil in Hin. by destruct_or!; subst.
Qed.

Lemma digit_of_not_dot (c : ascii) : is_Some (digit_of c) → Ascii.eqb c "." = false.
Proof. destruct (Ascii.eqb_spec c "."); [subst; by intros [? [=]]|done]. Qed.

Lemma digit_of_not_dash (c : ascii) : is_Some (digit_of c) → Ascii.eqb c "-" = false.
Proof. destruct (Ascii.eqb_spec c "-"); [subst; by intros [? [=]]|done]. Qed.

Lemma read_digits_app (a : N) (s1 s2 : string) :
  read_digits a (s1 +:+ s2) = read_digits a s1 ≫= λ a', read_digits a' s2.
Proof.
  revert a. induction s1 as [|c s1 IH]; intros a; [done|].
  rewrite str_app_cons. simpl. destruct (digit_of c); simpl; [apply IH|done].
Qed.

Lemma read_digits_zeros (k : nat) (s : string) :
  read_digits 0 (str_replicate k "0" +:+ s) = read_digits 0 s.
Proof. induction k as [|k IH]; [done|]. simpl. exact IH. Qed.

(** The digits of a number are written before what follows. *)
Lemma pretty_N_go_app (x : N) (s : string) : pretty_N_go x s = pretty_N_go x "" +:+ s.
Proof.
  revert s. induction (N.lt_wf_0 x) as [x _ IH]; intros s.
  destruct (decide (x = 0)%N) as [->|]; [done|].
  assert (x `div` 10 < x)%N as Hlt by (apply N.div_lt; lia).
  rewrite (pretty_N_go_step x s), (pretty_N_go_step x "") by lia.
  rewrite (IH _ Hlt (String _ s)), (IH _ Hlt (String _ "")).
  by rewrite <-str_app_assoc.
Qed.

Lemma pretty_N_go_snoc (x : N) :
  (0 < x)%N →
  pretty_N_go x "" =
  pretty_N_go (x `div` 10) "" +:+ String (pretty_N_char (x `mod` 10)) "".
Proof. intros. by rewrite pretty_N_go_step, pretty_N_go_app. Qed.

(** Reading the digits of [x] appends them to the number read so far. *)
Lemma read_digits_pretty_N_go (x a : N) :
  read_digits a (pretty_N_go x "") =
  Some (a * 10 ^ N.of_nat (String.length (pretty_N_go x "")) + x)%N.
Proof.
  revert a. induction (N.lt_wf_0 x) as [x _ IH]; intros a.
  destruct (decide (x = 0)%N) as [->|]; [simpl; f_equal; lia|].
  rewrite pretty_N_go_snoc, read_digits_app, IH by (try apply N.div_lt; lia).
  simpl. rewrite digit_of_pretty_N_char by (apply N.mod_lt; lia). simpl. f_equal.
  rewrite str_length_app, Nat2N.inj_add, N.pow_add_r. simpl (String.length (String _ _)).
  change (10 ^ N.of_nat 1)%N with 10%N.
  generalize (10 ^ N.of_nat (String.length (pretty_N_go (x `div` 10) "")))%N. intros K.
  pose proof (N.div_mod x 10). lia.
Qed.

(** A number below [10 ^ k] has at most [k] digits. *)
Lemma pretty_N_go_length (k : nat) (x : N) :
  (x < 10 ^ N.of_nat k)%N → (String.length (pretty_N_go x "") ≤ k)%nat.
Proof.
  revert x. induction k as [|k IH]; intros x Hx.
  { assert (x = 0%N) as -> by (simpl in Hx; lia). simpl. lia. }
  destruct (decide (x = 0)%N) as [->|]; [simpl; lia|].
  rewrite pretty_N_go_snoc, str_length_app by lia. simpl.
  rewrite Nat2N.inj_succ, N.pow_succ_r' in Hx.
  specialize (IH (x `div` 10)%N (N.Div0.div_lt_upper_bound _ _ _ Hx)). lia.
Qed.

Lemma pretty_N_go_nonempty (x : N) : (0 < x)%N → (0 < String.length (pretty_N_go x ""))%nat.
Proof. intros. rewrite pretty_N_go_snoc, str_length_app by done. simpl. lia. Qed.

(** The text of a natural number, and what reading it gives. *)
Lemma str_int_nonneg (z : Z) :
  (0 ≤ z)%Z → z ≠ 0%Z → str_int z = pretty_N_go (Z.to_N z) "".
Proof. destruct z as [|p|p]; [done| |lia]. intros _ _. reflexivity. Qed.

Lemma read_digits_str_int (z : Z) :
  (0 ≤ z)%Z → read_digits 0 (str_int z) = Some (Z.to_N z).
Proof.
  intros Hz. destruct (decide (z = 0%Z)) as [->|]; [done|].
  by rewrite str_int_nonneg, read_digits_pretty_N_go by done.
Qed.

Lemma str_int_length_le (k : nat) (z : Z) :
  (0 < k)%nat → (0 ≤ z < 10 ^ Z.of_nat k)%Z → (String.length (str_int z) ≤ k)%nat.
Proof.
  intros Hk Hz. destruct (decide (z = 0%Z)) as [->|]; [simpl; lia|].
  rewrite str_int_nonneg by lia. apply pretty_N_go_length.
  apply N2Z.inj_lt. rewrite Z2N.id, N2Z.inj_pow, nat_N_Z by lia. simpl. lia.
Qed.

Lemma str_int_digit (z : Z) : (0 ≤ z < 10)%Z → String.length (str_int z) = 1.
Proof.
  intros Hz. assert (z ∈ [0; 1; 2; 3; 4; 5; 6; 7; 8; 9]%Z) as Hin
    by (rewrite !elem_of_cons; lia).
  rewrite !elem_of_cons, elem_of_nil in Hin. by destruct_or!; subst.
Qed.

(** Splitting at the point after a text of digits. *)
Lemma split_dot_digits (acc : N) (a b : string) :
  is_Some (read_digits acc a) → split_dot (a +:+ "." +:+ b) = Some (a, b).
Proof.
  revert acc. induction a as [|c a IH]; intros acc; [done|].
  rewrite str_app_cons. simpl. destruct (digit_of c) as [d|] eqn:Hc; simpl; [|by intros [? [=]]].
  intros Ha. rewrite digit_of_not_dot by (by rewrite Hc). by rewrite (IH _ Ha).
Qed.

(** A text of digits is read as a natural number. *)
Lemma int_of_str_digits (s : string) (n : N) :
  s ≠ EmptyString → read_digits 0 s = Some n → int_of_str s = Some (Z.of_N n).
Proof.
  destruct s as [|c s]; [done|]. intros _ Hr. pose proof Hr as Hr'. simpl in Hr'.
  destruct (digit_of c) as [d|] eqn:Hc; [|done].
  unfold int_of_str. rewrite digit_of_not_dash by (by rewrite Hc). by rewrite Hr.
Qed.

Lemma pretty_N_go_ne_empty (x : N) : (0 < x)%N → pretty_N_go x "" ≠ EmptyString.
Proof. intros Hx Hs. apply pretty_N_go_nonempty in Hx. rewrite Hs in Hx. simpl in Hx. lia. Qed.

(** ** Properties *)

(** The text of an int loses nothing: reading the text [str] writes,
    digits after a minus sign for a negative number, gives the int
    back. *)
Theorem int_of_str_str_int (z : Z) : int_of_str (str_int z) = Some z.
Proof.
  destruct z as [|p|p]; [done|..].
  - rewrite (str_int_nonneg (Z.pos p)) by done.
    rewrite (int_of_str_digits _ (N.pos p)); [done|by apply pretty_N_go_ne_empty|].
    by rewrite read_digits_pretty_N_go.
  - change (str_int (Z.neg p)) with (String "-" (pretty_N_go (N.pos p) "")).
    cbn [int_of_str]. change (Ascii.eqb "-" "-") with true. cbv iota.
    pose proof (pretty_N_go_ne_empty (N.pos p) eq_refl) as Hne.
    rewrite read_digits_pretty_N_go. by destruct (pretty_N_go (N.pos p) "").
Qed.

