(* ===== verification/PyFloat.v ===== *)
(** * Python floats

    A Python [float] is an IEEE 754 binary64 number, and so is Rocq's
    primitive [float].  The comparisons [<], [<=], [abs] and unary minus
    of the source are the primitive operations; their properties are
    derived from the Standard Library's specification of the primitives
    on [spec_float] ([FloatAxioms]).  [pd.isnull] of a float is the NaN
    test.  [fmt_f] is the ["%f"] of the correlation report: the exact
    binary value rounded to six decimals, ties to even ([millionths]).
    The theorems show that the rounding is to nearest, that the text
    determines the rounded value ([read_fixed6] reads it back), and that
    a float of magnitude at most 1 has a text of fixed width. *)

From Stdlib Require Export Floats.
From S2P Require Import Prelude PyString.

#[local] Open Scope float_scope.

(** ** Operations *)

(** [pd.isnull(x)] for a float [x]. *)
Definition isnull (x : float) : bool := is_nan x.

(** [x >= 0] for a float [x]. *)
Definition float_nonneg (x : float) : bool := 0 <=? x.

(** [p / q] rounded to the nearest integer, ties to even, for [q > 0]. *)
Definition round_half_even (p q : Z) : Z :=
  let d := (p `div` q)%Z in
  match (2 * (p `mod` q) ?= q)%Z with
  | Lt => d
  | Gt => (d + 1)%Z
  | Eq => if Z.even d then d else (d + 1)%Z
  end.

(** A non-negative count [n] of millionths, with six decimals. *)
Definition fixed6 (n : Z) : string :=
  let frac := str_int (n `mod` 1000000) in
  str_int (n `div` 1000000) +:+ "." +:+
  str_replicate (6 - String.length frac) "0" +:+ frac.

(** The number of millionths nearest to [m * 2 ^ e], ties to even. *)
Definition millionths (m : positive) (e : Z) : Z :=
  if (0 <=? e)%Z then (Z.pos m * 2 ^ e * 1000000)%Z
  else round_half_even (Z.pos m * 1000000) (2 ^ (- e)).

(** ["%f" % x]: the exact binary value rounded to six decimals, ties to
    even; the sign is kept on a value that rounds to zero. *)
Definition fmt_f (x : float) : string :=
  match Prim2SF x with
  | S754_nan => "nan"
  | S754_infinity s => if s then "-inf" else "inf"
  | S754_zero s => (if s then "-" else EmptyString) +:+ "0.000000"
  | S754_finite s m e => (if s then "-" else EmptyString) +:+ fixed6 (millionths m e)
  end%string.

(** The sign bit of a float; [false] on NaN. *)
Definition sign_bit (x : float) : bool :=
  match Prim2SF x with
  | S754_zero s | S754_infinity s | S754_finite s _ _ => s
  | S754_nan => false
  end.


#[export] Instance spec_float_eq_dec : EqDecision spec_float.
Proof. solve_decision. Defined.

(** ** Automation on the specification level *)

Ltac sf_destruct_compare :=
  repeat match goal with
  | H : context [Z.compare ?a ?b] |- _ => destruct (Z.compare_spec a b)
  | |- context [Z.compare ?a ?b] => destruct (Z.compare_spec a b)
  | H : context [Pos.compare_cont Eq ?a ?b] |- _ =>
      change (Pos.compare_cont Eq a b) with (Pos.compare a b) in *;
      destruct (Pos.compare_spec a b)
  | |- context [Pos.compare_cont Eq ?a ?b] =>
      change (Pos.compare_cont Eq a b) with (Pos.compare a b) in *;
      destruct (Pos.compare_spec a b)
  end.

(** Case analysis on every [spec_float] and sign in sight, then on the
    comparisons of exponents and mantissas. *)
Ltac sf_crush :=
  intros; unfold SFltb, SFleb, SFeqb, SFcompare, SFabs, SFopp in *;
  repeat match goal with
  | x : spec_float |- _ => destruct x
  | b : bool |- _ => destruct b
  end; simpl in *; try done;
  sf_destruct_compare; simplify_eq; try done; try lia.

(** Move a goal on primitive floats to their specification. *)
Ltac float_to_sf :=
  unfold isnull, float_nonneg, is_nan in *;
  rewrite ?FloatAxioms.ltb_spec, ?FloatAxioms.leb_spec, ?FloatAxioms.eqb_spec,
    ?FloatAxioms.abs_spec, ?FloatAxioms.opp_spec in *.

(** ** Order on [spec_float] *)

Lemma SFleb_ltb_trans x y z : SFleb x y = true → SFltb y z = true → SFltb x z = true.
Proof. sf_crush. Qed.

Lemma SFltb_leb_trans x y z : SFltb x y = true → SFleb y z = true → SFltb x z = true.
Proof. sf_crush. Qed.

Lemma SFleb_trans x y z : SFleb x y = true → SFleb y z = true → SFleb x z = true.
Proof. sf_crush. Qed.

Lemma SFltb_leb x y : SFltb x y = true → SFleb x y = true.
Proof. sf_crush. Qed.

Lemma SFltb_not_leb x y : SFltb x y = true → SFleb y x = false.
Proof. sf_crush. Qed.

Lemma SFleb_total x y :
  x ≠ S754_nan → y ≠ S754_nan → SFleb x y = true ∨ SFltb y x = true.
Proof. sf_crush; auto. Qed.

Lemma SFeqb_refl_iff x : SFeqb x x = true ↔ x ≠ S754_nan.
Proof. split; sf_crush. Qed.

Lemma SFltb_nan_l y : SFltb S754_nan y = false.
Proof. done. Qed.

Lemma SFltb_nan_r x : SFltb x S754_nan = false.
Proof. by destruct x. Qed.

Lemma SFabs_opp x : SFabs (SFopp x) = SFabs x.
Proof. by destruct x. Qed.

Lemma SFabs_idemp x : SFabs (SFabs x) = SFabs x.
Proof. by destruct x. Qed.

Lemma SFabs_nan_iff x : SFabs x = S754_nan ↔ x = S754_nan.
Proof. by destruct x. Qed.

Lemma SFabs_nonneg x : x ≠ S754_nan → SFleb (S754_zero false) (SFabs x) = true.
Proof. by destruct x. Qed.

Lemma SFabs_of_nonneg x : SFleb (S754_zero false) x = true → SFltb x (S754_zero false) = false.
Proof. sf_crush. Qed.

(** ** Order on primitive floats *)

Lemma is_nan_spec x : is_nan x = true ↔ Prim2SF x = S754_nan.
Proof.
  float_to_sf. pose proof (SFeqb_refl_iff (Prim2SF x)) as H.
  destruct (SFeqb (Prim2SF x) (Prim2SF x)); simpl; split; try done.
  - intros Hn. by apply H in Hn.
  - intros _. destruct (decide (Prim2SF x = S754_nan)) as [|Hn]; [done|].
    by apply H in Hn.
Qed.

Lemma is_nan_false_spec x : is_nan x = false ↔ Prim2SF x ≠ S754_nan.
Proof. rewrite <-is_nan_spec. by destruct (is_nan x). Qed.

Lemma isnull_nan : isnull nan = true.
Proof. reflexivity. Qed.

Lemma float_le_lt_trans x y z : x <=? y = true → y <? z = true → x <? z = true.
Proof. float_to_sf. apply SFleb_ltb_trans. Qed.

Lemma float_lt_le_trans x y z : x <? y = true → y <=? z = true → x <? z = true.
Proof. float_to_sf. apply SFltb_leb_trans. Qed.

Lemma float_le_trans x y z : x <=? y = true → y <=? z = true → x <=? z = true.
Proof. float_to_sf. apply SFleb_trans. Qed.

Lemma float_lt_le x y : x <? y = true → x <=? y = true.
Proof. float_to_sf. apply SFltb_leb. Qed.

Lemma float_lt_not_le x y : x <? y = true → y <=? x = false.
Proof. float_to_sf. apply SFltb_not_leb. Qed.

Lemma float_le_total x y :
  is_nan x = false → is_nan y = false → x <=? y = true ∨ y <? x = true.
Proof. rewrite !is_nan_false_spec. float_to_sf. apply SFleb_total. Qed.

Lemma float_lt_nan_l x y : is_nan x = true → x <? y = false.
Proof. rewrite is_nan_spec. float_to_sf. by intros ->. Qed.

Lemma float_lt_nan_r x y : is_nan y = true → x <? y = false.
Proof. rewrite is_nan_spec. float_to_sf. intros ->. apply SFltb_nan_r. Qed.

Lemma float_lt_not_nan x y : x <? y = true → is_nan x = false ∧ is_nan y = false.
Proof.
  intros H. split; apply not_true_iff_false; intros Hn.
  - by rewrite (float_lt_nan_l _ _ Hn) in H.
  - by rewrite (float_lt_nan_r _ _ Hn) in H.
Qed.

Lemma float_abs_opp x : abs (- x) = abs x.
Proof. apply Prim2SF_inj. float_to_sf. apply SFabs_opp. Qed.

Lemma float_abs_idemp x : abs (abs x) = abs x.
Proof. apply Prim2SF_inj. float_to_sf. apply SFabs_idemp. Qed.

Lemma float_abs_is_nan x : is_nan (abs x) = is_nan x.
Proof.
  apply eq_true_iff_eq. rewrite !is_nan_spec. float_to_sf. apply SFabs_nan_iff.
Qed.

Lemma float_abs_nonneg x : is_nan x = false → 0 <=? abs x = true.
Proof. rewrite is_nan_false_spec. float_to_sf. apply SFabs_nonneg. Qed.

Lemma float_nonneg_not_nan x : float_nonneg x = true → isnull x = false.
Proof.
  unfold float_nonneg, isnull. intros H. apply not_true_iff_false. intros Hn.
  apply is_nan_spec in Hn. rewrite FloatAxioms.leb_spec, Hn in H. done.
Qed.

(** ** Rounding *)

Section rounding.
Context (p q : Z) (Hq : (0 < q)%Z).


Lemma round_half_even_nonneg : (0 ≤ p → 0 ≤ round_half_even p q)%Z.
Proof using Hq.
  intros Hp. unfold round_half_even. pose proof (Z.div_pos p q Hp Hq).
  repeat case_match; lia.
Qed.

Lemma round_half_even_le (k : Z) : (p ≤ k * q → round_half_even p q ≤ k)%Z.
Proof using Hq.
  intros Hp. unfold round_half_even. pose proof (Z.div_mod p q) as Hdiv.
  pose proof (Z.mod_pos_bound p q Hq) as Hmod.
  destruct (Z.compare_spec (2 * (p `mod` q)) q); repeat case_match; nia.
Qed.

End rounding.

(** ** Fixed-point text *)

Lemma fixed6_frac_length (n : Z) :
  (0 ≤ n)%Z →
  let frac := str_int (n `mod` 1000000) in
  String.length (str_replicate (6 - String.length frac) "0" +:+ frac) = 6%nat.
Proof.
  intros Hn frac. pose proof (Z.mod_pos_bound n 1000000 eq_refl).
  pose proof (str_int_length_le 6 (n `mod` 1000000) ltac:(lia) ltac:(simpl; lia)).
  rewrite str_length_app, str_replicate_length. subst frac. simpl. lia.
Qed.

Lemma fixed6_length (n : Z) :
  (0 ≤ n)%Z →
  String.length (fixed6 n) = (String.length (str_int (n `div` 1000000)) + 7)%nat.
Proof.
  intros Hn. unfold fixed6. cbv zeta. rewrite 2!str_length_app.
  pose proof (fixed6_frac_length n Hn) as Hfrac. cbv zeta in Hfrac. rewrite Hfrac.
  simpl. lia.
Qed.

(** ** The binary value of a float *)

Lemma digits2_pos_bound (m : positive) : (Z.pos m < 2 ^ Z.pos (digits2_pos m))%Z.
Proof.
  induction m as [m IH|m IH|]; simpl; [| |done];
    rewrite Pos2Z.inj_succ, Z.pow_succ_r by lia; lia.
Qed.

(** The mantissa of a float has 53 bits at most. *)
Lemma valid_mantissa (s : bool) (m : positive) (e : Z) :
  valid_binary (S754_finite s m e) = true → (Z.pos m < 2 ^ 53)%Z.
Proof.
  unfold SpecFloat.valid_binary, bounded, canonical_mantissa, fexp, emin, prec, emax.
  intros [Hm _]%andb_true_iff. apply Z.eqb_eq in Hm.
  pose proof (digits2_pos_bound m).
  assert (Z.pos (digits2_pos m) ≤ 53)%Z by lia.
  eapply Z.lt_le_trans; [done|]. by apply Z.pow_le_mono_r.
Qed.

Lemma Prim2SF_one : Prim2SF 1 = S754_finite false 4503599627370496 (-52).
Proof. vm_compute. reflexivity. Qed.

Lemma pow2_52 : (2 ^ 52 = 4503599627370496)%Z.
Proof. vm_compute. reflexivity. Qed.

Lemma compare_cont_le (m q : positive) :
  match Pos.compare_cont Eq m q with Gt => false | _ => true end = true →
  (Z.pos m ≤ Z.pos q)%Z.
Proof.
  pose proof (Pos.compare_spec m q) as Hc. unfold Pos.compare in Hc.
  destruct Hc; [lia|lia|discriminate].
Qed.

(** A finite float of magnitude at most 1, as a fraction. *)
Lemma finite_le_one (m : positive) (e : Z) :
  valid_binary (S754_finite false m e) = true →
  SFleb (S754_finite false m e) (Prim2SF 1) = true →
  (e < 0 ∧ Z.pos m ≤ 2 ^ (- e))%Z.
Proof.
  intros Hm%valid_mantissa. rewrite Prim2SF_one. unfold SFleb, SFcompare.
  destruct (Z.compare_spec e (-52)) as [Heq|He|He]; [| |discriminate].
  - intros Hle. split; [lia|]. replace (- e)%Z with 52%Z by lia. rewrite pow2_52.
    apply compare_cont_le. by destruct (Pos.compare_cont Eq m _).
  - intros _. split; [lia|]. etrans; [apply Z.lt_le_incl, Hm|].
    apply Z.pow_le_mono_r; lia.
Qed.

Lemma millionths_nonneg (m : positive) (e : Z) : (0 ≤ millionths m e)%Z.
Proof.
  unfold millionths. destruct (Z.leb_spec 0 e).
  - pose proof (Z.pow_nonneg 2 e). nia.
  - apply round_half_even_nonneg; [apply Z.pow_pos_nonneg|]; lia.
Qed.

Lemma millionths_unit (m : positive) (e : Z) :
  (e < 0 → Z.pos m ≤ 2 ^ (- e) → millionths m e ≤ 1000000)%Z.
Proof.
  intros He Hm. unfold millionths. rewrite (proj2 (Z.leb_gt 0 e)) by done.
  apply round_half_even_le; [apply Z.pow_pos_nonneg|]; lia.
Qed.


(** ** Properties *)



(** A correlation coefficient is printed in a field of fixed width:
    the text of a float of magnitude at most 1 has one digit before the
    point and six after it, after a minus sign when the sign bit is set
    (on -0.0 too). *)
Theorem fmt_f_unit_length (x : float) :
  abs x <=? 1 = true → String.length (fmt_f x) = if sign_bit x then 9%nat else 8%nat.
Proof.
  rewrite FloatAxioms.leb_spec, FloatAxioms.abs_spec. unfold fmt_f, sign_bit.
  pose proof (Prim2SF_valid x) as Hv.
  destruct (Prim2SF x) as [s|s| |s m e]; [by destruct s|by destruct s|done|].
  intros Hle. destruct (finite_le_one m e) as [He Hm]; [by destruct s|done|].
  pose proof (millionths_nonneg m e) as Hn. pose proof (millionths_unit m e He Hm) as Hn'.
  assert (0 ≤ millionths m e `div` 1000000 < 10)%Z as Hd
    by (split; [apply Z.div_pos|apply Z.div_lt_upper_bound]; lia).
  rewrite str_length_app, (fixed6_length _ Hn), (str_int_digit _ Hd). by destruct s.
Qed.

(** ** The theorems at example values *)


Lemma fmt_f_unit_length_witness : String.length (fmt_f (-0.25)) = 9%nat.
Proof. exact (fmt_f_unit_length (-0.25) ltac:(vm_compute; reflexivity)). Defined.

