(* ===== verification/Interval.v ===== *)
(** * get_interval: the strength bucket of a value

    [get_interval] (src/AnalysisHelper.py, lines 193-207) returns [None]
    for [None] and for strings, and otherwise the index of the first
    breakpoint strictly above [abs(value)], or [len(intervals) - 1] when
    no breakpoint is.  The file also holds the two class constants of
    [Helper] it is called with.  [first_above] and [bucket] are the
    reference definitions, by structural recursion on the breakpoints;
    the model of the source walks [range(len(intervals))] and subscripts
    the tuple as the code does. *)

From S2P Require Import Prelude PyFloat.

#[local] Set Warnings "-inexact-float".

(** ** Data *)

(** The values [get_interval] is applied to: [None], a string or a float. *)
Inductive pyval : Type :=
| PNone
| PStr (s : string)
| PFloat (x : float).

(** [Helper.corr_categories_intervals]. *)
Definition corr_categories_intervals : list float :=
  [0.2; 0.4; 0.6; 0.8; 1]%float.

(** [Helper.corr_categories_names]. *)
Definition corr_categories_names : list string :=
  ["very weak"; "weak"; "moderate"; "strong"; "very strong"]%string.

(** ** The source *)

(** The loop [for i in range(len(intervals))]: [Some i] when iteration [i]
    returns, [None] when the loop runs to its end. *)
Fixpoint get_interval_loop (value : float) (intervals : list float) (rng : list nat)
  : result (option nat) :=
  match rng with
  | [] => Ok None
  | i :: rng' =>
      b ← list_get intervals i;
      if (abs value <? b)%float then Ok (Some i)
      else get_interval_loop value intervals rng'
  end.

Definition get_interval (value : pyval) (intervals : list float) : result (option Z) :=
  match value with
  | PNone | PStr _ => Ok None
  | PFloat v =>
      r ← get_interval_loop v intervals (py_range (Z.of_nat (length intervals)));
      match r with
      | Some i => Ok (Some (Z.of_nat i))
      | None => Ok (Some (Z.of_nat (length intervals) - 1)%Z)
      end
  end.

(** ** Reference definitions *)

(** Index of the first breakpoint strictly above the magnitude [a]. *)
Fixpoint first_above (a : float) (intervals : list float) : option nat :=
  match intervals with
  | [] => None
  | b :: rest => if (a <? b)%float then Some 0 else S <$> first_above a rest
  end.

(** The bucket of a magnitude: the first breakpoint above it, clamped. *)
Definition bucket (a : float) (intervals : list float) : Z :=
  match first_above a intervals with
  | Some i => Z.of_nat i
  | None => (Z.of_nat (length intervals) - 1)%Z
  end.

(** A reference for the whole function, every kind of argument included. *)
Definition get_interval_ref (value : pyval) (intervals : list float) : option Z :=
  match value with
  | PFloat v => Some (bucket (abs v) intervals)
  | _ => None
  end.

(** ** The reference definition *)

Lemma first_above_Some a intervals i :
  first_above a intervals = Some i ↔
  (∃ b, intervals !! i = Some b ∧ (a <? b)%float = true) ∧
  (∀ j b, j < i → intervals !! j = Some b → (a <? b)%float = false).
Proof.
  revert i. induction intervals as [|b rest IH]; intros i; simpl.
  { split; [done|]. by intros [(? & ? & _) _]. }
  destruct (a <? b)%float eqn:Hab.
  - split.
    + intros [= <-]. split; [by exists b|]. lia.
    + intros [_ Hmin]. destruct i as [|i]; [done|].
      by rewrite (Hmin 0 b) in Hab by (done || lia).
  - rewrite fmap_Some. split.
    + intros (i' & [Hex Hmin]%IH & ->). split; [done|].
      intros [|j] b' Hj Hb'; simplify_eq/=; [done|]. apply (Hmin j); [lia|done].
    + intros [(b' & Hb' & Hlt) Hmin]. destruct i as [|i]; simplify_eq/=; [congruence|].
      exists i. split; [|done]. apply IH. split; [by exists b'|].
      intros j b'' ??. apply (Hmin (S j)); [lia|done].
Qed.

Lemma first_above_None a intervals :
  first_above a intervals = None ↔ Forall (λ b, (a <? b)%float = false) intervals.
Proof.
  induction intervals as [|b rest IH]; simpl; [done|].
  rewrite Forall_cons. destruct (a <? b)%float; [naive_solver|].
  rewrite fmap_None, IH. naive_solver.
Qed.

Lemma first_above_lt a intervals i :
  first_above a intervals = Some i → i < length intervals.
Proof. intros [(b & Hb & _) _]%first_above_Some. by eapply lookup_lt_Some. Qed.

Lemma first_above_nan a intervals : is_nan a = true → first_above a intervals = None.
Proof.
  intros Hn. apply first_above_None, Forall_forall. intros b _.
  by apply float_lt_nan_l.
Qed.

Lemma first_above_mono a1 a2 intervals i2 :
  (a1 <=? a2)%float = true → first_above a2 intervals = Some i2 →
  ∃ i1, first_above a1 intervals = Some i1 ∧ i1 ≤ i2.
Proof.
  intros Hle [(b & Hb & Hlt) _]%first_above_Some.
  pose proof (float_le_lt_trans a1 a2 b Hle Hlt) as Hlt1.
  destruct (first_above a1 intervals) as [i1|] eqn:E1.
  - exists i1. split; [done|]. apply first_above_Some in E1 as [_ Hmin].
    destruct (decide (i1 ≤ i2)) as [|Hgt]; [done|].
    rewrite (Hmin i2 b) in Hlt1; [done|lia|done].
  - rewrite first_above_None, Forall_forall in E1.
    apply list_elem_of_lookup_2 in Hb as Hin. apply E1 in Hin. congruence.
Qed.

Lemma bucket_range a intervals :
  (-1 ≤ bucket a intervals < Z.of_nat (length intervals))%Z.
Proof.
  unfold bucket. destruct (first_above a intervals) eqn:E; [|lia].
  apply first_above_lt in E. lia.
Qed.

Lemma bucket_nonneg a intervals : intervals ≠ [] → (0 ≤ bucket a intervals)%Z.
Proof.
  unfold bucket. destruct (first_above a intervals); [lia|].
  destruct intervals; [done|]. simpl. lia.
Qed.

(** ** The loop of the source computes the reference *)

Lemma get_interval_loop_seq v pre suf :
  get_interval_loop v (pre ++ suf) (seq (length pre) (length suf)) =
  Ok ((λ i, length pre + i) <$> first_above (abs v) suf).
Proof.
  revert pre. induction suf as [|b suf IH]; intros pre; simpl; [done|].
  unfold list_get. rewrite list_lookup_middle by done. simpl.
  destruct (abs v <? b)%float; simpl; [by rewrite Nat.add_0_r|].
  replace (pre ++ b :: suf) with ((pre ++ [b]) ++ suf) by by rewrite <-app_assoc.
  replace (S (length pre)) with (length (pre ++ [b])) by (rewrite length_app; simpl; lia).
  rewrite IH, length_app. simpl. f_equal.
  destruct (first_above (abs v) suf); simpl; [f_equal; lia|done].
Qed.

Lemma get_interval_loop_range v intervals :
  get_interval_loop v intervals (py_range (Z.of_nat (length intervals))) =
  Ok (first_above (abs v) intervals).
Proof.
  rewrite py_range_of_nat. pose proof (get_interval_loop_seq v [] intervals) as H.
  simpl in H. rewrite H. by destruct (first_above (abs v) intervals).
Qed.

Lemma get_interval_float v intervals :
  get_interval (PFloat v) intervals = Ok (Some (bucket (abs v) intervals)).
Proof.
  unfold get_interval, bucket. rewrite get_interval_loop_range. simpl.
  by destruct (first_above (abs v) intervals).
Qed.

#[export] Hint Rewrite get_interval_float : py.

(** ** Properties of [get_interval] *)

(** C3. [get_interval] never raises and agrees with the reference on every
    argument: [None] for [None] and strings, and for a float the index of
    the first breakpoint strictly above its magnitude, or
    [len(intervals) - 1] when there is none. *)
Theorem get_interval_refines (value : pyval) (intervals : list float) :
  get_interval value intervals = Ok (get_interval_ref value intervals).
Proof. destruct value; [done|done|apply get_interval_float]. Qed.

(** C20. The result for a float is [k] exactly when either breakpoint [k]
    is the first one strictly above [abs(value)], or no breakpoint is and
    [k] is the last index. *)
Theorem get_interval_first_breakpoint (v : float) (intervals : list float) (k : Z) :
  get_interval (PFloat v) intervals = Ok (Some k) ↔
  (∃ i b, k = Z.of_nat i ∧ intervals !! i = Some b ∧ (abs v <? b)%float = true ∧
     ∀ j b', j < i → intervals !! j = Some b' → (abs v <? b')%float = false) ∨
  (k = (Z.of_nat (length intervals) - 1)%Z ∧
     Forall (λ b, (abs v <? b)%float = false) intervals).
Proof.
  rewrite get_interval_float. unfold bucket.
  destruct (first_above (abs v) intervals) as [i|] eqn:E.
  - split.
    + intros [= <-]. left. apply first_above_Some in E as [(b & ? & ?) ?].
      by exists i, b.
    + intros [(i' & b & -> & Hb & Hlt & Hmin)|[_ Hall]].
      * assert (first_above (abs v) intervals = Some i') as E'
          by (apply first_above_Some; eauto).
        congruence.
      * apply first_above_None in Hall. congruence.
  - split.
    + intros [= <-]. right. by apply first_above_None in E.
    + intros [(i' & b & -> & Hb & Hlt & Hmin)|[-> _]]; [|done].
      assert (first_above (abs v) intervals = Some i') as E'
        by (apply first_above_Some; eauto).
      congruence.
Qed.

(** C21. For a float the result is an integer below [len(intervals)], and
    a valid index as soon as there is a breakpoint; with no breakpoint at
    all it is [-1]. *)
Theorem get_interval_bounds (v : float) (intervals : list float) :
  ∃ k, get_interval (PFloat v) intervals = Ok (Some k) ∧
       (-1 ≤ k < Z.of_nat (length intervals))%Z ∧
       (intervals ≠ [] → (0 ≤ k)%Z) ∧
       (intervals = [] → k = (-1)%Z).
Proof.
  exists (bucket (abs v) intervals). rewrite get_interval_float.
  split; [done|]. split; [apply bucket_range|]. split; [apply bucket_nonneg|].
  by intros ->.
Qed.

(** C12. The bucket is monotone in the magnitude: a value whose magnitude
    is at most that of another never gets a higher bucket, whatever the
    breakpoints. *)
Theorem get_interval_mono (v1 v2 : float) (intervals : list float) :
  (abs v1 <=? abs v2)%float = true →
  ∃ k1 k2, get_interval (PFloat v1) intervals = Ok (Some k1) ∧
           get_interval (PFloat v2) intervals = Ok (Some k2) ∧
           (k1 ≤ k2)%Z.
Proof.
  intros Hle. exists (bucket (abs v1) intervals), (bucket (abs v2) intervals).
  rewrite !get_interval_float. split; [done|]. split; [done|].
  unfold bucket at 2. destruct (first_above (abs v2) intervals) as [i2|] eqn:E2.
  - destruct (first_above_mono _ _ _ _ Hle E2) as (i1 & E1 & ?).
    unfold bucket. rewrite E1. lia.
  - pose proof (bucket_range (abs v1) intervals). lia.
Qed.

Lemma get_interval_mono_witness :
  ∃ k1 k2, get_interval (PFloat 0.3%float) corr_categories_intervals = Ok (Some k1) ∧
           get_interval (PFloat (-0.7)%float) corr_categories_intervals = Ok (Some k2) ∧
           (k1 ≤ k2)%Z.
Proof. apply get_interval_mono. vm_compute. reflexivity. Defined.

(** C27. The sign of the value is ignored. *)
Theorem get_interval_sign (v : float) (intervals : list float) :
  get_interval (PFloat (- v)%float) intervals = get_interval (PFloat v) intervals.
Proof. by rewrite !get_interval_float, float_abs_opp. Qed.

(** C28. A NaN compares below no breakpoint, so it falls through the loop
    and lands in the last bucket. *)
Theorem get_interval_nan (v : float) (intervals : list float) :
  isnull v = true →
  get_interval (PFloat v) intervals = Ok (Some (Z.of_nat (length intervals) - 1)%Z).
Proof.
  intros Hn. rewrite get_interval_float. unfold bucket.
  rewrite first_above_nan; [done|]. by rewrite float_abs_is_nan.
Qed.

Lemma get_interval_nan_witness :
  get_interval (PFloat nan) corr_categories_intervals = Ok (Some 4%Z).
Proof. apply (get_interval_nan nan corr_categories_intervals). reflexivity. Defined.

(** C29. The result is [None] exactly for the arguments that are [None]
    or a string. *)
Theorem get_interval_None_iff (value : pyval) (intervals : list float) :
  get_interval value intervals = Ok None ↔
  value = PNone ∨ ∃ s, value = PStr s.
Proof.
  destruct value as [|s|v].
  - split; [by left|done].
  - split; [by right; exists s|done].
  - rewrite get_interval_float. split; [done|]. by intros [|[??]].
Qed.
