(* ===== verification/DataFrame.v ===== *)
(** * The pandas objects the program calls

    pandas is not part of the repository: this file models, from the
    specification's description of the input collaborator, the operations
    [AnalysisHelper.py] calls on a DataFrame.

    - [Scalar]: what the program needs of a cell value: equality (for
      [unique]), null detection ([isna]) and [str].
    - [Series], [Index], [DataFrame]: a column with its name, dtype tag and
      values; the row index; the table.
    - [unique]: distinct values in order of first appearance, a null
      counted like any other value.
    - [isna_sum]: [series.isna().sum()].
    - [getitem]: [df[name]], a Series when the label is unique.
    - [CorrMatrix] and the interface [Corr] of [DataFrame.corr()]: the
      matrix is square over the numeric columns, in column order. *)

From S2P Require Import Prelude PyString PyFloat.

(** ** Scalars *)

Class Scalar (V : Type) := {
  scalar_eq_dec :: EqDecision V;
  (** [pd.isna(v)] *)
  isna : V → bool;
  (** [str(v)] *)
  str_of : V → string;
  (** all nulls of a column are one value for [unique] *)
  isna_eq : ∀ x y, isna x = true → isna y = true → x = y;
}.

(** Cell values of the scenarios: integers, booleans, strings and NaN. *)
Inductive value : Type :=
| VInt (z : Z)
| VBool (b : bool)
| VStr (s : string)
| VNaN.

#[export] Instance value_eq_dec : EqDecision value.
Proof. solve_decision. Defined.

Definition value_isna (v : value) : bool :=
  match v with VNaN => true | _ => false end.

Definition value_str (v : value) : string :=
  match v with
  | VInt z => str_int z
  | VBool b => str_bool b
  | VStr s => s
  | VNaN => "nan"%string
  end.

#[export, refine] Instance value_scalar : Scalar value :=
  {| isna := value_isna; str_of := value_str |}.
Proof. by intros [] [] ??. Defined.

(** ** Series, index, table *)

Record Series (V : Type) : Type := mkSeries {
  s_name : string;
  s_dtype : string;
  s_values : list V;
}.
Arguments mkSeries {V} _ _ _.
Arguments s_name {V} _.
Arguments s_dtype {V} _.
Arguments s_values {V} _.

#[export] Instance Series_eq_dec `{EqDecision V} : EqDecision (Series V).
Proof. solve_decision. Defined.

(** The row index: a [RangeIndex] has [start], [stop] and [step]; any other
    index has none of these attributes. *)
Inductive Index : Type :=
| RangeIndex (start stop step : Z)
| OtherIndex (len : nat).

Record DataFrame (V : Type) : Type := mkDataFrame {
  df_columns : list (Series V);
  df_index : Index;
}.
Arguments mkDataFrame {V} _ _.
Arguments df_columns {V} _.
Arguments df_index {V} _.

(** [len(range(start, stop, step))]. *)
Definition range_len (start stop step : Z) : Z :=
  if (0 <? step)%Z then
    if (start <? stop)%Z then ((stop - start - 1) `div` step + 1)%Z else 0%Z
  else if (step <? 0)%Z then
    if (stop <? start)%Z then ((start - stop - 1) `div` (- step) + 1)%Z else 0%Z
  else 0%Z.

Definition index_len (ix : Index) : Z :=
  match ix with
  | RangeIndex start stop step => range_len start stop step
  | OtherIndex n => Z.of_nat n
  end.

(** [index.start], [index.stop], [index.step]. *)
Definition index_range (ix : Index) : result (Z * Z * Z) :=
  match ix with
  | RangeIndex start stop step => Ok (start, stop, step)
  | OtherIndex _ => Raise AttributeError
  end.

Section table.
Context {V : Type} `{Scalar V}.

(** [len(df)]. *)
Definition df_len (df : DataFrame V) : Z := index_len (df_index df).

(** [df.columns]. *)
Definition columns (df : DataFrame V) : list string := s_name <$> df_columns df.

(** Every column has one value per row. *)
Definition df_wf (df : DataFrame V) : Prop :=
  Forall (λ s, Z.of_nat (length (s_values s)) = df_len df) (df_columns df).

(** [df[name]] followed by a Series method.  A label that names several
    columns selects a DataFrame, on which [unique] is an [AttributeError];
    a label that names none is a [KeyError]. *)
Definition getitem (df : DataFrame V) (name : string) : result (Series V) :=
  match filter (λ s, s_name s = name) (df_columns df) with
  | [] => Raise KeyError
  | [s] => Ok s
  | _ => Raise AttributeError
  end.

(** [series.isna().sum()]. *)
Definition isna_sum (s : Series V) : Z :=
  Z.of_nat (length (filter (λ v, isna v = true) (s_values s))).

(** [series.unique()]: distinct values in order of first appearance. *)
Fixpoint unique_from (seen : list V) (l : list V) : list V :=
  match l with
  | [] => []
  | x :: l' =>
      if decide (x ∈ seen) then unique_from seen l'
      else x :: unique_from (x :: seen) l'
  end.

Definition unique (l : list V) : list V := unique_from [] l.

End table.

(** ** Correlation matrix *)

Record CorrMatrix : Type := mkCorr {
  cm_labels : list string;
  cm_rows : list (list float);
}.

(** [len(corr)]: the number of rows. *)
Definition cm_len (c : CorrMatrix) : Z := Z.of_nat (length (cm_rows c)).

(** [corr.iloc[i][j]]. *)
Definition cm_iloc (c : CorrMatrix) (i j : nat) : result float :=
  row ← list_get (cm_rows c) i; list_get row j.

(** A square matrix with one label per row. *)
Definition cm_square (c : CorrMatrix) : Prop :=
  length (cm_rows c) = length (cm_labels c) ∧
  Forall (λ row, length row = length (cm_labels c)) (cm_rows c).

(** [df.corr()]: a square matrix over the numeric columns, labelled by
    their names in column order. *)
Class Corr (V : Type) := {
  numeric : Series V → bool;
  df_corr : DataFrame V → CorrMatrix;
  df_corr_labels : ∀ df,
    cm_labels (df_corr df) = s_name <$> filter (λ s, numeric s = true) (df_columns df);
  df_corr_square : ∀ df, cm_square (df_corr df);
}.

(** ** Lemmas on [unique] *)

Section unique.
Context {V : Type} `{Scalar V}.
Implicit Types (l seen : list V) (x : V).

Lemma elem_of_unique_from seen l x :
  x ∈ unique_from seen l ↔ x ∈ l ∧ x ∉ seen.
Proof.
  revert seen. induction l as [|y l IH]; intros seen; simpl.
  { rewrite !elem_of_nil. tauto. }
  destruct (decide (y ∈ seen)) as [Hy|Hy].
  - rewrite IH, elem_of_cons. split; [tauto|]. intros [[->|?] ?]; tauto.
  - rewrite !elem_of_cons, IH, elem_of_cons.
    split; [intros [->|[? ?]]; tauto|]. destruct (decide (x = y)); tauto.
Qed.

Lemma NoDup_unique_from seen l : NoDup (unique_from seen l).
Proof.
  revert seen. induction l as [|y l IH]; intros seen; simpl; [constructor|].
  destruct (decide (y ∈ seen)); [apply IH|].
  constructor; [|apply IH]. rewrite elem_of_unique_from, elem_of_cons. tauto.
Qed.

Lemma unique_from_sublist seen l : sublist (unique_from seen l) l.
Proof.
  revert seen. induction l as [|y l IH]; intros seen; simpl; [constructor|].
  destruct (decide (y ∈ seen)); [apply sublist_cons|apply sublist_skip]; apply IH.
Qed.

Lemma elem_of_unique l x : x ∈ unique l ↔ x ∈ l.
Proof. unfold unique. rewrite elem_of_unique_from, elem_of_nil. tauto. Qed.

Lemma NoDup_unique l : NoDup (unique l).
Proof. apply NoDup_unique_from. Qed.

Lemma unique_sublist l : sublist (unique l) l.
Proof. apply unique_from_sublist. Qed.

Lemma unique_length_le l : length (unique l) ≤ length l.
Proof. apply sublist_length, unique_sublist. Qed.

Lemma unique_nil_iff l : unique l = [] ↔ l = [].
Proof.
  split; [|by intros ->]. destruct l as [|x l]; [done|]. intros Hu.
  assert (x ∈ unique (x :: l)) as Hin by (apply elem_of_unique; left).
  rewrite Hu in Hin. by apply elem_of_nil in Hin.
Qed.

Lemma unique_from_NoDup seen l :
  NoDup l → (∀ x, x ∈ l → x ∉ seen) → unique_from seen l = l.
Proof.
  revert seen. induction l as [|y l IH]; intros seen Hnd Hdisj; simpl; [done|].
  apply NoDup_cons in Hnd as [Hy Hnd].
  rewrite decide_False by (apply Hdisj; left). f_equal. apply IH; [done|].
  intros x Hx [->|?]%elem_of_cons; [done|]. by apply (Hdisj x); [right|].
Qed.

Lemma unique_NoDup l : NoDup l → unique l = l.
Proof. intros. apply unique_from_NoDup; [done|]. intros ? _. apply not_elem_of_nil. Qed.

Lemma unique_idemp l : unique (unique l) = unique l.
Proof. apply unique_NoDup, NoDup_unique. Qed.

(** At most one of the distinct values is a null. *)
Lemma unique_nulls_le_1 l : length (filter (λ v, isna v = true) (unique l)) ≤ 1.
Proof.
  pose proof (NoDup_unique l) as Hnd. revert Hnd. generalize (unique l). clear l.
  intros l Hnd. destruct (filter _ l) as [|a [|b t]] eqn:E; simpl; [lia|lia|exfalso].
  assert (NoDup (a :: b :: t)) as Hnd' by (rewrite <-E; by apply NoDup_filter).
  assert (a ∈ filter (λ v, isna v = true) l) as [Ha _]%list_elem_of_filter
    by (rewrite E; left).
  assert (b ∈ filter (λ v, isna v = true) l) as [Hb _]%list_elem_of_filter
    by (rewrite E; right; left).
  rewrite (isna_eq a b Ha Hb) in Hnd'. apply NoDup_cons in Hnd' as [Hin _].
  apply Hin. left.
Qed.

(** [unique] and the selection of the values that pass a test commute. *)
Lemma unique_from_filter (P : V → Prop) `{∀ x, Decision (P x)} seen l :
  filter P (unique_from seen l) = unique_from (filter P seen) (filter P l).
Proof.
  revert seen. induction l as [|x l IH]; intros seen; [done|]. simpl.
  destruct (decide (P x)) as [Hx|Hx].
  - rewrite filter_cons_True by done. simpl.
    destruct (decide (x ∈ seen)) as [Hin|Hin].
    + rewrite decide_True by (by apply list_elem_of_filter). apply IH.
    + rewrite decide_False by (by intros [_ ?]%list_elem_of_filter).
      by rewrite filter_cons_True, IH, filter_cons_True.
  - rewrite filter_cons_False by done.
    destruct (decide (x ∈ seen)); [apply IH|].
    by rewrite filter_cons_False, IH, filter_cons_False.
Qed.

Lemma unique_filter (P : V → Prop) `{∀ x, Decision (P x)} l :
  filter P (unique l) = unique (filter P l).
Proof. apply unique_from_filter. Qed.

(** A list splits into the nulls and the other values. *)
Lemma length_filter_isna l :
  length l = length (filter (λ v, isna v = false) l) + length (filter (λ v, isna v = true) l).
Proof.
  induction l as [|x l IH]; [done|]. destruct (isna x) eqn:Hx.
  - rewrite filter_cons_False, filter_cons_True by congruence. simpl. lia.
  - rewrite filter_cons_True, filter_cons_False by congruence. simpl. lia.
Qed.

(** The distinct values are the distinct values that are no nulls, and
    one more when the list holds a null: [unique] keeps NaN as a value. *)
Lemma unique_length_nulls l :
  length (unique l) =
  length (unique (filter (λ v, isna v = false) l)) +
  (if decide (filter (λ v, isna v = true) l = []) then 0 else 1).
Proof.
  rewrite (length_filter_isna (unique l)), unique_filter. f_equal.
  rewrite unique_filter. pose proof (unique_nulls_le_1 l) as Hle.
  rewrite unique_filter in Hle. case_decide as Hnil; [by rewrite Hnil|].
  destruct (unique (filter _ l)) as [|x u] eqn:Hu; [destruct Hnil; by apply unique_nil_iff|].
  simpl in *. lia.
Qed.

End unique.

(** ** Lemmas on tables and matrices *)

Section table_lemmas.
Context {V : Type} `{Scalar V}.
Implicit Types (df : DataFrame V) (s : Series V).

Lemma columns_length df : length (columns df) = length (df_columns df).
Proof. apply length_fmap. Qed.

Lemma columns_lookup df i :
  columns df !! i = s_name <$> df_columns df !! i.
Proof. apply list_lookup_fmap. Qed.

Lemma isna_sum_bounds s : (0 ≤ isna_sum s ≤ Z.of_nat (length (s_values s)))%Z.
Proof. unfold isna_sum. pose proof (length_filter (λ v, isna v = true) (s_values s)). lia. Qed.

(** With distinct labels, [df[name]] is the column of that name. *)
Lemma getitem_NoDup df i s :
  NoDup (columns df) → df_columns df !! i = Some s → getitem df (s_name s) = Ok s.
Proof.
  unfold getitem, columns. intros Hnd Hi.
  apply list_elem_of_split_length in Hi as (l1 & l2 & Heq & _).
  rewrite Heq in *. rewrite fmap_app, fmap_cons in Hnd.
  apply NoDup_app in Hnd as (_ & Hl1 & [Hl2 _]%NoDup_cons).
  rewrite filter_app, filter_cons_True by done.
  rewrite (filter_nil_Forall _ l1), (filter_nil_Forall _ l2); [done|..].
  - apply Forall_forall. intros s' Hs' Hname. apply Hl2.
    rewrite <-Hname. by apply list_elem_of_fmap_2.
  - apply Forall_forall. intros s' Hs' Hname. apply (Hl1 (s_name s)); [|left].
    rewrite <-Hname. by apply list_elem_of_fmap_2.
Qed.

(** A selection that is a Series is a column of the table, with the label
    asked for. *)
Lemma getitem_Ok df name s :
  getitem df name = Ok s → s ∈ df_columns df ∧ s_name s = name.
Proof.
  unfold getitem. intros Hget.
  destruct (filter _ (df_columns df)) as [|s' [|??]] eqn:E; simplify_eq.
  assert (s ∈ filter (λ s0, s_name s0 = name) (df_columns df)) as Hin
    by (rewrite E; left).
  by apply list_elem_of_filter in Hin as [? ?].
Qed.

(** A column selected by its own label is itself, unless the label is
    shared. *)
Lemma getitem_own df s :
  s ∈ df_columns df →
  getitem df (s_name s) = Ok s ∨ getitem df (s_name s) = Raise AttributeError.
Proof.
  intros Hin. unfold getitem.
  assert (s ∈ filter (λ s0, s_name s0 = s_name s) (df_columns df)) as Hf
    by by apply list_elem_of_filter.
  destruct (filter _ _) as [|s' [|??]]; [by apply elem_of_nil in Hf| |by right].
  left. apply list_elem_of_singleton in Hf. by subst.
Qed.

Lemma getitem_all_Ok_NoDup df :
  Forall (λ s, getitem df (s_name s) = Ok s) (df_columns df) ↔ NoDup (columns df).
Proof.
  split.
  - intros Hall. apply NoDup_alt. intros i j nm Hi Hj.
    rewrite columns_lookup, fmap_Some in Hi, Hj.
    destruct Hi as (si & Hi & ->), Hj as (sj & Hj & Hn).
    rewrite Forall_forall in Hall.
    pose proof (Hall si (list_elem_of_lookup_2 _ _ _ Hi)) as Hg. unfold getitem in Hg.
    destruct (filter _ _) as [|x [|??]] eqn:E; simplify_eq.
    by eapply (filter_singleton_lookup_inj _ _ _ i j si sj E).
  - intros Hnd. apply Forall_forall. intros s [i Hi]%list_elem_of_lookup.
    by eapply getitem_NoDup.
Qed.

(** Without distinct labels, some column is the first whose selection is
    not a Series. *)
Lemma getitem_first_failure df :
  ¬ NoDup (columns df) →
  ∃ cs1 s cs2, df_columns df = cs1 ++ s :: cs2 ∧
    Forall (λ s', getitem df (s_name s') = Ok s') cs1 ∧
    getitem df (s_name s) = Raise AttributeError.
Proof.
  intros Hnd.
  destruct (Forall_or_first_failure (λ s, getitem df (s_name s) = Ok s) (df_columns df))
    as [Hall|(cs1 & s & cs2 & Heq & Hcs1 & Hs)].
  { by apply getitem_all_Ok_NoDup in Hall. }
  exists cs1, s, cs2. split; [done|]. split; [done|].
  destruct (getitem_own df s) as [|]; [|done|done].
  rewrite Heq. apply elem_of_app. right. left.
Qed.

Lemma cm_iloc_Ok (c : CorrMatrix) i j :
  cm_square c → i < length (cm_rows c) → j < length (cm_rows c) →
  is_Ok (cm_iloc c i j).
Proof.
  intros [Hlen Hrows] Hi Hj. unfold cm_iloc.
  destruct (lookup_lt_is_Some_2 _ _ Hi) as [row Hrow].
  rewrite (proj2 (list_get_Ok _ _ _) Hrow). simpl.
  apply list_get_lt. rewrite Forall_forall in Hrows.
  rewrite (Hrows row) by by eapply list_elem_of_lookup_2. lia.
Qed.

End table_lemmas.

