(* ===== verification/Pearson.v ===== *)
(** * An executable instance of DataFrame.corr()

    [DataFrame.corr()] belongs to pandas; the development only relies on
    the shape laws of the interface [Corr].  This file gives an instance
    for the scalars [value], so that the scenarios of the specification
    can be run: Pearson's coefficient of two columns over the rows where
    both are numbers, evaluated in binary64 by the textbook formula.  A
    column is numeric when its dtype is [int64], [float64] or [bool].  The
    last bits of a coefficient may differ from pandas' own summation; the
    coefficient of a constant column is NaN in both. *)

From Stdlib Require Import Uint63.
From S2P Require Import Prelude PyString PyFloat DataFrame.

(** ** Definitions *)

Definition Z_to_float (z : Z) : float :=
  match z with
  | Z0 => 0%float
  | Zpos _ => of_uint63 (Uint63.of_Z z)
  | Zneg p => (- of_uint63 (Uint63.of_Z (Zpos p)))%float
  end.

(** The number a cell stands for, if any. *)
Definition value_to_float (v : value) : option float :=
  match v with
  | VInt z => Some (Z_to_float z)
  | VBool b => Some (if b then 1%float else 0%float)
  | VStr _ | VNaN => None
  end.

Definition fsum (l : list float) : float := foldl PrimFloat.add 0%float l.

(** The rows where both cells are numbers. *)
Definition complete_pairs (xs ys : list value) : list (float * float) :=
  omap (λ p, a ← value_to_float p.1; b ← value_to_float p.2; Some (a, b)) (zip xs ys).

Definition pearson (xs ys : list value) : float :=
  let pairs := complete_pairs xs ys in
  let n := Z_to_float (Z.of_nat (length pairs)) in
  let mx := (fsum (fst <$> pairs) / n)%float in
  let my := (fsum (snd <$> pairs) / n)%float in
  let sxy := fsum ((λ p, (p.1 - mx) * (p.2 - my))%float <$> pairs) in
  let sxx := fsum ((λ p, (p.1 - mx) * (p.1 - mx))%float <$> pairs) in
  let syy := fsum ((λ p, (p.2 - my) * (p.2 - my))%float <$> pairs) in
  (sxy / sqrt (sxx * syy))%float.

Definition numeric_dtype (s : Series value) : bool :=
  bool_decide (s_dtype s ∈ ["int64"; "float64"; "bool"]%string).

Definition pearson_corr (df : DataFrame value) : CorrMatrix :=
  let nums := filter (λ s, numeric_dtype s = true) (df_columns df) in
  mkCorr (s_name <$> nums)
         ((λ a, (λ b, pearson (s_values a) (s_values b)) <$> nums) <$> nums).

(** ** The instance *)

Lemma pearson_corr_square (df : DataFrame value) : cm_square (pearson_corr df).
Proof.
  unfold cm_square, pearson_corr. simpl. rewrite !length_fmap. split; [done|].
  apply Forall_fmap, Forall_forall. intros a _. simpl. by rewrite !length_fmap.
Qed.

#[export] Instance pearson_Corr : Corr value :=
  {| numeric := numeric_dtype;
     df_corr := pearson_corr;
     df_corr_labels := λ df, eq_refl;
     df_corr_square := pearson_corr_square |}.
