(* ===== verification/ColumnInfos.v ===== *)
(** * ColumnInfos: the statistics of one column and its advice

    The class [ColumnInfos] (src/AnalysisHelper.py, lines 12-53): the
    record built by [__init__], [has_advice] and [get_advice].
    [__str__] calls [format_col_infos] and is in [Format].
    [advice_text_spec] is the advice format of the specification, against
    which the text of [get_advice] is compared. *)

From S2P Require Import Prelude PyString.

(** ** The record *)

Record ColumnInfos (V : Type) : Type := mkColumnInfos {
  index : Z;
  name : string;
  n_rows : Z;
  nulls : Z;
  dtype : string;
  uniques : Z;
  categories : option (list V);
}.
Arguments mkColumnInfos {V} _ _ _ _ _ _ _.
Arguments index {V} _.
Arguments name {V} _.
Arguments n_rows {V} _.
Arguments nulls {V} _.
Arguments dtype {V} _.
Arguments uniques {V} _.
Arguments categories {V} _.

Section column_infos.
Context {V : Type}.
Implicit Types self : ColumnInfos V.

(** [ColumnInfos.__init__]: the parameters, in the order of the signature,
    are stored in the attributes of the same name. *)
Definition ColumnInfos_init (index : Z) (name : string) (n_rows nulls : Z)
    (dtype : string) (uniques : Z) (categories : option (list V)) : ColumnInfos V :=
  {| index := index; name := name; n_rows := n_rows; nulls := nulls;
     dtype := dtype; uniques := uniques; categories := categories |}.

(** [ColumnInfos.has_advice]: [self.categories is not None]. *)
Definition has_advice self : bool :=
  match categories self with
  | None => false
  | Some _ => true
  end.

(** The prefix [ret] of every advice. *)
Definition advice_prefix self : string :=
  "The column " +:+ DQUOTE +:+ name self +:+ DQUOTE +:+
  " (index " +:+ fmt_d (index self) +:+ ")".

(** [ColumnInfos.get_advice]: [None] (a bare [return]) without
    categories, otherwise the advice text. *)
Definition get_advice self : option string :=
  match categories self with
  | None => None
  | Some _ =>
      let ret := advice_prefix self in
      if (1 <? uniques self)%Z then
        Some (ret +:+ " should be casted into a " +:+
              (if (2 <? uniques self)%Z then "category" else "boolean") +:+ ".")
      else
        Some (ret +:+ "should be deleted.")
  end.

(** ** The advice format of the specification *)

(** The action the specification attaches to a number of distinct values. *)
Definition advice_action_spec (uniques : Z) : string :=
  if (2 <? uniques)%Z then "casted into a category"
  else if (uniques =? 2)%Z then "casted into a boolean"
  else "deleted".

(** [The column "<name>" (index <position>) should be <action>.] *)
Definition advice_text_spec (name : string) (position : Z) (action : string) : string :=
  "The column " +:+ DQUOTE +:+ name +:+ DQUOTE +:+
  " (index " +:+ fmt_d position +:+ ") should be " +:+ action +:+ ".".

(** ** Lemmas *)

Lemma has_advice_true self : has_advice self = true ↔ categories self ≠ None.
Proof. unfold has_advice. by destruct (categories self). Qed.

Lemma has_advice_false self : has_advice self = false ↔ categories self = None.
Proof. unfold has_advice. by destruct (categories self). Qed.

Lemma get_advice_None self : get_advice self = None ↔ categories self = None.
Proof.
  unfold get_advice. destruct (categories self); [|done].
  by destruct (1 <? uniques self)%Z.
Qed.

Lemma get_advice_is_Some self : has_advice self = true → is_Some (get_advice self).
Proof.
  intros Hc%has_advice_true. apply not_eq_None_Some. by rewrite get_advice_None.
Qed.

(** The text of an advice, branch by branch. *)
Lemma get_advice_Some self cats :
  categories self = Some cats →
  get_advice self = Some (advice_prefix self +:+
    (if (2 <? uniques self)%Z then " should be casted into a category."
     else if (1 <? uniques self)%Z then " should be casted into a boolean."
     else "should be deleted.")).
Proof.
  intros Hc. unfold get_advice. rewrite Hc.
  destruct (1 <? uniques self)%Z eqn:E1, (2 <? uniques self)%Z eqn:E2; try done.
  apply Z.ltb_lt in E2. apply Z.ltb_ge in E1. lia.
Qed.

Lemma advice_text_spec_prefix self action :
  advice_text_spec (name self) (index self) action =
  advice_prefix self +:+ " should be " +:+ action +:+ ".".
Proof. unfold advice_text_spec, advice_prefix. by rewrite <-!str_app_assoc. Qed.

(** ** Properties *)

(** C22. A column carries an advice exactly when its categories are set:
    [has_advice] is true if and only if [get_advice] returns a text, and
    both hold if and only if [categories] is not [None]. *)
Theorem advice_iff_categories self :
  (has_advice self = true ↔ is_Some (categories self)) ∧
  (is_Some (get_advice self) ↔ is_Some (categories self)).
Proof.
  rewrite has_advice_true, <-!not_eq_None_Some, get_advice_None. tauto.
Qed.

(** C7. With more than one distinct value the advice is the text of the
    specification: cast to a category above two distinct values, to a
    boolean at exactly two. *)
Theorem get_advice_cast self cats :
  categories self = Some cats → (1 < uniques self)%Z →
  get_advice self =
    Some (advice_text_spec (name self) (index self)
            (if decide (uniques self = 2%Z) then "casted into a boolean"
             else "casted into a category")) ∧
  get_advice self =
    Some (advice_text_spec (name self) (index self) (advice_action_spec (uniques self))).
Proof.
  intros Hc Hu. rewrite (get_advice_Some _ _ Hc), !advice_text_spec_prefix.
  unfold advice_action_spec.
  destruct (2 <? uniques self)%Z eqn:E2.
  - apply Z.ltb_lt in E2. by rewrite decide_False by lia.
  - apply Z.ltb_ge in E2. rewrite decide_True by lia.
    by rewrite (proj2 (Z.ltb_lt 1 _) Hu), (proj2 (Z.eqb_eq _ 2)) by lia.
Qed.

(** C23. With at most one distinct value the advice is to delete the
    column, and its text lacks the space the specification's format has
    before [should]: the code returns [...(index i)should be deleted.]. *)
Theorem get_advice_deleted self cats :
  categories self = Some cats → (uniques self ≤ 1)%Z →
  get_advice self = Some (advice_prefix self +:+ "should be deleted.") ∧
  get_advice self ≠
    Some (advice_text_spec (name self) (index self) (advice_action_spec (uniques self))).
Proof.
  intros Hc Hu. rewrite (get_advice_Some _ _ Hc), advice_text_spec_prefix.
  unfold advice_action_spec.
  rewrite (proj2 (Z.ltb_ge 2 _)), (proj2 (Z.ltb_ge 1 _)), (proj2 (Z.eqb_neq _ 2)) by lia.
  split; [done|]. intros [= Heq]. by apply str_app_inv_head in Heq.
Qed.

End column_infos.

Lemma get_advice_cast_witness :
  get_advice (V := Z) (mkColumnInfos 3 "sex" 0 10 "object" 2 (Some [0; 1]%Z)) =
    Some (advice_text_spec "sex" 3 "casted into a boolean") ∧
  get_advice (V := Z) (mkColumnInfos 3 "sex" 0 10 "object" 2 (Some [0; 1]%Z)) =
    Some (advice_text_spec "sex" 3 (advice_action_spec 2)).
Proof.
  apply (get_advice_cast (mkColumnInfos 3 "sex" 0 10 "object" 2 (Some [0; 1]%Z)) [0; 1]%Z);
    [reflexivity|simpl; lia].
Defined.

Lemma get_advice_deleted_witness :
  get_advice (V := Z) (mkColumnInfos 0 "id" 0 5 "int64" 1 (Some [7]%Z)) =
    Some (advice_prefix (V := Z) (mkColumnInfos 0 "id" 0 5 "int64" 1 (Some [7]%Z))
          +:+ "should be deleted.") ∧
  get_advice (V := Z) (mkColumnInfos 0 "id" 0 5 "int64" 1 (Some [7]%Z)) ≠
    Some (advice_text_spec "id" 0 (advice_action_spec 1)).
Proof.
  apply (get_advice_deleted (mkColumnInfos 0 "id" 0 5 "int64" 1 (Some [7]%Z)) [7]%Z);
    [reflexivity|simpl; lia].
Defined.
