(* ===== verification/Format.v ===== *)
(** * format_col_infos: one line of text per column

    [format_col_infos] (src/AnalysisHelper.py, lines 174-190) is called
    with the dict of [ColumnInfos] by [Helper.analyze_columns] and with a
    list holding a name by [ColumnInfos.__str__] (line 56).  It only uses
    [len(infos)], [infos[i]] and the attributes of the items, so the model
    is generic in the container ([Subscript]) and in the items
    ([ColumnLike]): a dict raises [KeyError] on a missing key, a list
    [IndexError], and a string has none of the attributes. *)

From S2P Require Import Prelude PyString DataFrame ColumnInfos.

(** ** Containers and items *)

(** What [format_col_infos] asks of [infos]: [len] and [infos[i]]. *)
Class Subscript (C E : Type) := {
  py_length : C → nat;
  subscript : C → nat → result E;
}.

#[export] Instance list_subscript {E} : Subscript (list E) E :=
  {| py_length := length; subscript := list_get |}.

#[export] Instance dict_subscript {E} : Subscript (gmap nat E) E :=
  {| py_length := size; subscript := dict_get |}.

(** What it asks of an item: the attributes of a [ColumnInfos]. *)
Class ColumnLike (E V : Type) := {
  get_name : E → result string;
  get_dtype : E → result string;
  get_n_rows : E → result Z;
  get_uniques : E → result Z;
  get_categories : E → result (option (list V));
}.

#[export] Instance ColumnInfos_like {V} : ColumnLike (ColumnInfos V) V :=
  {| get_name c := Ok (name c);
     get_dtype c := Ok (dtype c);
     get_n_rows c := Ok (n_rows c);
     get_uniques c := Ok (uniques c);
     get_categories c := Ok (categories c) |}.

(** A [str] has no attribute [name], [dtype], ... *)
#[export] Instance str_like {V} : ColumnLike string V :=
  {| get_name _ := Raise AttributeError;
     get_dtype _ := Raise AttributeError;
     get_n_rows _ := Raise AttributeError;
     get_uniques _ := Raise AttributeError;
     get_categories _ := Raise AttributeError |}.

Section format.
Context {V : Type} `{Scalar V}.

(** The last [%s] of the format: the bracketed categories, or nothing when
    [categories] is [None] or empty. *)
Definition categories_text (cats : option (list V)) : string :=
  match cats with
  | None | Some [] => EmptyString
  | Some l => " [" +:+ str_join ", " (str_of <$> l) +:+ "]"
  end.

(** The text of the line, the attributes and the colour being known. *)
Definition col_info_text (color : string) (maxlength : Z) (i : nat)
    (nm dt : string) (nr un : Z) (cats : option (list V)) : string :=
  str_int (Z.of_nat i) +:+ ":" +:+ TAB +:+ DQUOTE +:+ nm +:+ DQUOTE +:+
  str_mul "." (maxlength + 2 - py_len nm) +:+
  "of type " +:+ (ESC +:+ "[" +:+ color +:+ "m" +:+ dt +:+ ESC +:+ "[0m") +:+
  " " +:+ TAB +:+ str_int nr +:+ " null values and " +:+ fmt_d un +:+
  " uniques" +:+ categories_text cats +:+ ".".

(** The body of the loop for item [colinfo] at position [i]: attribute
    reads and the colour lookup in the order the expression evaluates
    them. *)
Definition format_col_info `{ColumnLike E V} (color_dict : gmap string string)
    (maxlength : Z) (i : nat) (colinfo : E) : result string :=
  nm ← get_name colinfo;
  dt ← get_dtype colinfo;
  color ← dict_get color_dict dt;
  nr ← get_n_rows colinfo;
  un ← get_uniques colinfo;
  cats ← get_categories colinfo;
  Ok (col_info_text color maxlength i nm dt nr un cats).

(** Iteration [i] of the loop: [colinfo = infos[i]], then the line. *)
Definition format_item `{Subscript C E, ColumnLike E V} (infos : C)
    (color_dict : gmap string string) (maxlength : Z) (i : nat) : result string :=
  colinfo ← subscript infos i;
  format_col_info color_dict maxlength i colinfo.

Definition format_col_infos `{Subscript C E, ColumnLike E V} (infos : C)
    (color_dict : gmap string string) (maxlength : Z) : result (list string) :=
  foldM (λ ret i, line ← format_item infos color_dict maxlength i; Ok (ret ++ [line]))
        [] (py_range (Z.of_nat (py_length infos))).

(** [ColumnInfos.__str__]: the call of line 56; a list is not a string, so
    even a call that returned would be a [TypeError]. *)
Definition ColumnInfos_str (self : ColumnInfos V) : result string :=
  _ ← format_col_infos (C := list string) (E := string) [name self] ∅ (py_len (name self));
  Raise TypeError.

(** The part of a line before [of type]. *)
Definition col_info_prefix (maxlength : Z) (i : nat) (nm : string) : string :=
  str_int (Z.of_nat i) +:+ ":" +:+ TAB +:+ DQUOTE +:+ nm +:+ DQUOTE +:+
  str_mul "." (maxlength + 2 - py_len nm).

(** The line of a [ColumnInfos] whose dtype has colour [color]. *)
Definition column_line (color : string) (maxlength : Z) (i : nat) (c : ColumnInfos V) : string :=
  col_info_text color maxlength i (name c) (dtype c) (n_rows c) (uniques c) (categories c).

(** ** Lemmas *)

Lemma format_col_infos_mapM `{Subscript C E, ColumnLike E V} (infos : C) cd ml :
  format_col_infos infos cd ml = mapM (format_item infos cd ml) (seq 0 (py_length infos)).
Proof.
  unfold format_col_infos. rewrite py_range_of_nat, foldM_snoc_mapM.
  by destruct (mapM _ _).
Qed.

(** Within the length, a dict built from a list and the list give the
    same item. *)
Lemma subscript_map_seq {E} (l : list E) (i : nat) :
  i < length l → subscript (map_seq 0 l : gmap nat E) i = subscript l i.
Proof.
  intros Hi. simpl. unfold dict_get, list_get. rewrite lookup_map_seq_0.
  by destruct (lookup_lt_is_Some_2 l i Hi) as [x ->].
Qed.

Lemma format_col_info_column cd ml i (c : ColumnInfos V) :
  format_col_info cd ml i c = color ← dict_get cd (dtype c); Ok (column_line color ml i c).
Proof. unfold format_col_info. simpl. by destruct (dict_get cd (dtype c)). Qed.

Lemma format_col_info_str cd ml i (s : string) :
  format_col_info (E := string) cd ml i s = Raise AttributeError.
Proof. done. Qed.

(** An item of a dict of [ColumnInfos] formats when its key is present and
    its dtype has a colour, and raises [KeyError] otherwise. *)
Lemma format_item_dict_Ok (infos : gmap nat (ColumnInfos V)) cd ml i line :
  format_item infos cd ml i = Ok line ↔
  ∃ c color, infos !! i = Some c ∧ cd !! dtype c = Some color ∧
             line = column_line color ml i c.
Proof.
  unfold format_item. simpl. rewrite bind_Ok_inv. setoid_rewrite dict_get_Ok.
  setoid_rewrite format_col_info_column. setoid_rewrite bind_Ok_inv.
  setoid_rewrite dict_get_Ok. naive_solver.
Qed.

Lemma format_item_dict_Raise (infos : gmap nat (ColumnInfos V)) cd ml i e :
  format_item infos cd ml i = Raise e → e = KeyError.
Proof.
  unfold format_item. simpl. intros [Hi|(c & _ & Hc)]%bind_Raise_inv.
  - by apply dict_get_Raise in Hi as [_ ->].
  - rewrite format_col_info_column in Hc.
    apply bind_Raise_inv in Hc as [Hc|(? & _ & [=])]. by apply dict_get_Raise in Hc as [_ ->].
Qed.

Lemma col_info_text_prefix color ml i nm dt nr un cats :
  col_info_text color ml i nm dt nr un cats =
  col_info_prefix ml i nm +:+
  "of type " +:+ (ESC +:+ "[" +:+ color +:+ "m" +:+ dt +:+ ESC +:+ "[0m") +:+
  " " +:+ TAB +:+ str_int nr +:+ " null values and " +:+ fmt_d un +:+
  " uniques" +:+ categories_text cats +:+ ".".
Proof. unfold col_info_text, col_info_prefix. by rewrite <-!str_app_assoc. Qed.

Lemma format_item_dict_is_Ok (infos : gmap nat (ColumnInfos V)) cd ml i :
  is_Ok (format_item infos cd ml i) ↔
  ∃ c, infos !! i = Some c ∧ is_Some (cd !! dtype c).
Proof.
  unfold is_Ok. setoid_rewrite format_item_dict_Ok. unfold is_Some. naive_solver.
Qed.

Lemma format_col_infos_dict_is_Ok (infos : gmap nat (ColumnInfos V)) cd ml :
  is_Ok (format_col_infos infos cd ml) ↔
  ∀ i, i < size infos → ∃ c, infos !! i = Some c ∧ is_Some (cd !! dtype c).
Proof.
  rewrite format_col_infos_mapM, mapM_seq_is_Ok. simpl.
  by setoid_rewrite format_item_dict_is_Ok.
Qed.

(** On a dict of [ColumnInfos], the lines are returned exactly when every
    key below [len(infos)] is present and every dtype has a colour. *)
Lemma format_col_infos_dict_Ok (infos : gmap nat (ColumnInfos V)) cd ml lines :
  format_col_infos infos cd ml = Ok lines ↔
  length lines = size infos ∧
  ∀ i, i < size infos → ∃ c color,
    infos !! i = Some c ∧ cd !! dtype c = Some color ∧
    lines !! i = Some (column_line color ml i c).
Proof.
  rewrite format_col_infos_mapM, mapM_seq_Ok. simpl.
  setoid_rewrite format_item_dict_Ok. naive_solver.
Qed.

(** When the name is not longer than [maxlength + 2], the text before
    [of type] is the index, four characters, and the name padded with dots
    to [maxlength + 2] characters. *)
Lemma col_info_prefix_length ml i nm :
  (py_len nm ≤ ml + 2)%Z →
  String.length (col_info_prefix ml i nm) =
  String.length (str_int (Z.of_nat i)) + 4 + Z.to_nat (ml + 2).
Proof.
  intros Hle. unfold col_info_prefix, py_len in *.
  rewrite !str_length_app, str_mul_length. simpl. lia.
Qed.

Lemma format_item_list_Ok (infos : list (ColumnInfos V)) cd ml i line :
  format_item infos cd ml i = Ok line ↔
  ∃ c color, infos !! i = Some c ∧ cd !! dtype c = Some color ∧
             line = column_line color ml i c.
Proof.
  unfold format_item. simpl. rewrite bind_Ok_inv. setoid_rewrite list_get_Ok.
  setoid_rewrite format_col_info_column. setoid_rewrite bind_Ok_inv.
  setoid_rewrite dict_get_Ok. naive_solver.
Qed.

(** ** Properties *)

(** C36. The docstring asks for a list or a tuple of [ColumnInfos], and
    [analyze_columns] passes its dict.  Both give the same result: the
    function reads [len(infos)] and [infos[i]] for [i] below it only, and
    on these the dict with keys [0 .. len - 1] and the list agree,
    whatever the items are. *)
Theorem format_col_infos_dict_list `{ColumnLike E V} (l : list E) cd ml :
  format_col_infos (map_seq 0 l : gmap nat E) cd ml = format_col_infos l cd ml.
Proof.
  rewrite !format_col_infos_mapM. cbn [py_length dict_subscript list_subscript].
  rewrite size_map_seq. apply mapM_result_ext. intros i [_ Hi]%elem_of_seq.
  unfold format_item. by rewrite subscript_map_seq by done.
Qed.

(** C6. On a list of [ColumnInfos], [format_col_infos] returns the lines
    exactly when every dtype has a colour, and no subscript is out of
    range; there is then one line per item, and line [i] is the text of
    item [i]: index, quoted name, dots up to [maxlength + 2], coloured
    dtype, the attribute [n_rows] as the number of nulls, the number of
    distinct values and the bracketed categories. *)
Theorem format_col_infos_list_Ok (infos : list (ColumnInfos V)) cd ml lines :
  format_col_infos infos cd ml = Ok lines ↔
  length lines = length infos ∧
  ∀ i c, infos !! i = Some c →
    ∃ color, cd !! dtype c = Some color ∧ lines !! i = Some (column_line color ml i c).
Proof.
  rewrite format_col_infos_mapM, mapM_seq_Ok. simpl.
  setoid_rewrite format_item_list_Ok. split.
  - intros [Hlen Hall]. split; [done|]. intros i c Hc.
    destruct (Hall i (lookup_lt_Some _ _ _ Hc)) as (y & Hy & c' & color & Hc' & Hcol & ->).
    simplify_eq. by exists color.
  - intros [Hlen Hall]. split; [done|]. intros i Hi.
    destruct (lookup_lt_is_Some_2 infos i Hi) as [c Hc].
    destruct (Hall i c Hc) as (color & ? & ?). eauto 10.
Qed.

(** On a dict of [ColumnInfos] the only exception is [KeyError]. *)
Lemma format_col_infos_dict_KeyError (infos : gmap nat (ColumnInfos V)) cd ml e :
  format_col_infos infos cd ml = Raise e → e = KeyError.
Proof.
  rewrite format_col_infos_mapM, mapM_seq_Raise.
  intros (i & _ & He & _). by eapply format_item_dict_Raise.
Qed.

(** C19. On a dict of [ColumnInfos], [format_col_infos] raises exactly when
    a key below [len(infos)] is missing or a dtype has no colour, and the
    exception is then a [KeyError]. *)
Theorem format_col_infos_dict_Raise (infos : gmap nat (ColumnInfos V)) cd ml e :
  format_col_infos infos cd ml = Raise e ↔
  e = KeyError ∧ ∃ i, i < size infos ∧
    (infos !! i = None ∨ ∃ c, infos !! i = Some c ∧ cd !! dtype c = None).
Proof.
  pose proof (format_col_infos_dict_KeyError infos cd ml) as Hkey.
  pose proof (format_col_infos_dict_is_Ok infos cd ml) as Hok. split.
  - intros He. split; [by apply Hkey|].
    rewrite format_col_infos_mapM, mapM_seq_Raise in He.
    destruct He as (i & Hi & He & _). exists i. split; [done|].
    destruct (infos !! i) as [c|] eqn:Ec; [right; exists c; split; [done|]|by left].
    destruct (cd !! dtype c) eqn:Ecd; [|done].
    assert (is_Ok (format_item infos cd ml i)) as [? ?]; [|congruence].
    apply format_item_dict_is_Ok. exists c. by rewrite Ecd.
  - intros [-> (i & Hi & Hmiss)].
    destruct (format_col_infos infos cd ml) as [lines|e'] eqn:E.
    + destruct (proj1 Hok (is_Ok_Ok _) i Hi) as (c & Hc & [? Hcol]).
      destruct Hmiss as [?|(c' & ? & ?)]; congruence.
    + f_equal. by apply Hkey.
Qed.

(** C30. [ColumnInfos.__str__] raises [AttributeError] on every object: it
    passes a list holding the name, a string, where items with the
    attributes of a [ColumnInfos] are expected. *)
Theorem ColumnInfos_str_raises (self : ColumnInfos V) :
  ColumnInfos_str self = Raise AttributeError.
Proof. reflexivity. Qed.

End format.
