(* ===== verification/Helper.v ===== *)
(** * Helper: the state of the analysis

    The class [Helper] (src/AnalysisHelper.py, lines 59-91): its class
    constant [color_dict], the attributes set by [__init__], and
    [__init__] itself with its assertion.  The methods are in [Columns]
    ([analyze_columns]), [Correlations] ([analyze_correlations]),
    [Advices] ([get_advices]) and [FirstAnalysis] ([firstAnalysis]). *)

From S2P Require Import Prelude PyString PyFloat DataFrame ColumnInfos.

(** ** Class constants and state *)

(** [Helper.color_dict]. *)
Definition color_dict : gmap string string :=
  list_to_map
    [("int64", "1;31;47"); ("float64", "1;33;47"); ("object", "1;32;47");
     ("bool", "1;34;47"); ("category", "1;36;47"); ("datetime64[ns]", "1;37;47");
     ("timedelta64[ns]", "1;35;47")]%string.

Record Helper (V : Type) : Type := mkHelper {
  dataframe : DataFrame V;
  annot_corr : bool;
  corr_cmap : string;
  max_categorisable : Z;
  show_corr_matrix : bool;
  corr : option CorrMatrix;
  dataframe_col_infos : gmap nat (ColumnInfos V);
}.
Arguments mkHelper {V} _ _ _ _ _ _ _.
Arguments dataframe {V} _.
Arguments annot_corr {V} _.
Arguments corr_cmap {V} _.
Arguments max_categorisable {V} _.
Arguments show_corr_matrix {V} _.
Arguments corr {V} _.
Arguments dataframe_col_infos {V} _.

(** The argument of the constructor: a DataFrame or any other object. *)
Inductive pyobj (V : Type) : Type :=
| ObjDataFrame (df : DataFrame V)
| ObjOther.
Arguments ObjDataFrame {V} _.
Arguments ObjOther {V}.

Section helper.
Context {V : Type}.
Implicit Types (self : Helper V).

(** [self.corr = c]. *)
Definition set_corr (c : option CorrMatrix) self : Helper V :=
  mkHelper (dataframe self) (annot_corr self) (corr_cmap self) (max_categorisable self)
    (show_corr_matrix self) c (dataframe_col_infos self).

(** [self.dataframe_col_infos = infos]. *)
Definition set_col_infos (infos : gmap nat (ColumnInfos V)) self : Helper V :=
  mkHelper (dataframe self) (annot_corr self) (corr_cmap self) (max_categorisable self)
    (show_corr_matrix self) (corr self) infos.

(** [self.dataframe_col_infos[i] = info]. *)
Definition set_col_info (i : nat) (info : ColumnInfos V) self : Helper V :=
  set_col_infos (<[i := info]> (dataframe_col_infos self)) self.

(** ** [__init__] *)

Definition Helper_init (dataframe : pyobj V) (max_categorisable : Z) (corr_annot : bool)
    (corr_cmap : string) (show_corr_matrix : bool) : result (Helper V) :=
  match dataframe with
  | ObjOther => Raise AssertionError
  | ObjDataFrame df =>
      Ok (mkHelper df corr_annot corr_cmap max_categorisable show_corr_matrix None ∅)
  end.

(** The constructor with its default arguments. *)
Definition Helper_default (dataframe : pyobj V) : result (Helper V) :=
  Helper_init dataframe 12 true "RdYlGn" true.

(** ** Lemmas on the state *)

Lemma set_col_infos_id self : set_col_infos (dataframe_col_infos self) self = self.
Proof. by destruct self. Qed.

Lemma set_col_infos_twice m1 m2 self :
  set_col_infos m1 (set_col_infos m2 self) = set_col_infos m1 self.
Proof. done. Qed.

Lemma set_corr_col_infos c m self :
  set_corr c (set_col_infos m self) = set_col_infos m (set_corr c self).
Proof. done. Qed.

Lemma color_dict_dom (dt : string) :
  is_Some (color_dict !! dt) ↔
  dt ∈ ["int64"; "float64"; "object"; "bool"; "category"; "datetime64[ns]";
        "timedelta64[ns]"]%string.
Proof.
  unfold color_dict. rewrite <-elem_of_dom, dom_list_to_map_L. simpl.
  rewrite !elem_of_union, elem_of_empty, !elem_of_singleton, !elem_of_cons, elem_of_nil.
  tauto.
Qed.

(** The constructor accepts a DataFrame only: any other argument fails
    the assertion, and on a DataFrame the new object has no correlation
    matrix yet and an empty dict of column infos, with the options as
    given. *)
Lemma Helper_init_spec (obj : pyobj V) mc annot cmap show :
  match obj with
  | ObjOther => Helper_init obj mc annot cmap show = Raise AssertionError
  | ObjDataFrame df =>
      ∃ self, Helper_init obj mc annot cmap show = Ok self ∧
        dataframe self = df ∧ corr self = None ∧ dataframe_col_infos self = ∅ ∧
        max_categorisable self = mc ∧ annot_corr self = annot ∧
        corr_cmap self = cmap ∧ show_corr_matrix self = show
  end.
Proof. destruct obj; [|done]. by eexists. Qed.

End helper.
