(* ===== verification/Tables.v ===== *)
(** * Example tables

    The tables of the end-to-end scenarios of the specification (section
    8), as values of [DataFrame value], and a table that mixes numeric and
    non-numeric columns.  The theorems of the method files are applied to
    them, and [Scenarios] runs the whole analysis on them. *)

From S2P Require Import Prelude PyString DataFrame Helper.

(** ** Columns *)

Definition colA : Series value := mkSeries "A" "int64" (VInt <$> [1; 2; 3; 4; 5]%Z).
Definition colB : Series value := mkSeries "B" "int64" (VInt <$> [1; 2; 3; 4; 5]%Z).

(** Three times true, once false, one null: pandas stores it as [object]. *)
Definition col_flag : Series value :=
  mkSeries "flag" "object" [VBool true; VBool true; VBool true; VBool false; VNaN].

(** Five identical values. *)
Definition col_const : Series value := mkSeries "const" "int64" (VInt <$> [7; 7; 7; 7; 7]%Z).

(** Three distinct values. *)
Definition col_three : Series value := mkSeries "level" "int64" (VInt <$> [1; 2; 3; 1; 2]%Z).

(** A permutation of [colA], and a column of labels. *)
Definition colE : Series value := mkSeries "E" "int64" (VInt <$> [5; 3; 4; 1; 2]%Z).
Definition col_label : Series value :=
  mkSeries "label" "object" (VStr <$> ["a"; "b"; "c"; "d"; "e"]%string).

(** A dtype [color_dict] has no colour for. *)
Definition col_small : Series value := mkSeries "small" "int32" (VInt <$> [1; 2; 3; 4; 5]%Z).

(** ** Tables *)

Definition range5 : Index := RangeIndex 0 5 1.

Definition scenario1_df : DataFrame value := mkDataFrame [colA; colB] range5.
Definition scenario2_df : DataFrame value := mkDataFrame [col_flag] range5.
Definition scenario3_df : DataFrame value := mkDataFrame [col_const] range5.
Definition scenario4_df : DataFrame value := mkDataFrame [col_three] range5.
Definition scenario5_df : DataFrame value := mkDataFrame [colA; col_const] range5.

(** A non-numeric column before the numeric ones. *)
Definition mixed_df : DataFrame value := mkDataFrame [col_label; colA; colE] range5.

(** Every kind of column at once. *)
Definition wide_df : DataFrame value :=
  mkDataFrame [colA; colB; col_flag; col_const; colE] range5.

(** The same label twice, an index that is no range, an unknown dtype. *)
Definition dup_df : DataFrame value := mkDataFrame [colA; colA] range5.
Definition dup_tail_df : DataFrame value := mkDataFrame [colB; colA; colA] range5.
Definition other_index_df : DataFrame value := mkDataFrame [colA; colB] (OtherIndex 5).
Definition int32_df : DataFrame value := mkDataFrame [colA; col_small] range5.

(** ** Analyzers *)

(** [Helper(df, max_categorisable=mc)], the other options at their
    defaults. *)
Definition helper_of (mc : Z) (df : DataFrame value) : Helper value :=
  mkHelper df true "RdYlGn" mc true None ∅.

Definition scenario1 : Helper value := helper_of 12 scenario1_df.
Definition scenario2 : Helper value := helper_of 12 scenario2_df.
Definition scenario3 : Helper value := helper_of 12 scenario3_df.
Definition scenario4 : Helper value := helper_of 2 scenario4_df.
Definition scenario5 : Helper value := helper_of 12 scenario5_df.
Definition mixed : Helper value := helper_of 12 mixed_df.
Definition wide : Helper value := helper_of 12 wide_df.

(** ** Lemmas *)

Lemma helper_of_default (mc : Z) (df : DataFrame value) :
  Helper_init (ObjDataFrame df) mc true "RdYlGn" true = Ok (helper_of mc df).
Proof. done. Qed.

Lemma wide_df_wf : df_wf wide_df.
Proof. repeat constructor. Qed.

Lemma scenario1_df_wf : df_wf scenario1_df.
Proof. repeat constructor. Qed.
