(* ===== verification/Columns.v ===== *)
(** * Helper.analyze_columns

    [analyze_columns] (src/AnalysisHelper.py, lines 112-143) empties the
    dict of column infos, stores one [ColumnInfos] per column while it
    tracks the longest name, and renders the table with
    [format_col_infos].  [column_info_spec] is the summary the loop
    stores for one column (the arguments of the call of line 139, in its
    order), [maxlength_spec] the longest name; [columns_ok] is the
    condition under which the method returns; [columns_result] and
    [columns_state] give the outcome of the method on every table, the
    dict left by a call that raises included ([stored_spec]). *)

From S2P Require Import Prelude PyString PyFloat DataFrame ColumnInfos Format Helper Tables.

Section columns.
Context {V : Type} `{Scalar V}.
Implicit Types (self : Helper V) (df : DataFrame V) (s : Series V).

(** ** The source *)

(** The text [dataframe_main_infos]. *)
Definition main_infos (n_cols n_rows start stop step : Z) : string :=
  (LF +:+ "The dataframe has " +:+ str_int n_cols +:+ " columns and " +:+
   fmt_d n_rows +:+ " rows.") +:+
  (LF +:+ "Indices : from " +:+ fmt_d start +:+ " to " +:+ fmt_d (stop - step) +:+
   " (step= " +:+ fmt_d step +:+ ")").

(** The categories of a column: its distinct values when it is already a
    category or has at most [max_categorisable] of them. *)
Definition column_categories (max_categorisable : Z) (coltype : string) (uniques : Z)
    (values : list V) : option (list V) :=
  if bool_decide (coltype = "category") || (uniques <=? max_categorisable)%Z
  then Some (unique values) else None.

(** The body of the loop over the columns: it stores the [ColumnInfos] of
    column [i] and returns the new [maxlength]. *)
Definition analyze_column (cols : list string) (n_rows : Z) (maxlength : Z) (i : nat)
  : prog (Helper V) Z :=
  self ← get;
  name ← lift (list_get cols i);
  col ← lift (getitem (dataframe self) name);
  let nulls := isna_sum col in
  let uniques := Z.of_nat (length (unique (s_values col))) in
  let coltype := s_dtype col in
  let maxlength := if (maxlength <? py_len name)%Z then py_len name else maxlength in
  let categories :=
    column_categories (max_categorisable self) coltype uniques (s_values col) in
  modify (set_col_info i
            (ColumnInfos_init (Z.of_nat i) name nulls (n_rows - nulls) coltype uniques
               categories));;
  mret maxlength.

Definition analyze_columns : prog (Helper V) string :=
  self ← get;
  let cols := columns (dataframe self) in
  let n_cols := Z.of_nat (length cols) in
  let n_rows := df_len (dataframe self) in
  '(start, stop, step) ← lift (index_range (df_index (dataframe self)));
  let dataframe_main_infos := main_infos n_cols n_rows start stop step in
  modify (set_col_infos ∅);;
  maxlength ← foldM (analyze_column cols n_rows) 0%Z (py_range2 0 n_cols);
  self ← get;
  col_infos ← lift (format_col_infos (dataframe_col_infos self) color_dict maxlength);
  mret (dataframe_main_infos +:+ LF +:+ str_join LF col_infos).

(** ** Reference definitions *)

(** The summary of column [s] at position [i] of a table of [n_rows] rows.
    The attribute [n_rows] holds the number of nulls and the attribute
    [nulls] the number of non-null values: the call of line 139 passes
    them in this order. *)
Definition column_info_spec (max_cat : Z) (n_rows : Z) (i : nat) s : ColumnInfos V :=
  let nulls := isna_sum s in
  let uniques := Z.of_nat (length (unique (s_values s))) in
  {| index := Z.of_nat i;
     name := s_name s;
     n_rows := nulls;
     nulls := n_rows - nulls;
     dtype := s_dtype s;
     uniques := uniques;
     categories := column_categories max_cat (s_dtype s) uniques (s_values s) |}.

(** The summaries of the columns [cs], the first at position [k]. *)
Fixpoint infos_from (max_cat n_rows : Z) (k : nat) (cs : list (Series V))
  : list (ColumnInfos V) :=
  match cs with
  | [] => []
  | s :: cs' => column_info_spec max_cat n_rows k s :: infos_from max_cat n_rows (S k) cs'
  end.

(** Storing [infos] under the keys [k], [k + 1], ... *)
Fixpoint store_from (k : nat) (infos : list (ColumnInfos V)) (m : gmap nat (ColumnInfos V))
  : gmap nat (ColumnInfos V) :=
  match infos with
  | [] => m
  | info :: rest => store_from (S k) rest (<[k := info]> m)
  end.

(** The dict the method stores. *)
Definition col_infos_spec self : gmap nat (ColumnInfos V) :=
  store_from 0 (infos_from (max_categorisable self) (df_len (dataframe self)) 0
                  (df_columns (dataframe self))) ∅.

(** The columns before the first one whose label names several columns:
    the columns the loop gets through. *)
Fixpoint ok_prefix df (cs : list (Series V)) : list (Series V) :=
  match cs with
  | [] => []
  | s :: cs' =>
      if decide (getitem df (s_name s) = Ok s) then s :: ok_prefix df cs' else []
  end.

(** The dict the method leaves, whether the loop ends or raises. *)
Definition stored_spec self : gmap nat (ColumnInfos V) :=
  store_from 0 (infos_from (max_categorisable self) (df_len (dataframe self)) 0
                  (ok_prefix (dataframe self) (df_columns (dataframe self)))) ∅.

(** The length of the longest column name. *)
Definition maxlength_spec df : Z := foldl Z.max 0%Z (py_len ∘ s_name <$> df_columns df).

(** The method returns when the index is a range, the labels are distinct
    and every dtype has a colour. *)
Definition columns_ok df : Prop :=
  (∃ start stop step, df_index df = RangeIndex start stop step) ∧
  NoDup (columns df) ∧
  Forall (λ s, is_Some (color_dict !! s_dtype s)) (df_columns df).

(** The text the method returns when the columns are stored. *)
Definition columns_text self : result string :=
  let df := dataframe self in
  '(start, stop, step) ← index_range (df_index df);
  col_infos ← format_col_infos (col_infos_spec self) color_dict (maxlength_spec df);
  Ok (main_infos (Z.of_nat (length (columns df))) (df_len df) start stop step
      +:+ LF +:+ str_join LF col_infos).

(** What the method returns or raises, and the object it leaves, on every
    table. *)
Definition columns_result self : result string :=
  _ ← index_range (df_index (dataframe self));
  if decide (NoDup (columns (dataframe self))) then columns_text self
  else Raise AttributeError.

Definition columns_state self : Helper V :=
  match df_index (dataframe self) with
  | RangeIndex _ _ _ => set_col_infos (stored_spec self) self
  | OtherIndex _ => self
  end.

(** ** Lemmas *)

Lemma lookup_store_from k infos (m : gmap nat (ColumnInfos V)) i :
  store_from k infos m !! i =
  if decide (k ≤ i < k + length infos) then infos !! (i - k) else m !! i.
Proof.
  revert k m. induction infos as [|info rest IH]; intros k m; simpl.
  { case_decide; [lia|done]. }
  rewrite IH. destruct (decide (i = k)) as [->|].
  - rewrite decide_False, decide_True by lia. rewrite Nat.sub_diag. simpl.
    by rewrite lookup_insert_eq.
  - repeat case_decide; try lia.
    + by replace (i - k) with (S (i - S k)) by lia.
    + by rewrite lookup_insert_ne.
Qed.

Lemma infos_from_length mc n_rows k cs : length (infos_from mc n_rows k cs) = length cs.
Proof. revert k. induction cs as [|s cs IH]; intros k; simpl; [done|]. by rewrite IH. Qed.

Lemma infos_from_lookup mc n_rows k cs j :
  infos_from mc n_rows k cs !! j = column_info_spec mc n_rows (k + j) <$> cs !! j.
Proof.
  revert k j. induction cs as [|s cs IH]; intros k [|j]; simpl; try done.
  - by rewrite Nat.add_0_r.
  - rewrite IH. by replace (S k + j) with (k + S j) by lia.
Qed.

Lemma col_infos_spec_lookup self i :
  col_infos_spec self !! i =
  column_info_spec (max_categorisable self) (df_len (dataframe self)) i
    <$> df_columns (dataframe self) !! i.
Proof.
  unfold col_infos_spec. rewrite lookup_store_from, infos_from_length. simpl.
  case_decide as Hi.
  - by rewrite Nat.sub_0_r, infos_from_lookup.
  - rewrite lookup_empty, (proj2 (lookup_ge_None _ i)) by lia. done.
Qed.

Lemma col_infos_spec_map_seq self :
  col_infos_spec self =
  map_seq 0 (infos_from (max_categorisable self) (df_len (dataframe self)) 0
               (df_columns (dataframe self))).
Proof.
  apply map_eq. intros i.
  rewrite col_infos_spec_lookup, lookup_map_seq_0, infos_from_lookup. done.
Qed.

Lemma col_infos_spec_size self :
  size (col_infos_spec self) = length (df_columns (dataframe self)).
Proof.
  rewrite <-size_dom, col_infos_spec_map_seq, dom_seq_L, size_set_seq.
  apply infos_from_length.
Qed.

Lemma analyze_column_Ok cols n_rows ml i self s :
  cols !! i = Some (s_name s) → getitem (dataframe self) (s_name s) = Ok s →
  analyze_column cols n_rows ml i self =
  (Ok (Z.max ml (py_len (s_name s))),
   set_col_info i (column_info_spec (max_categorisable self) n_rows i s) self).
Proof.
  intros Hc Hg. unfold analyze_column. prog_simpl. unfold list_get.
  rewrite Hc. prog_simpl. rewrite Hg. prog_simpl. f_equal. f_equal.
  destruct (ml <? py_len (s_name s))%Z eqn:E; [apply Z.ltb_lt in E|apply Z.ltb_ge in E]; lia.
Qed.

Lemma analyze_column_Raise cols n_rows ml i self nm e :
  cols !! i = Some nm → getitem (dataframe self) nm = Raise e →
  analyze_column cols n_rows ml i self = (Raise e, self).
Proof.
  intros Hc Hg. unfold analyze_column. prog_simpl. unfold list_get.
  rewrite Hc. prog_simpl. by rewrite Hg.
Qed.

(** The loop over columns that can all be selected. *)
Lemma analyze_loop_Ok n_rows cs : ∀ pre post self ml,
  df_columns (dataframe self) = pre ++ cs ++ post →
  Forall (λ s, getitem (dataframe self) (s_name s) = Ok s) cs →
  foldM (analyze_column (columns (dataframe self)) n_rows) ml
        (seq (length pre) (length cs)) self =
  (Ok (foldl Z.max ml (py_len ∘ s_name <$> cs)),
   set_col_infos (store_from (length pre)
                    (infos_from (max_categorisable self) n_rows (length pre) cs)
                    (dataframe_col_infos self)) self).
Proof.
  induction cs as [|s cs IH]; intros pre post self ml Hcols Hok.
  { by destruct self. }
  assert (df_columns (dataframe self) !! length pre = Some s) as Hs
    by (rewrite Hcols; by apply list_lookup_middle).
  apply Forall_cons in Hok as [Hs1 Hok].
  cbn [length seq foldM]. unfold mbind at 1, prog_bind.
  rewrite (analyze_column_Ok _ _ _ _ _ s); [|by rewrite columns_lookup, Hs|done].
  specialize (IH (pre ++ [s]) post (set_col_info (length pre)
     (column_info_spec (max_categorisable self) n_rows (length pre) s) self)
     (Z.max ml (py_len (s_name s)))).
  rewrite length_app, Nat.add_1_r in IH. simpl in IH.
  etrans; [apply IH; [by rewrite Hcols, <-app_assoc|done]|done].
Qed.

(** The loop stops at the first column that cannot be selected, the
    summaries of the columns before it being stored. *)
Lemma analyze_loop_Raise n_rows cs1 s cs2 e pre self ml :
  df_columns (dataframe self) = pre ++ cs1 ++ s :: cs2 →
  Forall (λ s', getitem (dataframe self) (s_name s') = Ok s') cs1 →
  getitem (dataframe self) (s_name s) = Raise e →
  foldM (analyze_column (columns (dataframe self)) n_rows) ml
        (seq (length pre) (length (cs1 ++ s :: cs2))) self =
  (Raise e,
   set_col_infos (store_from (length pre)
                    (infos_from (max_categorisable self) n_rows (length pre) cs1)
                    (dataframe_col_infos self)) self).
Proof.
  intros Hcols Hok He.
  rewrite length_app, seq_app, foldM_prog_app, (analyze_loop_Ok _ _ _ _ _ _ Hcols Hok).
  cbn [length seq foldM]. rewrite prog_bind_eq.
  rewrite (analyze_column_Raise _ _ _ _ _ (s_name s) e); [done| |done].
  rewrite columns_lookup. simpl. rewrite Hcols, app_assoc, <-length_app.
  by rewrite list_lookup_middle.
Qed.

Lemma ok_prefix_all df cs :
  Forall (λ s, getitem df (s_name s) = Ok s) cs → ok_prefix df cs = cs.
Proof. induction 1 as [|s cs Hs _ IH]; simpl; [done|]. by rewrite decide_True, IH. Qed.

Lemma ok_prefix_NoDup df : NoDup (columns df) → ok_prefix df (df_columns df) = df_columns df.
Proof. intros Hnd. by apply ok_prefix_all, getitem_all_Ok_NoDup. Qed.

Lemma ok_prefix_Forall df cs :
  Forall (λ s, getitem df (s_name s) = Ok s) (ok_prefix df cs).
Proof.
  induction cs as [|s cs IH]; simpl; [constructor|].
  case_decide; by constructor.
Qed.

(** The columns are the prefix, followed by nothing or by a column that
    cannot be selected. *)
Lemma ok_prefix_split df cs :
  cs = ok_prefix df cs ∨
  ∃ s cs2, cs = ok_prefix df cs ++ s :: cs2 ∧ getitem df (s_name s) ≠ Ok s.
Proof.
  induction cs as [|s cs IH]; simpl; [by left|].
  case_decide as Hs; [|right; by exists s, cs].
  destruct IH as [IH|(s' & cs2 & IH & Hs')]; [left; by rewrite <-IH|].
  right. exists s', cs2. split; [simpl; congruence|done].
Qed.

Lemma ok_prefix_prefix df cs : ok_prefix df cs `prefix_of` cs.
Proof.
  destruct (ok_prefix_split df cs) as [Heq|(s & cs2 & Heq & _)].
  - by rewrite <-Heq.
  - rewrite Heq at 2. by apply prefix_app_r.
Qed.

Lemma store_from_map_seq k (infos : list (ColumnInfos V)) :
  store_from k infos ∅ = map_seq k infos.
Proof.
  apply map_eq. intros i. rewrite lookup_store_from, lookup_map_seq.
  case_decide as Hi.
  - rewrite option_guard_True by lia. done.
  - rewrite lookup_empty. destruct (decide (k ≤ i)).
    + rewrite option_guard_True by done. symmetry. apply lookup_ge_None. lia.
    + by rewrite option_guard_False.
Qed.

Lemma analyze_columns_OtherIndex self n :
  df_index (dataframe self) = OtherIndex n →
  analyze_columns self = (Raise AttributeError, self).
Proof. intros Hix. unfold analyze_columns. prog_simpl. by rewrite Hix. Qed.

Lemma analyze_columns_NoDup self start stop step :
  df_index (dataframe self) = RangeIndex start stop step →
  NoDup (columns (dataframe self)) →
  analyze_columns self = (columns_text self, set_col_infos (col_infos_spec self) self).
Proof.
  intros Hix Hnd. unfold analyze_columns, columns_text. prog_simpl.
  rewrite Hix. prog_simpl.
  rewrite py_range2_0, columns_length.
  pose proof (analyze_loop_Ok (df_len (dataframe self)) (df_columns (dataframe self))
                [] [] (set_col_infos ∅ self) 0%Z) as Hloop.
  simpl in Hloop. rewrite Hloop by (by rewrite ?app_nil_r; try apply getitem_all_Ok_NoDup).
  prog_simpl. unfold col_infos_spec, maxlength_spec.
  by destruct (format_col_infos _ _ _).
Qed.

(** With a repeated label the loop raises at the first column whose label
    is repeated. *)
Lemma analyze_columns_dup self start stop step :
  df_index (dataframe self) = RangeIndex start stop step →
  ¬ NoDup (columns (dataframe self)) →
  analyze_columns self = (Raise AttributeError, set_col_infos (stored_spec self) self).
Proof.
  intros Hix Hnd. unfold stored_spec.
  destruct (ok_prefix_split (dataframe self) (df_columns (dataframe self)))
    as [Heq|(s & cs2 & Heq & Hs)].
  { destruct Hnd. apply getitem_all_Ok_NoDup. rewrite Heq. apply ok_prefix_Forall. }
  destruct (getitem_own (dataframe self) s) as [?|He]; [|done|].
  { rewrite Heq. set_solver. }
  pose proof (analyze_loop_Raise (df_len (dataframe self)) _ s cs2 AttributeError
                [] (set_col_infos ∅ self) 0%Z Heq (ok_prefix_Forall _ _) He) as Hloop.
  rewrite <-Heq in Hloop. simpl in Hloop.
  unfold analyze_columns. prog_simpl. rewrite Hix. prog_simpl.
  by rewrite py_range2_0, columns_length, Hloop.
Qed.

Lemma stored_spec_NoDup self :
  NoDup (columns (dataframe self)) → stored_spec self = col_infos_spec self.
Proof. intros Hnd. unfold stored_spec. by rewrite ok_prefix_NoDup. Qed.

Lemma maxlength_foldl_le (l : list Z) (a : Z) : (a ≤ foldl Z.max a l)%Z.
Proof. revert a. induction l as [|x l IH]; intros a; simpl; [lia|]. specialize (IH (Z.max a x)). lia. Qed.

Lemma maxlength_foldl_elem (l : list Z) (a x : Z) : x ∈ l → (x ≤ foldl Z.max a l)%Z.
Proof.
  revert a. induction l as [|y l IH]; intros a; [by intros ?%elem_of_nil|].
  intros [->|Hin]%elem_of_cons; simpl; [|by apply IH].
  pose proof (maxlength_foldl_le l (Z.max a y)). lia.
Qed.

Lemma maxlength_spec_ge df s : s ∈ df_columns df → (py_len (s_name s) ≤ maxlength_spec df)%Z.
Proof.
  intros Hin. apply maxlength_foldl_elem.
  change (py_len (s_name s)) with ((py_len ∘ s_name) s). by apply list_elem_of_fmap_2.
Qed.

Lemma columns_text_is_Ok self :
  is_Ok (columns_text self) ↔
  (∃ start stop step, df_index (dataframe self) = RangeIndex start stop step) ∧
  Forall (λ s, is_Some (color_dict !! s_dtype s)) (df_columns (dataframe self)).
Proof.
  unfold columns_text. destruct (df_index (dataframe self)) as [a b c|n]; simpl.
  - assert (∀ r : result (list string), is_Ok (r ≫= λ col_infos,
        Ok (main_infos (Z.of_nat (length (columns (dataframe self))))
              (df_len (dataframe self)) a b c +:+ LF +:+ str_join LF col_infos))
       ↔ is_Ok r) as ->.
    { intros [l|e]; simpl; split; intros [? ?]; simplify_eq; by eexists. }
    rewrite format_col_infos_dict_is_Ok, col_infos_spec_size, Forall_lookup.
    setoid_rewrite col_infos_spec_lookup. split.
    + intros Hall. split; [by eauto|]. intros i s Hs.
      destruct (Hall i (lookup_lt_Some _ _ _ Hs)) as (c' & Hc & Hcol).
      rewrite Hs in Hc. by simplify_eq/=.
    + intros [_ Hall] i Hi. destruct (lookup_lt_is_Some_2 _ _ Hi) as [s Hs].
      rewrite Hs. eexists. split; [done|]. simpl. by eapply Hall.
  - split; [by intros [? ?]|]. by intros [(? & ? & ? & ?) _].
Qed.

(** With a range index the text fails with [KeyError] only. *)
Lemma columns_text_Raise self a b c e :
  df_index (dataframe self) = RangeIndex a b c → columns_text self = Raise e → e = KeyError.
Proof.
  intros Hix Htext. unfold columns_text in Htext. rewrite Hix in Htext. simpl in Htext.
  apply bind_Raise_inv in Htext as [He|(? & _ & [=])].
  by eapply format_col_infos_dict_KeyError.
Qed.

(** The method in closed form. *)
Lemma analyze_columns_eq self :
  analyze_columns self = (columns_result self, columns_state self).
Proof.
  unfold columns_result, columns_state.
  destruct (df_index (dataframe self)) as [a b c|n] eqn:Hix; simpl.
  - case_decide as Hnd.
    + by rewrite (analyze_columns_NoDup _ _ _ _ Hix Hnd), stored_spec_NoDup.
    + by rewrite (analyze_columns_dup _ _ _ _ Hix Hnd).
  - by rewrite (analyze_columns_OtherIndex _ _ Hix).
Qed.

(** The result depends on the table and the options only, and a second
    call stores what the first has stored. *)
Lemma columns_result_frame m c self :
  columns_result (set_corr c (set_col_infos m self)) = columns_result self.
Proof. done. Qed.

Lemma columns_state_frame self : ∃ m, columns_state self = set_col_infos m self.
Proof.
  unfold columns_state. destruct (df_index _); [by eexists|].
  exists (dataframe_col_infos self). by rewrite set_col_infos_id.
Qed.

Lemma columns_result_state self : columns_result (columns_state self) = columns_result self.
Proof. destruct (columns_state_frame self) as [m ->]. done. Qed.

Lemma columns_state_idemp self : columns_state (columns_state self) = columns_state self.
Proof. unfold columns_state. destruct (df_index (dataframe self)) eqn:Hix; simpl; by rewrite Hix. Qed.

Lemma columns_result_Ok_range self text :
  columns_result self = Ok text → ∃ a b c, df_index (dataframe self) = RangeIndex a b c.
Proof. unfold columns_result. destruct (df_index _); [by eauto|done]. Qed.

(** ** Properties *)

(** C1. What [analyze_columns] does on every table.  With an index that is
    no range it raises [AttributeError] at line 126 and leaves the state
    untouched (the dict is emptied on the next line only).  With a range
    index and distinct column labels the loop stores the reference dict
    [col_infos_spec], and the call returns the text [columns_text] or
    raises its [KeyError] after the store.  With a repeated label the
    loop raises [AttributeError] at the first column whose label is
    repeated, since [self.dataframe[name]] is then a DataFrame, and the
    dict is left with the summaries of the columns before it. *)
Theorem analyze_columns_run self :
  match df_index (dataframe self) with
  | OtherIndex _ => analyze_columns self = (Raise AttributeError, self)
  | RangeIndex _ _ _ =>
      if decide (NoDup (columns (dataframe self))) then
        analyze_columns self = (columns_text self, set_col_infos (col_infos_spec self) self)
      else analyze_columns self =
             (Raise AttributeError, set_col_infos (stored_spec self) self)
  end.
Proof.
  destruct (df_index (dataframe self)) as [a b c|n] eqn:Hix.
  - case_decide; [by eapply analyze_columns_NoDup|by eapply analyze_columns_dup].
  - by eapply analyze_columns_OtherIndex.
Qed.

(** What a run that returns has stored and returned. *)
Lemma analyze_columns_Ok_inv self text self' :
  analyze_columns self = (Ok text, self') →
  NoDup (columns (dataframe self)) ∧ columns_text self = Ok text ∧
  self' = set_col_infos (col_infos_spec self) self.
Proof.
  intros Hrun. destruct (df_index (dataframe self)) as [a b c|n] eqn:Hix.
  - destruct (decide (NoDup (columns (dataframe self)))) as [Hnd|Hnd].
    + rewrite (analyze_columns_NoDup _ _ _ _ Hix Hnd) in Hrun. by simplify_eq.
    + by rewrite (analyze_columns_dup _ _ _ _ Hix Hnd) in Hrun.
  - by rewrite (analyze_columns_OtherIndex _ _ Hix) in Hrun.
Qed.

(** C10. A run that returns changes nothing but [dataframe_col_infos], and
    the dict holds one entry per column, under the keys [0 .. n_cols - 1]
    in column order: the entry at [i] is the summary of column [i]. *)
Theorem analyze_columns_stores self text self' :
  analyze_columns self = (Ok text, self') →
  self' = set_col_infos (dataframe_col_infos self') self ∧
  size (dataframe_col_infos self') = length (df_columns (dataframe self)) ∧
  ∀ i, dataframe_col_infos self' !! i =
       column_info_spec (max_categorisable self) (df_len (dataframe self)) i
         <$> df_columns (dataframe self) !! i.
Proof.
  intros (_ & _ & ->)%analyze_columns_Ok_inv. simpl.
  split; [done|]. split; [apply col_infos_spec_size|apply col_infos_spec_lookup].
Qed.

(** An iteration changes nothing but the dict of column infos. *)
Lemma analyze_column_frame cols n_rows ml i self :
  ∃ m, (analyze_column cols n_rows ml i self).2 = set_col_infos m self.
Proof.
  unfold analyze_column. prog_simpl.
  destruct (list_get cols i) as [nm|e]; prog_simpl; [|by exists (dataframe_col_infos self); rewrite set_col_infos_id].
  destruct (getitem (dataframe self) nm) as [s|e]; prog_simpl;
    [by eexists|by exists (dataframe_col_infos self); rewrite set_col_infos_id].
Qed.

Lemma analyze_columns_frame self :
  ∃ m, (analyze_columns self).2 = set_col_infos m self.
Proof.
  unfold analyze_columns. prog_simpl.
  destruct (index_range _) as [[[a b] c]|e]; prog_simpl;
    [|by exists (dataframe_col_infos self); rewrite set_col_infos_id].
  pose proof (foldM_prog_inv (λ st, ∃ m, st = set_col_infos m self)
    (analyze_column (columns (dataframe self)) (df_len (dataframe self))) 0%Z
    (py_range2 0 (Z.of_nat (length (columns (dataframe self))))) (set_col_infos ∅ self)) as Hinv.
  destruct Hinv as [m Hm]; [by eexists| |].
  { intros ml i st [m ->]. destruct (analyze_column_frame (columns (dataframe self))
      (df_len (dataframe self)) ml i (set_col_infos m self)) as [m' ->]. by eexists. }
  destruct (foldM (M := prog (Helper V)) _ _ _ _) as [[ml|e] st]; simpl in Hm; subst st; prog_simpl; [|by eexists].
  destruct (format_col_infos _ _ _); prog_simpl; by eexists.
Qed.

(** The exceptions of [analyze_columns]. *)
Lemma analyze_columns_Raise_exn self e self' :
  analyze_columns self = (Raise e, self') → e = AttributeError ∨ e = KeyError.
Proof.
  intros Hrun. destruct (df_index (dataframe self)) as [a b c|n] eqn:Hix.
  - destruct (decide (NoDup (columns (dataframe self)))) as [Hnd|Hnd].
    + rewrite (analyze_columns_NoDup _ _ _ _ Hix Hnd) in Hrun. injection Hrun as Htext _.
      right. by eapply columns_text_Raise.
    + rewrite (analyze_columns_dup _ _ _ _ Hix Hnd) in Hrun. left. by simplify_eq.
  - rewrite (analyze_columns_OtherIndex _ _ Hix) in Hrun. left. by simplify_eq.
Qed.

(** The runs that return are the runs on the tables of [columns_ok]. *)
Lemma analyze_columns_ok_run self :
  columns_ok (dataframe self) ↔
  ∃ text, analyze_columns self = (Ok text, set_col_infos (col_infos_spec self) self) ∧
          columns_text self = Ok text ∧ NoDup (columns (dataframe self)).
Proof.
  split.
  - intros ((a & b & c & Hix) & Hnd & Hcol).
    destruct (proj2 (columns_text_is_Ok self)) as [text Htext]; [eauto 10|].
    exists text. by rewrite (analyze_columns_NoDup _ _ _ _ Hix Hnd), Htext.
  - intros (text & _ & Htext & Hnd).
    destruct (proj1 (columns_text_is_Ok self)) as [? ?]; [by eexists|done].
Qed.

(** C11. [analyze_columns] returns exactly when the index is a
    [RangeIndex], the column labels are distinct and every dtype is a key
    of [color_dict]; otherwise it raises [AttributeError] or [KeyError].
    However it ends, it changes no attribute but the dict of column
    infos. *)
Theorem analyze_columns_Ok_iff self :
  (is_Ok (analyze_columns self).1 ↔ columns_ok (dataframe self)) ∧
  (∀ e, (analyze_columns self).1 = Raise e → e = AttributeError ∨ e = KeyError) ∧
  ∃ m, (analyze_columns self).2 = set_col_infos m self.
Proof.
  split; [|split; [|apply analyze_columns_frame]].
  - rewrite analyze_columns_ok_run. split.
    + intros [text Hrun]. destruct (analyze_columns self) as [r self'] eqn:E.
      simpl in Hrun. subst r. pose proof E as (Hnd & Htext & ->)%analyze_columns_Ok_inv.
      by exists text.
    + intros (text & -> & _). by exists text.
  - intros e He. destruct (analyze_columns self) as [r self'] eqn:E.
    simpl in He. subst r. by eapply analyze_columns_Raise_exn.
Qed.

(** C34. [analyze_columns] raises [KeyError] exactly on a table with a
    range index and distinct labels on which some dtype is no key of
    [color_dict]; the exception comes from [format_col_infos], after the
    loop, so the dict of the object then holds the summaries of all the
    columns although the call has failed. *)
Theorem analyze_columns_KeyError self :
  ((analyze_columns self).1 = Raise KeyError ↔
   (∃ start stop step, df_index (dataframe self) = RangeIndex start stop step) ∧
   NoDup (columns (dataframe self)) ∧
   ¬ Forall (λ s, is_Some (color_dict !! s_dtype s)) (df_columns (dataframe self))) ∧
  ((analyze_columns self).1 = Raise KeyError →
   (analyze_columns self).2 = set_col_infos (col_infos_spec self) self).
Proof.
  rewrite analyze_columns_eq. cbn [fst snd]. unfold columns_result, columns_state.
  pose proof (columns_text_is_Ok self) as Hok.
  destruct (df_index (dataframe self)) as [a b c|n] eqn:Hix; simpl;
    [|split; [split; [done|by intros [(? & ? & ? & [=]) _]]|done]].
  case_decide as Hnd; [|split; [split; [done|by intros (_ & ? & _)]|done]].
  rewrite stored_spec_NoDup by done. split; [|done]. split.
  - intros Htext. split; [by eauto|]. split; [done|]. intros Hall.
    destruct (proj2 Hok) as [text Htext']; [by eauto 10|]. congruence.
  - intros (_ & _ & Hall). destruct (columns_text self) as [text|e] eqn:Htext.
    + destruct Hall. apply Hok. by eexists.
    + f_equal. by eapply columns_text_Raise.
Qed.

(** C26. The summaries are computed from scratch: on a table with a range
    index, the dict left by an earlier call has no influence on the
    result or on the state.  (With another index the call raises before
    it empties the dict.) *)
Theorem analyze_columns_reset self m :
  (∃ start stop step, df_index (dataframe self) = RangeIndex start stop step) →
  analyze_columns (set_col_infos m self) = analyze_columns self.
Proof.
  intros (a & b & c & Hix). unfold analyze_columns. prog_simpl. by rewrite Hix.
Qed.

Lemma column_categories_Some mc dt un (values : list V) cats :
  column_categories mc dt un values = Some cats →
  cats = unique values.
Proof. unfold column_categories. by case_match; intros [= <-]. Qed.

Lemma column_categories_is_Some mc dt un (values : list V) :
  is_Some (column_categories mc dt un values) ↔ dt = "category" ∨ (un ≤ mc)%Z.
Proof.
  unfold column_categories.
  destruct (bool_decide (dt = "category")) eqn:E1;
    [apply bool_decide_eq_true in E1|apply bool_decide_eq_false in E1];
    (destruct (un <=? mc)%Z eqn:E2; [apply Z.leb_le in E2|apply Z.leb_gt in E2]);
    simpl; (split; [intros [? ?]|intros [|]]); try done; eauto; lia.
Qed.

(** An info stored by a run that returns is the summary of its column. *)
Lemma analyze_columns_lookup self text self' i info :
  analyze_columns self = (Ok text, self') → dataframe_col_infos self' !! i = Some info →
  ∃ s, df_columns (dataframe self) !! i = Some s ∧
       info = column_info_spec (max_categorisable self) (df_len (dataframe self)) i s.
Proof.
  intros (_ & _ & ->)%analyze_columns_Ok_inv. simpl.
  rewrite col_infos_spec_lookup, fmap_Some. naive_solver.
Qed.

(** C8. On a table whose columns have one value per row, the two counts
    of every stored summary are within [0 .. len(df)] and sum to the row
    count; the attribute [n_rows] holds the number of nulls and the
    attribute [nulls] the number of non-null values. *)
Theorem analyze_columns_counts self text self' i info :
  df_wf (dataframe self) →
  analyze_columns self = (Ok text, self') → dataframe_col_infos self' !! i = Some info →
  ∃ s, df_columns (dataframe self) !! i = Some s ∧
    n_rows info = isna_sum s ∧
    nulls info = (df_len (dataframe self) - isna_sum s)%Z ∧
    (n_rows info + nulls info = df_len (dataframe self))%Z ∧
    (0 ≤ n_rows info ≤ df_len (dataframe self))%Z ∧
    (0 ≤ nulls info ≤ df_len (dataframe self))%Z.
Proof.
  intros Hwf Hrun Hi. destruct (analyze_columns_lookup _ _ _ _ _ Hrun Hi) as (s & Hs & ->).
  exists s. split; [done|]. simpl.
  unfold df_wf in Hwf. rewrite Forall_forall in Hwf. 
  pose proof (Hwf s (list_elem_of_lookup_2 _ _ _ Hs)) as Hlen.
  pose proof (isna_sum_bounds s). lia.
Qed.

(** C9. A stored summary has advice exactly when its dtype is
    [category] or its number of uniques is at most [max_categorisable];
    its categories are then the distinct values of the column, without
    repetition, as many as [uniques], with at most one null among them. *)
Theorem analyze_columns_categories self text self' i info :
  analyze_columns self = (Ok text, self') → dataframe_col_infos self' !! i = Some info →
  (has_advice info = true ↔
     dtype info = "category" ∨ (uniques info ≤ max_categorisable self)%Z) ∧
  ∀ cats, categories info = Some cats →
    NoDup cats ∧ Z.of_nat (length cats) = uniques info ∧
    length (filter (λ v, isna v = true) cats) ≤ 1.
Proof.
  intros Hrun Hi. destruct (analyze_columns_lookup _ _ _ _ _ Hrun Hi) as (s & Hs & ->).
  split.
  - rewrite has_advice_true, not_eq_None_Some. simpl. apply column_categories_is_Some.
  - simpl. intros cats ->%column_categories_Some.
    split; [apply NoDup_unique|]. split; [done|apply unique_nulls_le_1].
Qed.

(** C25. The number of uniques of a stored summary is at most the number
    of rows, and it is zero only for the table without rows. *)
Theorem analyze_columns_uniques self text self' i info :
  df_wf (dataframe self) →
  analyze_columns self = (Ok text, self') → dataframe_col_infos self' !! i = Some info →
  (0 ≤ uniques info ≤ df_len (dataframe self))%Z ∧
  (uniques info = 0%Z ↔ df_len (dataframe self) = 0%Z).
Proof.
  intros Hwf Hrun Hi. destruct (analyze_columns_lookup _ _ _ _ _ Hrun Hi) as (s & Hs & ->).
  unfold df_wf in Hwf. rewrite Forall_forall in Hwf.
  pose proof (Hwf s (list_elem_of_lookup_2 _ _ _ Hs)) as Hlen.
  pose proof (unique_length_le (s_values s)). simpl. split; [lia|].
  rewrite <-Hlen. split.
  - intros Hu. assert (unique (s_values s) = []) as ->%unique_nil_iff
      by (apply length_zero_iff_nil; lia). done.
  - intros Hl. assert (s_values s = []) as -> by (apply length_zero_iff_nil; lia). done.
Qed.

(** C35. The number of uniques counts a null as a value: it is the number
    of distinct values that are no nulls, and one more when the column
    holds a null.  (The specification counts the distinct values that are
    no nulls.) *)
Theorem analyze_columns_uniques_null self text self' i info :
  analyze_columns self = (Ok text, self') → dataframe_col_infos self' !! i = Some info →
  ∃ s, df_columns (dataframe self) !! i = Some s ∧
    uniques info =
    (Z.of_nat (length (unique (filter (λ v, isna v = false) (s_values s)))) +
     (if decide (isna_sum s = 0) then 0 else 1))%Z.
Proof.
  intros Hrun Hi. destruct (analyze_columns_lookup _ _ _ _ _ Hrun Hi) as (s & Hs & ->).
  exists s. split; [done|]. simpl. rewrite unique_length_nulls. unfold isna_sum.
  destruct (filter (λ v, isna v = true) (s_values s)); simpl; repeat case_decide; try done; lia.
Qed.

(** C18. The text of a run that returns: the two lines of
    [dataframe_main_infos], then one line per column in column order, each
    the line of the column's summary with the colour of its dtype, padded
    with the longest name's length so that every [of type] starts at the
    same offset after the position. *)
Theorem analyze_columns_text self text self' :
  analyze_columns self = (Ok text, self') →
  ∃ start stop step lines,
    df_index (dataframe self) = RangeIndex start stop step ∧
    text = main_infos (Z.of_nat (length (df_columns (dataframe self))))
             (df_len (dataframe self)) start stop step +:+ LF +:+ str_join LF lines ∧
    length lines = length (df_columns (dataframe self)) ∧
    ∀ i s, df_columns (dataframe self) !! i = Some s →
      ∃ color, color_dict !! s_dtype s = Some color ∧
        lines !! i = Some (column_line color (maxlength_spec (dataframe self)) i
          (column_info_spec (max_categorisable self) (df_len (dataframe self)) i s)) ∧
        String.length (col_info_prefix (maxlength_spec (dataframe self)) i (s_name s)) =
          String.length (str_int (Z.of_nat i)) + 4 +
          Z.to_nat (maxlength_spec (dataframe self) + 2).
Proof.
  intros (_ & Htext & _)%analyze_columns_Ok_inv. unfold columns_text in Htext.
  destruct (df_index (dataframe self)) as [a b c|n]; [|done]. simpl in Htext.
  apply bind_Ok_inv in Htext as (lines & Hlines & [= <-]).
  apply format_col_infos_dict_Ok in Hlines as [Hlen Hlines].
  rewrite col_infos_spec_size in Hlen, Hlines.
  exists a, b, c, lines. split; [done|]. rewrite columns_length. split; [done|].
  split; [done|]. intros i s Hs.
  destruct (Hlines i (lookup_lt_Some _ _ _ Hs)) as (info & color & Hinfo & Hcol & Hline).
  rewrite col_infos_spec_lookup, Hs in Hinfo. simplify_eq/=.
  exists color. split; [done|]. split; [done|].
  apply col_info_prefix_length.
  pose proof (maxlength_spec_ge _ s (list_elem_of_lookup_2 _ _ _ Hs)). lia.
Qed.
End columns.

(** ** The theorems at the example tables *)

Lemma analyze_columns_stores_witness :
  (analyze_columns wide).2 = set_col_infos (dataframe_col_infos (analyze_columns wide).2) wide ∧
  size (dataframe_col_infos (analyze_columns wide).2) = 5 ∧
  ∀ i, dataframe_col_infos (analyze_columns wide).2 !! i =
       column_info_spec 12 5 i <$> [colA; colB; col_flag; col_const; colE] !! i.
Proof. eapply (analyze_columns_stores wide). vm_compute. reflexivity. Defined.

Lemma analyze_columns_reset_witness :
  analyze_columns (set_col_infos (analyze_columns wide).2.(dataframe_col_infos) scenario1) =
  analyze_columns scenario1.
Proof. apply analyze_columns_reset. by exists 0%Z, 5%Z, 1%Z. Defined.

Lemma analyze_columns_counts_witness :
  ∃ s, df_columns wide_df !! 2 = Some s ∧
    n_rows (column_info_spec 12 5 2 col_flag) = isna_sum s ∧
    nulls (column_info_spec 12 5 2 col_flag) = (5 - isna_sum s)%Z ∧
    (n_rows (column_info_spec 12 5 2 col_flag) + nulls (column_info_spec 12 5 2 col_flag) = 5)%Z ∧
    (0 ≤ n_rows (column_info_spec 12 5 2 col_flag) ≤ 5)%Z ∧
    (0 ≤ nulls (column_info_spec 12 5 2 col_flag) ≤ 5)%Z.
Proof.
  eapply (analyze_columns_counts wide); [apply wide_df_wf| |]; vm_compute; reflexivity.
Defined.

Lemma analyze_columns_categories_witness :
  has_advice (column_info_spec 12 5 2 col_flag) = true ∧
  NoDup [VBool true; VBool false; VNaN] ∧
  uniques (column_info_spec 12 5 2 col_flag) = 3%Z.
Proof.
  epose proof (analyze_columns_categories wide _ _ 2 (column_info_spec 12 5 2 col_flag)
    ltac:(vm_compute; reflexivity) ltac:(vm_compute; reflexivity)) as [Hadv Hcats].
  split; [apply Hadv; right; by vm_compute|].
  destruct (Hcats [VBool true; VBool false; VNaN] eq_refl) as (Hnd & Hlen & _).
  by rewrite <-Hlen.
Defined.

Lemma analyze_columns_uniques_witness :
  (0 ≤ uniques (column_info_spec 12 5 3 col_const) ≤ 5)%Z ∧
  (uniques (column_info_spec 12 5 3 col_const) = 0%Z ↔ df_len wide_df = 0%Z).
Proof.
  eapply (analyze_columns_uniques wide _ _ 3); [apply wide_df_wf| |]; vm_compute; reflexivity.
Defined.

Lemma analyze_columns_uniques_null_witness :
  ∃ s, df_columns scenario2_df !! 0 = Some s ∧
    uniques (column_info_spec 12 5 0 col_flag) =
    (Z.of_nat (length (unique (filter (λ v, isna v = false) (s_values s)))) +
     (if decide (isna_sum s = 0) then 0 else 1))%Z.
Proof.
  eapply (analyze_columns_uniques_null scenario2 _ _ 0); vm_compute; reflexivity.
Defined.

Lemma analyze_columns_text_witness :
  ∃ lines,
    (analyze_columns scenario1).1 =
      Ok (main_infos 2 5 0 5 1 +:+ LF +:+ str_join LF lines) ∧
    lines !! 1 = Some (column_line "1;31;47" 1 1 (column_info_spec 12 5 1 colB)).
Proof.
  epose proof (analyze_columns_text scenario1 _ _ ltac:(vm_compute; reflexivity))
    as (a & b & c & lines & Hix & Htext & Hlen & Hlines).
  injection Hix as <- <- <-. exists lines. split; [etrans; [|exact (f_equal Ok Htext)]; vm_compute; reflexivity|].
  destruct (Hlines 1 colB eq_refl) as (color & [= <-] & Hline & _). exact Hline.
Defined.
