(* ===== verification/Correlations.v ===== *)
(** * Helper.analyze_correlations

    [analyze_correlations] (src/AnalysisHelper.py, lines 145-164) stores
    [self.dataframe.corr()] and walks the pairs [i < j] of the matrix row
    by row, appending one line per pair whose coefficient is not null and
    not in bucket 0.  The reference definitions are the list [findings]
    of the reported pairs and its rendering [corr_text].  The matrix comes
    from pandas: the theorems rely on the interface [Corr] only (a square
    matrix over the numeric columns). *)

From stdpp Require Import sorting.
From S2P Require Import Prelude PyString PyFloat Interval DataFrame Pearson Helper Tables.

(** ** The source *)

(** ["positive" if corr_value >= 0 else "negative"]. *)
Definition sign_text (corr_value : float) : string :=
  if float_nonneg corr_value then "positive" else "negative".

(** The text appended for one pair (lines 159-162). *)
Definition corr_line (a b strength : string) (corr_value : float) : string :=
  LF +:+ DQUOTE +:+ a +:+ DQUOTE +:+ " and " +:+ DQUOTE +:+ b +:+ DQUOTE +:+
  " have a " +:+ strength +:+ " " +:+ sign_text corr_value +:+
  " correlation : " +:+ fmt_f corr_value.

Section correlations.
Context {V : Type} `{Corr V}.
Implicit Types (self : Helper V) (c : CorrMatrix).

(** The body of the inner loop (lines 154-162): [corr_infos] after the
    pair [(i, j)].  [None > 0] is a [TypeError]. *)
Definition corr_pair self c (i : nat) (corr_infos : string) (j : nat) : result string :=
  corr_value ← cm_iloc c i j;
  if isnull corr_value then Ok corr_infos
  else
    correlation_strength ← get_interval (PFloat corr_value) corr_categories_intervals;
    match correlation_strength with
    | None => Raise TypeError
    | Some k =>
        if (0 <? k)%Z then
          a ← list_get (columns (dataframe self)) i;
          b ← list_get (columns (dataframe self)) j;
          strength ← seq_get corr_categories_names k;
          Ok (corr_infos +:+ corr_line a b strength corr_value)
        else Ok corr_infos
    end.

(** The inner loop (line 153). *)
Definition corr_row self c (corr_infos : string) (i : nat) : result string :=
  foldM (corr_pair self c i) corr_infos (py_range2 (Z.of_nat i + 1) (cm_len c)).

Definition analyze_correlations : prog (Helper V) string :=
  self ← get;
  let c := df_corr (dataframe self) in
  put (set_corr (Some c) self);;
  lift (foldM (corr_row self c) EmptyString (py_range (cm_len c - 1))).

End correlations.

(** ** Reference definitions *)

(** A reported pair: its two positions in the matrix and its coefficient. *)
Record finding : Type := mkFinding {
  f_row : nat;
  f_col : nat;
  f_value : float;
}.

(** The pairs [i < j < n], row by row. *)
Definition upper_pairs (n : nat) : list (nat * nat) :=
  i ← seq 0 n; pair i <$> seq (S i) (n - S i).

(** The strength bucket of a coefficient. *)
Definition strength (v : float) : Z := bucket (abs v) corr_categories_intervals.

(** A coefficient is reported when it is a number outside bucket 0. *)
Definition reported (v : float) : bool := negb (isnull v) && (0 <? strength v)%Z.

Definition cm_at (c : CorrMatrix) (i j : nat) : option float :=
  row ← cm_rows c !! i; row !! j.

Definition finding_at (c : CorrMatrix) (p : nat * nat) : option finding :=
  v ← cm_at c p.1 p.2; if reported v then Some (mkFinding p.1 p.2 v) else None.

Definition findings (c : CorrMatrix) : list finding :=
  omap (finding_at c) (upper_pairs (length (cm_rows c))).

Definition strength_name (v : float) : string :=
  default EmptyString (corr_categories_names !! Z.to_nat (strength v)).

(** The line of a finding, the columns being named by [names]. *)
Definition finding_text (names : list string) (f : finding) : string :=
  corr_line (default EmptyString (names !! f_row f)) (default EmptyString (names !! f_col f))
    (strength_name (f_value f)) (f_value f).

Definition corr_text (names : list string) (c : CorrMatrix) : string :=
  str_concat (finding_text names <$> findings c).

(** The lines of row [i]: what one run of the inner loop appends. *)
Definition row_text (names : list string) (c : CorrMatrix) (i : nat) : string :=
  str_concat ((λ j, from_option (finding_text names) EmptyString (finding_at c (i, j)))
              <$> seq (S i) (length (cm_rows c) - S i)).

(** Row-major order of the positions. *)
Definition pair_lt (p q : nat * nat) : Prop := p.1 < q.1 ∨ (p.1 = q.1 ∧ p.2 < q.2).

Definition f_pos (f : finding) : nat * nat := (f_row f, f_col f).

(** ** Lemmas on the pairs and the findings *)

Lemma elem_of_upper_pairs (n i j : nat) : (i, j) ∈ upper_pairs n ↔ i < j < n.
Proof.
  unfold upper_pairs. rewrite list_elem_of_bind. split.
  - intros (i' & Hin & Hi'). apply list_elem_of_fmap in Hin as (j' & [= -> ->] & Hj).
    apply elem_of_seq in Hj. lia.
  - intros Hij. exists i. split; [|apply elem_of_seq; lia].
    apply list_elem_of_fmap. exists j. split; [done|]. apply elem_of_seq. lia.
Qed.

Lemma strength_range (v : float) : (0 ≤ strength v ≤ 4)%Z.
Proof.
  pose proof (bucket_range (abs v) corr_categories_intervals) as Hr.
  pose proof (bucket_nonneg (abs v) corr_categories_intervals) as Hn.
  unfold strength. simpl in Hr. split; [by apply Hn|lia].
Qed.

Lemma strength_name_lookup (v : float) :
  corr_categories_names !! Z.to_nat (strength v) = Some (strength_name v).
Proof.
  unfold strength_name. pose proof (strength_range v) as Hr.
  destruct (lookup_lt_is_Some_2 corr_categories_names (Z.to_nat (strength v))) as [s ->];
    [simpl; lia|done].
Qed.

Lemma cm_iloc_at (c : CorrMatrix) (i j : nat) (v : float) :
  cm_iloc c i j = Ok v ↔ cm_at c i j = Some v.
Proof.
  unfold cm_iloc, cm_at. rewrite bind_Ok_inv, bind_Some.
  by setoid_rewrite list_get_Ok.
Qed.

Lemma cm_at_square (c : CorrMatrix) (i j : nat) :
  cm_square c → i < length (cm_rows c) → j < length (cm_rows c) → is_Some (cm_at c i j).
Proof.
  intros Hsq Hi Hj. destruct (cm_iloc_Ok c i j Hsq Hi Hj) as [v Hv].
  exists v. by apply cm_iloc_at.
Qed.

Lemma finding_at_Some (c : CorrMatrix) (p : nat * nat) (f : finding) :
  finding_at c p = Some f ↔
  f_pos f = p ∧ cm_at c (f_row f) (f_col f) = Some (f_value f) ∧ reported (f_value f) = true.
Proof.
  unfold finding_at, f_pos. destruct p as [i j]. simpl. rewrite bind_Some. split.
  - intros (v & Hv & Hf). destruct (reported v) eqn:E; [|done]. by simplify_eq/=.
  - destruct f as [i' j' v]. simpl. intros ([= -> ->] & Hv & Hr).
    exists v. by rewrite Hr.
Qed.

Lemma elem_of_findings (c : CorrMatrix) (f : finding) :
  f ∈ findings c ↔
  f_row f < f_col f < length (cm_rows c) ∧
  cm_at c (f_row f) (f_col f) = Some (f_value f) ∧ reported (f_value f) = true.
Proof.
  unfold findings. rewrite list_elem_of_omap. setoid_rewrite finding_at_Some. split.
  - intros ([i j] & Hin & Hp & Hrest). apply elem_of_upper_pairs in Hin.
    unfold f_pos in Hp. by simplify_eq.
  - intros (Hij & Hrest). exists (f_pos f). split; [by apply elem_of_upper_pairs|done].
Qed.

Lemma reported_spec (v : float) :
  reported v = true ↔ is_nan v = false ∧ (abs v <? 0.2)%float = false.
Proof.
  unfold reported, isnull, strength, bucket, corr_categories_intervals. cbn [first_above].
  destruct (is_nan v); simpl; [naive_solver|].
  destruct (abs v <? 0.2)%float; simpl; [naive_solver|].
  split; [done|]. intros _. apply Z.ltb_lt.
  match goal with |- context [match S <$> ?x with _ => _ end] => destruct x end; simpl; lia.
Qed.

Lemma reported_strength (v : float) : reported v = true → (1 ≤ strength v ≤ 4)%Z.
Proof.
  unfold reported. intros [_ Hs%Z.ltb_lt]%andb_prop. pose proof (strength_range v). lia.
Qed.


Section correlations_lemmas.
Context {V : Type} `{Corr V}.
Implicit Types (self : Helper V) (c : CorrMatrix).

(** One iteration of the inner loop appends the line of the finding at
    [(i, j)], if there is one. *)
Lemma corr_pair_spec self c i j corr_infos :
  cm_square c → i < length (cm_rows c) → j < length (cm_rows c) →
  length (cm_rows c) ≤ length (columns (dataframe self)) →
  corr_pair self c i corr_infos j =
  Ok (corr_infos +:+
      from_option (finding_text (columns (dataframe self))) EmptyString (finding_at c (i, j))).
Proof.
  intros Hsq Hi Hj Hlen. unfold corr_pair, finding_at. cbn [fst snd].
  destruct (cm_at_square c i j Hsq Hi Hj) as [v Hv].
  rewrite (proj2 (cm_iloc_at c i j v) Hv), Hv, bind_Ok. cbn [mbind option_bind].
  unfold reported. destruct (isnull v); cbn [negb andb from_option];
    [by rewrite str_app_nil_r|].
  rewrite get_interval_float, bind_Ok. fold (strength v).
  destruct (0 <? strength v)%Z eqn:Hk; cbn [from_option]; [|by rewrite str_app_nil_r].
  apply Z.ltb_lt in Hk.
  destruct (lookup_lt_is_Some_2 (columns (dataframe self)) i) as [a Ha]; [lia|].
  destruct (lookup_lt_is_Some_2 (columns (dataframe self)) j) as [b Hb]; [lia|].
  rewrite (proj2 (list_get_Ok _ _ _) Ha), bind_Ok, (proj2 (list_get_Ok _ _ _) Hb), bind_Ok.
  rewrite seq_get_nonneg by lia.
  rewrite (proj2 (list_get_Ok _ _ _) (strength_name_lookup v)), bind_Ok.
  unfold finding_text. cbn [f_row f_col f_value]. by rewrite Ha, Hb.
Qed.

Lemma corr_row_spec self c i corr_infos :
  cm_square c → i < length (cm_rows c) →
  length (cm_rows c) ≤ length (columns (dataframe self)) →
  corr_row self c corr_infos i = Ok (corr_infos +:+ row_text (columns (dataframe self)) c i).
Proof.
  intros Hsq Hi Hlen. unfold corr_row, cm_len, row_text.
  replace (Z.of_nat i + 1)%Z with (Z.of_nat (S i)) by lia. rewrite py_range2_of_nat.
  rewrite <-foldl_str_concat. apply foldM_result_pure.
  intros acc j [_ Hj]%elem_of_seq. apply corr_pair_spec; [done..|lia|done].
Qed.

Lemma row_text_last names c : row_text names c (length (cm_rows c) - 1) = EmptyString.
Proof.
  unfold row_text. by replace (length (cm_rows c) - S (length (cm_rows c) - 1)) with 0 by lia.
Qed.

Lemma corr_text_rows names c :
  corr_text names c = str_concat (row_text names c <$> seq 0 (length (cm_rows c) - 1)).
Proof.
  unfold corr_text, findings, upper_pairs. rewrite <-str_concat_omap, str_concat_bind.
  trans (str_concat (row_text names c <$> seq 0 (length (cm_rows c)))).
  { f_equal. apply list_fmap_ext. intros _ i _. unfold row_text.
    by rewrite <-list_fmap_compose. }
  pose proof (row_text_last names c) as Hlast. revert Hlast.
  generalize (row_text names c). generalize (length (cm_rows c)).
  intros [|n] F Hlast; [done|]. replace (S n - 1) with n in * by lia.
  rewrite seq_S, fmap_app, str_concat_app. simpl.
  by rewrite Hlast, !str_app_nil_r.
Qed.

Lemma corr_loop_spec self c :
  cm_square c → length (cm_rows c) ≤ length (columns (dataframe self)) →
  foldM (corr_row self c) EmptyString (py_range (cm_len c - 1)) =
  Ok (corr_text (columns (dataframe self)) c).
Proof.
  intros Hsq Hlen. unfold cm_len. rewrite py_range_pred.
  rewrite (foldM_result_pure _ (λ acc i, acc +:+ row_text (columns (dataframe self)) c i)).
  2:{ intros acc i [_ Hi]%elem_of_seq. apply corr_row_spec; [done|lia|done]. }
  by rewrite foldl_str_concat, str_app_nil_l, corr_text_rows.
Qed.
End correlations_lemmas.

(** ** Order of the pairs *)

Lemma StronglySorted_seq (a n : nat) : StronglySorted lt (seq a n).
Proof.
  revert a. induction n as [|n IH]; intros a; simpl; constructor; [apply IH|].
  apply Forall_forall. intros x Hx%elem_of_seq. lia.
Qed.

Lemma row_pairs_sorted (i a n : nat) : StronglySorted pair_lt (pair i <$> seq a n).
Proof.
  apply (StronglySorted_fmap _ lt pair_lt); [|apply StronglySorted_seq].
  intros x y Hxy. right. simpl. lia.
Qed.

Lemma upper_pairs_from_sorted (n k m : nat) :
  StronglySorted pair_lt (seq k m ≫= λ i, pair i <$> seq (S i) (n - S i)).
Proof.
  revert k. induction m as [|m IH]; intros k; [constructor|].
  simpl seq. rewrite bind_cons. apply StronglySorted_app. split_and!; [|apply row_pairs_sorted|apply IH].
  intros p q (j & -> & _)%list_elem_of_fmap (i & (j' & -> & _)%list_elem_of_fmap & Hi%elem_of_seq)%list_elem_of_bind.
  left. simpl. lia.
Qed.

Lemma upper_pairs_sorted (n : nat) : StronglySorted pair_lt (upper_pairs n).
Proof. apply upper_pairs_from_sorted. Qed.

(** Dropping items of a sorted list leaves it sorted. *)
Lemma StronglySorted_omap {A B} (R : relation A) (f : A → option B) (g : B → A) (l : list A) :
  (∀ x y, f x = Some y → g y = x) →
  StronglySorted R l → StronglySorted R (g <$> omap f l).
Proof.
  intros Hfg. induction 1 as [|x l Hl IH Hx]; simpl; [constructor|].
  destruct (f x) as [y|] eqn:E; [|done]. rewrite fmap_cons, (Hfg x y E).
  constructor; [done|]. apply Forall_forall.
  intros x' (y' & -> & (x'' & Hin & E')%list_elem_of_omap)%list_elem_of_fmap.
  rewrite (Hfg _ _ E'). rewrite Forall_forall in Hx. by apply Hx.
Qed.

Section correlations_props.
Context {V : Type} `{Scalar V} `{Corr V}.
Implicit Types (self : Helper V) (c : CorrMatrix).

Lemma corr_len_le (df : DataFrame V) : length (cm_rows (df_corr df)) ≤ length (columns df).
Proof.
  destruct (df_corr_square df) as [-> _].
  rewrite df_corr_labels, length_fmap, columns_length. apply length_filter.
Qed.

Lemma corr_labels_numeric (df : DataFrame V) :
  Forall (λ s, numeric s = true) (df_columns df) → cm_labels (df_corr df) = columns df.
Proof.
  intros Hall. rewrite df_corr_labels. unfold columns. f_equal.
  induction Hall as [|s l Hs Hl IH]; [done|]. rewrite filter_cons_True by done. by rewrite IH.
Qed.

(** The whole method: it never raises. *)
Lemma analyze_correlations_run self :
  analyze_correlations self =
  (Ok (corr_text (columns (dataframe self)) (df_corr (dataframe self))),
   set_corr (Some (df_corr (dataframe self))) self).
Proof.
  unfold analyze_correlations. prog_simpl. unfold put, lift. prog_simpl.
  rewrite corr_loop_spec; [done|apply df_corr_square|apply corr_len_le].
Qed.

(** The findings in terms of the coefficients. *)
Lemma findings_spec c f :
  f ∈ findings c ↔
  f_row f < f_col f < length (cm_rows c) ∧
  cm_at c (f_row f) (f_col f) = Some (f_value f) ∧
  is_nan (f_value f) = false ∧ (abs (f_value f) <? 0.2)%float = false.
Proof. by rewrite elem_of_findings, reported_spec. Qed.

Lemma findings_sorted c : StronglySorted pair_lt (f_pos <$> findings c).
Proof.
  apply StronglySorted_omap; [|apply upper_pairs_sorted].
  by intros p f (Hp & _)%finding_at_Some.
Qed.

(** ** Properties *)

(** The text reads the names at the positions below the size of the
    matrix only. *)
Lemma corr_text_ext (names names' : list string) c :
  (∀ i, i < length (cm_rows c) → names !! i = names' !! i) →
  corr_text names c = corr_text names' c.
Proof.
  intros Hnames. unfold corr_text. f_equal. apply list_fmap_ext.
  intros k f Hf%list_elem_of_lookup_2. apply findings_spec in Hf as ([Hi Hj] & _).
  unfold finding_text. by rewrite !Hnames by lia.
Qed.

(** The names at the positions of the matrix are its labels exactly when
    the numeric columns come first. *)
Lemma corr_names_numeric (df : DataFrame V) :
  NoDup (columns df) →
  take (length (cm_labels (df_corr df))) (columns df) = cm_labels (df_corr df) ↔
  Forall (λ s, numeric s = true) (take (length (cm_labels (df_corr df))) (df_columns df)).
Proof.
  intros Hnd. rewrite df_corr_labels, length_fmap. unfold columns. rewrite <-fmap_take.
  set (num := filter _ _). split.
  - intros Heq. apply Forall_lookup_2. intros k s Hs.
    assert (is_Some (num !! k)) as [t Ht].
    { apply lookup_lt_is_Some. apply lookup_lt_Some in Hs. rewrite length_take in Hs. lia. }
    pose proof (f_equal (.!! k) Heq) as Hk. rewrite !list_lookup_fmap, Hs, Ht in Hk.
    simplify_eq/=. pose proof (list_elem_of_lookup_2 _ _ _ Ht) as [Hnum Hin]%list_elem_of_filter.
    apply lookup_take_Some in Hs as [Hs%list_elem_of_lookup_2 _].
    by rewrite (NoDup_fmap_elem_inj s_name _ s t Hnd Hs Hin).
  - intros Hall. f_equal. by apply take_filter_Forall.
Qed.

(** C2. [analyze_correlations] never raises.  It stores the matrix of
    [dataframe.corr()] in [self.corr], leaves the rest of the state as it
    was, and returns one line per reported pair.  The reported pairs are
    exactly the pairs [i < j] of the matrix whose coefficient is a number
    of magnitude not below 0.2 (no pair with an undefined coefficient, no
    pair of bucket 0), in row-major order, each once; the columns of
    position [i] and [j] are named by [dataframe.columns]. *)
Theorem analyze_correlations_spec self :
  ∃ l : list finding,
    analyze_correlations self =
      (Ok (str_concat (finding_text (columns (dataframe self)) <$> l)),
       set_corr (Some (df_corr (dataframe self))) self) ∧
    StronglySorted pair_lt (f_pos <$> l) ∧
    ∀ f, f ∈ l ↔
      f_row f < f_col f < length (cm_rows (df_corr (dataframe self))) ∧
      cm_at (df_corr (dataframe self)) (f_row f) (f_col f) = Some (f_value f) ∧
      is_nan (f_value f) = false ∧ (abs (f_value f) <? 0.2)%float = false.
Proof.
  exists (findings (df_corr (dataframe self))).
  split; [apply analyze_correlations_run|]. split; [apply findings_sorted|apply findings_spec].
Qed.

(** C24. On a table whose columns are all numeric, the names in the text
    are the labels of the matrix at the positions of each finding. *)
Theorem analyze_correlations_numeric self :
  Forall (λ s, numeric s = true) (df_columns (dataframe self)) →
  (analyze_correlations self).1 =
  Ok (corr_text (cm_labels (df_corr (dataframe self))) (df_corr (dataframe self))).
Proof.
  intros Hall. by rewrite analyze_correlations_run, corr_labels_numeric.
Qed.

(** C13. When the names in the text are right.  The loops index the
    columns of the table with the positions of the matrix, which has the
    numeric columns only.  On a table with distinct labels, the names at
    the positions of the matrix are its labels exactly when no column
    that is not numeric stands before a numeric one; then the text names
    every pair by the labels of its coefficient.  On every other table
    some position is named after another column than the one
    correlated. *)
Theorem analyze_correlations_names self :
  NoDup (columns (dataframe self)) →
  (take (length (cm_labels (df_corr (dataframe self)))) (columns (dataframe self)) =
     cm_labels (df_corr (dataframe self)) ↔
   Forall (λ s, numeric s = true)
     (take (length (cm_labels (df_corr (dataframe self)))) (df_columns (dataframe self)))) ∧
  (take (length (cm_labels (df_corr (dataframe self)))) (columns (dataframe self)) =
     cm_labels (df_corr (dataframe self)) →
   (analyze_correlations self).1 =
   Ok (corr_text (cm_labels (df_corr (dataframe self))) (df_corr (dataframe self)))).
Proof.
  intros Hnd. split; [by apply corr_names_numeric|]. intros Hnames.
  rewrite analyze_correlations_run. cbn [fst]. f_equal. apply corr_text_ext.
  intros i Hi. destruct (df_corr_square (dataframe self)) as [Hlen _].
  pose proof (f_equal (.!! i) Hnames) as Hi'. simpl in Hi'.
  by rewrite lookup_take_lt in Hi' by lia.
Qed.

End correlations_props.

(** ** The theorems at the example tables *)

Lemma analyze_correlations_numeric_witness :
  (analyze_correlations scenario1).1 = Ok (corr_text ["A"; "B"]%string (df_corr scenario1_df)).
Proof. exact (analyze_correlations_numeric scenario1 ltac:(by repeat constructor)). Defined.

Lemma analyze_correlations_names_witness :
  (take (length (cm_labels (df_corr mixed_df))) (columns mixed_df) = cm_labels (df_corr mixed_df) ↔
   Forall (λ s, numeric s = true) (take (length (cm_labels (df_corr mixed_df))) (df_columns mixed_df))) ∧
  (take (length (cm_labels (df_corr mixed_df))) (columns mixed_df) = cm_labels (df_corr mixed_df) →
   (analyze_correlations mixed).1 =
   Ok (corr_text (cm_labels (df_corr mixed_df)) (df_corr mixed_df))).
Proof. exact (analyze_correlations_names mixed ltac:(compute_done)). Defined.

