(* ===== verification/Advices.v ===== *)
(** * Helper.get_advices

    [get_advices] (src/AnalysisHelper.py, lines 166-171) walks the dict of
    column infos by the keys [0 .. len - 1] and joins the advices of the
    columns that have one.  It returns when the keys of the dict are
    exactly these, which [analyze_columns] establishes, and raises
    [KeyError] otherwise. *)

From S2P Require Import Prelude PyString DataFrame ColumnInfos Format Helper Tables Columns.

Section advices.
Context {V : Type} `{Scalar V}.
Implicit Types (self : Helper V) (infos : gmap nat (ColumnInfos V)).

(** ** The source *)

(** The body of the loop: both subscripts of lines 169 and 170. *)
Definition get_advices_step infos (advices : list (option string)) (i : nat)
  : result (list (option string)) :=
  info ← dict_get infos i;
  if has_advice info then
    info ← dict_get infos i;
    Ok (advices ++ [get_advice info])
  else Ok advices.

Definition get_advices : prog (Helper V) string :=
  self ← get;
  let infos := dataframe_col_infos self in
  advices ← lift (foldM (get_advices_step infos) [] (py_range (Z.of_nat (size infos))));
  text ← lift (str_join_opt LF advices);
  mret (LF +:+ text).

(** ** Reference definitions *)

(** The keys of the dict are [0 .. len - 1]. *)
Definition dense infos : Prop :=
  Forall (λ i, is_Some (infos !! i)) (seq 0 (size infos)).

#[export] Instance dense_dec infos : Decision (dense infos).
Proof. unfold dense. apply _. Defined.

(** The infos under the keys [0 .. len - 1], in this order. *)
Definition col_infos_list infos : list (ColumnInfos V) :=
  omap (infos !!.) (seq 0 (size infos)).

(** The advices of a list of column infos: one per column that has
    categories, in column order. *)
Definition advices_spec (l : list (ColumnInfos V)) : list string := omap get_advice l.

Definition advices_text (l : list (ColumnInfos V)) : string :=
  LF +:+ str_join LF (advices_spec l).

(** ** Lemmas *)

Lemma dense_lookup infos : dense infos ↔ ∀ i, i < size infos → is_Some (infos !! i).
Proof.
  unfold dense. rewrite Forall_forall. setoid_rewrite elem_of_seq.
  split; intros Hd i ?; apply Hd; lia.
Qed.

Lemma get_advices_step_Some infos advices i info :
  infos !! i = Some info →
  get_advices_step infos advices i = Ok (advices ++ (Some <$> advices_spec [info])).
Proof.
  intros Hi. unfold get_advices_step, advices_spec.
  rewrite (proj2 (dict_get_Ok _ _ _) Hi), !bind_Ok. simpl.
  destruct (has_advice info) eqn:E.
  - destruct (get_advice_is_Some _ E) as [t ->]. done.
  - apply has_advice_false, get_advice_None in E as ->. by rewrite app_nil_r.
Qed.

Lemma get_advices_step_None infos advices i :
  infos !! i = None → get_advices_step infos advices i = Raise KeyError.
Proof.
  intros Hi. unfold get_advices_step.
  destruct (dict_get infos i) as [info|e] eqn:E.
  - apply dict_get_Ok in E. congruence.
  - by apply dict_get_Raise in E as [_ ->].
Qed.

(** The loop over keys that are all present. *)
Lemma get_advices_loop_Ok infos advices (ks : list nat) :
  Forall (λ i, is_Some (infos !! i)) ks →
  foldM (get_advices_step infos) advices ks =
  Ok (advices ++ (Some <$> advices_spec (omap (infos !!.) ks))).
Proof.
  intros Hks. revert advices. induction Hks as [|i ks [info Hi] _ IH]; intros advices; simpl.
  - by rewrite app_nil_r.
  - rewrite (get_advices_step_Some _ _ _ _ Hi), bind_Ok, IH, Hi. simpl.
    unfold advices_spec. simpl.
    destruct (get_advice info); simpl; by rewrite <-app_assoc.
Qed.

(** The loop stops at the first key that is missing. *)
Lemma get_advices_loop_Raise infos advices (ks1 ks2 : list nat) (i : nat) :
  Forall (λ i, is_Some (infos !! i)) ks1 → infos !! i = None →
  foldM (get_advices_step infos) advices (ks1 ++ i :: ks2) = Raise KeyError.
Proof.
  intros Hks1 Hi. rewrite foldM_result_app, (get_advices_loop_Ok _ _ _ Hks1), bind_Ok. simpl.
  by rewrite (get_advices_step_None _ _ _ Hi).
Qed.

(** The method changes no attribute. *)
Lemma get_advices_frame self : (get_advices self).2 = self.
Proof.
  unfold get_advices. prog_simpl. unfold lift.
  destruct (foldM _ _ _) as [advices|e]; prog_simpl; [|done].
  by destruct (str_join_opt _ _).
Qed.

(** The method on a dict built from a list of infos. *)
Lemma get_advices_map_seq self (l : list (ColumnInfos V)) :
  dataframe_col_infos self = map_seq 0 l →
  get_advices self = (Ok (advices_text l), self).
Proof.
  intros Hm. unfold get_advices. prog_simpl. unfold lift. prog_simpl.
  rewrite Hm, py_range_of_nat, (get_advices_loop_Ok _ _ _ (map_seq_keys _)). prog_simpl.
  by rewrite omap_lookup_map_seq, str_join_opt_Some.
Qed.

(** ** Properties *)

(** C14. On a dict whose keys are [0 .. len - 1], [get_advices] returns a
    line feed followed by the advices of the columns that have one, in
    key order, one per line; it changes no attribute.  No item of the
    joined list is [None], so the join never fails. *)
Theorem get_advices_dense self :
  dense (dataframe_col_infos self) →
  get_advices self = (Ok (advices_text (col_infos_list (dataframe_col_infos self))), self).
Proof.
  intros Hd. unfold get_advices. prog_simpl. unfold lift. prog_simpl.
  rewrite py_range_of_nat, (get_advices_loop_Ok _ _ _ Hd). prog_simpl.
  by rewrite str_join_opt_Some.
Qed.

(** C15. On a dict with a key missing below its length, [get_advices]
    raises [KeyError] and changes no attribute. *)
Theorem get_advices_KeyError self :
  ¬ dense (dataframe_col_infos self) → get_advices self = (Raise KeyError, self).
Proof.
  intros Hd.
  destruct (Forall_or_first_failure (λ i, is_Some (dataframe_col_infos self !! i))
              (seq 0 (size (dataframe_col_infos self))))
    as [?|(ks1 & i & ks2 & Hks & Hks1 & Hi)]; [done|].
  apply eq_None_not_Some in Hi.
  unfold get_advices. prog_simpl. unfold lift. prog_simpl.
  by rewrite py_range_of_nat, Hks, (get_advices_loop_Raise _ _ _ _ _ Hks1 Hi).
Qed.

(** C5. After [analyze_columns] has returned, [get_advices] returns the
    advices of the summaries of the columns, in column order. *)
Theorem get_advices_after_columns self text self' :
  analyze_columns self = (Ok text, self') →
  get_advices self' =
  (Ok (advices_text (infos_from (max_categorisable self) (df_len (dataframe self)) 0
                       (df_columns (dataframe self)))), self').
Proof.
  intros (_ & _ & ->)%analyze_columns_Ok_inv.
  apply get_advices_map_seq, col_infos_spec_map_seq.
Qed.

End advices.

(** ** The theorems at the example tables *)

Lemma get_advices_dense_witness :
  get_advices (analyze_columns wide).2 =
  (Ok (advices_text (col_infos_list (col_infos_spec wide))), (analyze_columns wide).2).
Proof.
  apply (get_advices_dense (analyze_columns wide).2).
  compute_done.
Defined.

Lemma get_advices_KeyError_witness :
  get_advices (set_col_infos {[1 := column_info_spec 12 5 1 colB]} scenario1) =
  (Raise KeyError, set_col_infos {[1 := column_info_spec 12 5 1 colB]} scenario1).
Proof.
  apply get_advices_KeyError. compute_done.
Defined.

Lemma get_advices_after_columns_witness :
  get_advices (analyze_columns scenario3).2 =
  (Ok (advices_text [column_info_spec 12 5 0 col_const]), (analyze_columns scenario3).2).
Proof.
  eapply (get_advices_after_columns scenario3). vm_compute. reflexivity.
Defined.
