(* ===== verification/FirstAnalysis.v ===== *)
(** * Helper.firstAnalysis

    [firstAnalysis] (src/AnalysisHelper.py, lines 93-110) prints the three
    reports under their headers and may hand the correlation matrix to
    seaborn.  The console and the plotting library are modelled by the
    trace of the calls made to them: the state of a run is the object
    together with the events emitted so far. *)

From S2P Require Import Prelude PyString PyFloat DataFrame Pearson ColumnInfos Format Helper.
From S2P Require Import Tables Columns Correlations Advices.

(** ** The outside world *)

(** A call of [print], of [sns.heatmap] with its arguments, or of
    [plt.show]. *)
Inductive event : Type :=
| Print (text : string)
| Heatmap (data : CorrMatrix) (cmap : string) (annot : bool)
    (xticklabels yticklabels : list string) (vmin vmax : Z)
| PltShow.

Record World (V : Type) : Type := mkWorld {
  w_self : Helper V;
  w_out : list event;
}.
Arguments mkWorld {V} _ _.
Arguments w_self {V} _.
Arguments w_out {V} _.

Definition is_heatmap (e : event) : bool :=
  match e with Heatmap _ _ _ _ _ _ _ => true | _ => false end.

Section first_analysis.
Context {V : Type} `{Scalar V} `{Corr V}.
Implicit Types (self : Helper V) (w : World V).

(** ** The source *)

Definition emit (e : event) : prog (World V) unit :=
  modify (λ w, mkWorld (w_self w) (w_out w ++ [e])).

Definition print (text : string) : prog (World V) unit := emit (Print text).

(** A method call on [self]: it changes the object, not the trace. *)
Definition method {A} (m : prog (Helper V) A) : prog (World V) A :=
  zoom w_self (λ self w, mkWorld self (w_out w)) m.

Definition firstAnalysis (show_corr_matrix_arg : bool) : prog (World V) unit :=
  print (LF +:+ "##### GENERAL DATAFRAME INFOS #####");;
  text ← method analyze_columns; print text;;
  print (LF +:+ "##### CORRELATION INFOS #####");;
  text ← method analyze_correlations; print text;;
  print (LF +:+ "##### GENERAL ADVICES #####");;
  text ← method get_advices; print text;;
  w ← get;
  let self := w_self w in
  if show_corr_matrix_arg && show_corr_matrix self then
    match corr self with
    | Some c =>
        emit (Heatmap c (corr_cmap self) (annot_corr self) (cm_labels c) (cm_labels c) (-1) 1);;
        emit PltShow
    | None => mret tt
    end
  else mret tt.

(** ** Reference definitions *)

(** The object after a run that returns. *)
Definition analysed self : Helper V :=
  set_corr (Some (df_corr (dataframe self))) (set_col_infos (col_infos_spec self) self).

(** The six calls of [print], the first report being [text]. *)
Definition report_events self (text : string) : list event :=
  [Print (LF +:+ "##### GENERAL DATAFRAME INFOS #####"); Print text;
   Print (LF +:+ "##### CORRELATION INFOS #####");
   Print (corr_text (columns (dataframe self)) (df_corr (dataframe self)));
   Print (LF +:+ "##### GENERAL ADVICES #####");
   Print (advices_text (infos_from (max_categorisable self) (df_len (dataframe self)) 0
                          (df_columns (dataframe self))))].

(** The calls to the plotting libraries. *)
Definition heatmap_events (show_corr_matrix_arg : bool) self : list event :=
  if show_corr_matrix_arg && show_corr_matrix self then
    let c := df_corr (dataframe self) in
    [Heatmap c (corr_cmap self) (annot_corr self) (cm_labels c) (cm_labels c) (-1) 1; PltShow]
  else [].

(** ** Lemmas *)

Lemma method_eq {A} (m : prog (Helper V) A) self out r self' :
  m self = (r, self') → method m (mkWorld self out) = (r, mkWorld self' out).
Proof. intros Hm. unfold method, zoom. simpl. by rewrite Hm. Qed.

Lemma print_eq text self out :
  print text (mkWorld self out) = (Ok tt, mkWorld self (out ++ [Print text])).
Proof. done. Qed.

(** The run up to the first report, when [analyze_columns] returns. *)
Lemma firstAnalysis_returns show self out text :
  NoDup (columns (dataframe self)) → columns_text self = Ok text →
  firstAnalysis show (mkWorld self out) =
  (Ok tt, mkWorld (analysed self) (out ++ report_events self text ++ heatmap_events show self)).
Proof.
  intros Hnd Htext. unfold columns_text in Htext.
  destruct (df_index (dataframe self)) as [a b c|n] eqn:Hix; [|done].
  pose proof (analyze_columns_NoDup self a b c Hix Hnd) as Hcols.
  unfold columns_text in Hcols. rewrite Hix, Htext in Hcols.
  unfold firstAnalysis. rewrite prog_bind_eq, print_eq.
  rewrite prog_bind_eq, (method_eq _ _ _ _ _ Hcols), prog_bind_eq, print_eq.
  rewrite prog_bind_eq, print_eq.
  rewrite prog_bind_eq, (method_eq _ _ _ _ _ (analyze_correlations_run _)).
  rewrite prog_bind_eq, print_eq, prog_bind_eq, print_eq.
  rewrite prog_bind_eq, (method_eq _ _ _ _ _
    (get_advices_map_seq (analysed self) _ (col_infos_spec_map_seq self))).
  rewrite prog_bind_eq, print_eq. prog_simpl.
  unfold analysed, heatmap_events.
  destruct (show && show_corr_matrix self); unfold emit; prog_simpl;
    rewrite <-?app_assoc; done.
Qed.

(** The run when [analyze_columns] raises. *)
Lemma firstAnalysis_raises show self out e self' :
  analyze_columns self = (Raise e, self') →
  firstAnalysis show (mkWorld self out) =
  (Raise e, mkWorld self' (out ++ [Print (LF +:+ "##### GENERAL DATAFRAME INFOS #####")])).
Proof.
  intros Hcols. unfold firstAnalysis.
  by rewrite prog_bind_eq, print_eq, prog_bind_eq, (method_eq _ _ _ _ _ Hcols).
Qed.

(** The method in closed form. *)
Lemma firstAnalysis_eq show self out :
  firstAnalysis show (mkWorld self out) =
  match columns_result self with
  | Ok text =>
      (Ok tt, mkWorld (analysed self)
                (out ++ report_events self text ++ heatmap_events show self))
  | Raise e =>
      (Raise e, mkWorld (columns_state self)
                  (out ++ [Print (LF +:+ "##### GENERAL DATAFRAME INFOS #####")]))
  end.
Proof.
  pose proof (analyze_columns_eq self) as Hcols.
  destruct (columns_result self) as [text|e].
  - pose proof Hcols as (Hnd & Htext & _)%analyze_columns_Ok_inv.
    by apply firstAnalysis_returns.
  - by apply firstAnalysis_raises.
Qed.

Lemma report_events_no_heatmap self text : Forall (λ e, is_heatmap e = false) (report_events self text).
Proof. by repeat constructor. Qed.

Lemma heatmap_events_Exists show self :
  Exists (λ e, is_heatmap e = true) (heatmap_events show self) ↔
  show = true ∧ show_corr_matrix self = true.
Proof.
  unfold heatmap_events. rewrite <-andb_true_iff.
  destruct (show && show_corr_matrix self); [split; [done|by left]|].
  split; [by intros ?%Exists_nil|done].
Qed.

(** ** Properties *)

(** C4. On a table [analyze_columns] accepts, [firstAnalysis] returns; it
    leaves the summaries and the matrix in the object, and its calls to
    the outside are the three headers, each followed by its report, then
    [sns.heatmap] on the stored matrix with the object's colour map and
    annotation flag, the labels of the matrix on both axes and the bounds
    -1 and 1, followed by [plt.show], when the argument and the attribute
    [show_corr_matrix] are both true, and nothing more otherwise. *)
Theorem firstAnalysis_spec (show : bool) self (out : list event) :
  columns_ok (dataframe self) →
  ∃ text, (analyze_columns self).1 = Ok text ∧
    firstAnalysis show (mkWorld self out) =
    (Ok tt, mkWorld (analysed self)
              (out ++ report_events self text ++ heatmap_events show self)).
Proof.
  intros (text & Hrun & Htext & Hnd)%analyze_columns_ok_run. exists text.
  split; [by rewrite Hrun|by apply firstAnalysis_returns].
Qed.

(** C16. When [firstAnalysis] raises, the exception is the
    [AttributeError] or [KeyError] of [analyze_columns] on a table it does
    not accept; only the first header has been printed, no correlation has
    been computed and nothing has been drawn. *)
Theorem firstAnalysis_raises_spec (show : bool) self (out : list event) e w' :
  firstAnalysis show (mkWorld self out) = (Raise e, w') →
  (e = AttributeError ∨ e = KeyError) ∧ ¬ columns_ok (dataframe self) ∧
  w_out w' = out ++ [Print (LF +:+ "##### GENERAL DATAFRAME INFOS #####")] ∧
  corr (w_self w') = corr self ∧ w_self w' = (analyze_columns self).2.
Proof.
  intros Hrun. destruct (analyze_columns self) as [[text|e'] self'] eqn:Hcols.
  - apply analyze_columns_Ok_inv in Hcols as (Hnd & Htext & _).
    by rewrite (firstAnalysis_returns _ _ _ _ Hnd Htext) in Hrun.
  - rewrite (firstAnalysis_raises _ _ _ _ _ Hcols) in Hrun. simplify_eq/=.
    split; [by eapply analyze_columns_Raise_exn|].
    split; [intros (text & Hok & _)%analyze_columns_ok_run; congruence|].
    split; [done|]. split; [|done].
    destruct (analyze_columns_frame self) as [m Hm]. rewrite Hcols in Hm. simpl in Hm. by subst.
Qed.

(** C17. A heatmap is drawn exactly when the table is one
    [analyze_columns] accepts and the argument and the attribute
    [show_corr_matrix] are both true. *)
Theorem firstAnalysis_heatmap (show : bool) self :
  Exists (λ e, is_heatmap e = true) (w_out (firstAnalysis show (mkWorld self [])).2) ↔
  columns_ok (dataframe self) ∧ show = true ∧ show_corr_matrix self = true.
Proof.
  destruct (analyze_columns self) as [[text|e'] self'] eqn:Hcols.
  - pose proof Hcols as (Hnd & Htext & ->)%analyze_columns_Ok_inv.
    rewrite (firstAnalysis_returns _ _ _ _ Hnd Htext). cbn [snd w_out app].
    rewrite Exists_app, heatmap_events_Exists.
    pose proof (report_events_no_heatmap self text) as Hno.
    assert (columns_ok (dataframe self)) by (apply analyze_columns_ok_run; eauto).
    split; [intros [Hex|?]; [|done]|tauto].
    apply Exists_exists in Hex as (ev & Hin & Hev). rewrite Forall_forall in Hno.
    by rewrite (Hno ev Hin) in Hev.
  - rewrite (firstAnalysis_raises _ _ _ _ _ Hcols). simpl. split.
    + intros [[=]|?%Exists_nil]%Exists_cons. done.
    + intros [(text & Hok & _)%analyze_columns_ok_run _]. congruence.
Qed.

End first_analysis.

(** ** The theorems at the example tables *)

Lemma firstAnalysis_spec_witness :
  ∃ text, (analyze_columns scenario1).1 = Ok text ∧
    firstAnalysis true (mkWorld scenario1 []) =
    (Ok tt, mkWorld (analysed scenario1)
              ([] ++ report_events scenario1 text ++ heatmap_events true scenario1)).
Proof.
  apply (firstAnalysis_spec true scenario1 []).
  split; [by exists 0%Z, 5%Z, 1%Z|]. split; [compute_done|]. repeat constructor; by eexists.
Defined.

Lemma firstAnalysis_raises_spec_witness :
  ¬ columns_ok other_index_df ∧
  (firstAnalysis true (mkWorld (helper_of 12 other_index_df) [])).1 = Raise AttributeError.
Proof.
  split; [|vm_compute; reflexivity].
  eapply (firstAnalysis_raises_spec true (helper_of 12 other_index_df) [] AttributeError).
  vm_compute. reflexivity.
Defined.
