(* ===== verification/Lifecycle.v ===== *)
(** * The life of a Helper object

    A client constructs a [Helper] and calls its methods, in any order and
    any number of times (class Helper of src/AnalysisHelper.py: the
    methods of lines 93, 112, 145 and 166).  A session is a sequence of
    calls on one object.  A call that raises ends the call, not the
    session: the object stays bound in the caller, with what the call had
    stored before it raised.

    [invoke] is one call, [step] the transition relation on the object and
    the console, [run] a whole session.  The specification is a machine
    with two flags, [progress]: whether the summaries of the columns are
    stored, and whether the correlation matrix is.  [model_call] gives the
    result, the next flags and the events of a call in terms of the
    reference definitions; [object_at] is the object that stands for the
    flags.  The theorems show that the methods implement this machine, and
    what follows for every state a session can reach. *)

From S2P Require Import Prelude PyString PyFloat DataFrame Pearson ColumnInfos Format Helper.
From S2P Require Import Tables Columns Correlations Advices FirstAnalysis.

(** ** Calls *)

Inductive call : Type :=
| AnalyzeColumns
| AnalyzeCorrelations
| GetAdvices
| FirstAnalysis (show_corr_matrix : bool).

#[export] Instance call_eq_dec : EqDecision call.
Proof. solve_decision. Defined.

(** What the object has stored so far. *)
Record progress : Type := mkProgress {
  columns_done : bool;
  corr_done : bool;
}.

#[export] Instance progress_eq_dec : EqDecision progress.
Proof. solve_decision. Defined.

Definition is_range (ix : Index) : bool :=
  match ix with RangeIndex _ _ _ => true | OtherIndex _ => false end.

Section lifecycle.
Context {V : Type} `{Scalar V} `{Corr V}.
Implicit Types (self : Helper V) (w : World V) (c : call) (p : progress).

(** ** Sessions *)

(** One call; the methods return a text, [firstAnalysis] returns [None]. *)
Definition invoke c : prog (World V) (option string) :=
  match c with
  | AnalyzeColumns => text ← method analyze_columns; mret (Some text)
  | AnalyzeCorrelations => text ← method analyze_correlations; mret (Some text)
  | GetAdvices => text ← method get_advices; mret (Some text)
  | FirstAnalysis show => firstAnalysis show;; mret None
  end.

(** The object and the console after one more call, whether it returned
    or raised. *)
Inductive step : relation (World V) :=
| step_call c w : step w (invoke c w).2.

(** The states of a session on the object [self]. *)
Definition reachable self : World V → Prop := rtc step (mkWorld self []).

(** A session: the results of its calls, and the state it ends in. *)
Fixpoint run (cs : list call) w : list (result (option string)) * World V :=
  match cs with
  | [] => ([], w)
  | c :: cs' =>
      let '(r, w') := invoke c w in
      let '(rs, w'') := run cs' w' in (r :: rs, w'')
  end.

(** ** The specification *)

(** A new object: nothing is stored yet. *)
Definition fresh self : Prop := corr self = None ∧ dataframe_col_infos self = ∅.

(** The object that has stored what [p] says. *)
Definition object_at self p : Helper V :=
  set_corr (if corr_done p then Some (df_corr (dataframe self)) else None)
    (set_col_infos (if columns_done p then stored_spec self else ∅) self).

(** The summaries in the dict of [object_at self p], in key order. *)
Definition stored_infos self p : list (ColumnInfos V) :=
  if columns_done p then
    infos_from (max_categorisable self) (df_len (dataframe self)) 0
      (ok_prefix (dataframe self) (df_columns (dataframe self)))
  else [].

(** The loop over the columns has run, unless the index stopped the method
    before it. *)
Definition columns_seen self p : progress :=
  mkProgress (columns_done p || is_range (df_index (dataframe self))) (corr_done p).

(** The result, the next flags and the events of a call. *)
Definition model_call self c p : result (option string) * progress * list event :=
  match c with
  | AnalyzeColumns => (Some <$> columns_result self, columns_seen self p, [])
  | AnalyzeCorrelations =>
      (Ok (Some (corr_text (columns (dataframe self)) (df_corr (dataframe self)))),
       mkProgress (columns_done p) true, [])
  | GetAdvices => (Ok (Some (advices_text (stored_infos self p))), p, [])
  | FirstAnalysis show =>
      match columns_result self with
      | Ok text =>
          (Ok None, mkProgress true true,
           report_events self text ++ heatmap_events show self)
      | Raise e =>
          (Raise e, columns_seen self p,
           [Print (LF +:+ "##### GENERAL DATAFRAME INFOS #####")])
      end
  end.

(** A session of the specification: results, final flags, events. *)
Fixpoint model_run self (cs : list call) p
  : list (result (option string)) * progress * list event :=
  match cs with
  | [] => ([], p, [])
  | c :: cs' =>
      let '(r, p', evs) := model_call self c p in
      let '(rs, p'', evs') := model_run self cs' p' in (r :: rs, p'', evs ++ evs')
  end.

(** The calls that bring a new object to the flags [p]. *)
Definition calls_to p : list call :=
  (if columns_done p then [AnalyzeColumns] else []) ++
  (if corr_done p then [AnalyzeCorrelations] else []).

(** The flags a session can reach: the summaries are never stored on a
    table whose index is no range. *)
Definition possible self p : Prop :=
  columns_done p = true → is_range (df_index (dataframe self)) = true.

(** The events of a call do not depend on what is stored. *)
Definition call_events self c : list event := (model_call self c (mkProgress false false)).2.

(** The heatmap of the table of [self]. *)
Definition heatmap_of self : event :=
  let m := df_corr (dataframe self) in
  Heatmap m (corr_cmap self) (annot_corr self) (cm_labels m) (cm_labels m) (-1) 1.

(** Every heatmap drawn is the heatmap of the table. *)
Definition event_ok self (e : event) : Prop := is_heatmap e = true → e = heatmap_of self.

(** ** One call *)

Lemma object_at_fresh self : fresh self → object_at self (mkProgress false false) = self.
Proof. destruct self. intros [??]. simplify_eq/=. done. Qed.

Lemma Helper_init_fresh obj mc annot cmap show self :
  Helper_init obj mc annot cmap show = Ok self → fresh self.
Proof. destruct obj; intros; by simplify_eq/=. Qed.

Lemma stored_spec_map_seq self p :
  (if columns_done p then stored_spec self else ∅) = map_seq 0 (stored_infos self p).
Proof.
  unfold stored_infos, stored_spec. destruct (columns_done p); [|done].
  apply store_from_map_seq.
Qed.

Lemma columns_state_object_at self p :
  columns_state (object_at self p) = object_at self (columns_seen self p).
Proof.
  unfold columns_state, columns_seen, object_at. simpl.
  destruct (df_index (dataframe self)); simpl; [|by rewrite orb_false_r].
  by rewrite orb_true_r.
Qed.

Lemma analysed_object_at self p text :
  columns_result self = Ok text → analysed (object_at self p) = object_at self (mkProgress true true).
Proof.
  intros Hres. pose proof (analyze_columns_eq self) as Hcols. rewrite Hres in Hcols.
  apply analyze_columns_Ok_inv in Hcols as (Hnd & _ & _).
  change (analysed (object_at self p))
    with (set_corr (Some (df_corr (dataframe self))) (set_col_infos (col_infos_spec self) self)).
  by rewrite <-(stored_spec_NoDup self Hnd).
Qed.

Lemma get_advices_object_at self p :
  get_advices (object_at self p) = (Ok (advices_text (stored_infos self p)), object_at self p).
Proof. apply get_advices_map_seq. simpl. apply stored_spec_map_seq. Qed.

(** The calls in closed form, on every object. *)
Lemma invoke_eq c self out :
  invoke c (mkWorld self out) =
  match c with
  | AnalyzeColumns => (Some <$> columns_result self, mkWorld (columns_state self) out)
  | AnalyzeCorrelations =>
      (Ok (Some (corr_text (columns (dataframe self)) (df_corr (dataframe self)))),
       mkWorld (set_corr (Some (df_corr (dataframe self))) self) out)
  | GetAdvices => (Some <$> (get_advices self).1, mkWorld (get_advices self).2 out)
  | FirstAnalysis show =>
      match columns_result self with
      | Ok text =>
          (Ok None, mkWorld (analysed self)
                      (out ++ report_events self text ++ heatmap_events show self))
      | Raise e =>
          (Raise e, mkWorld (columns_state self)
                      (out ++ [Print (LF +:+ "##### GENERAL DATAFRAME INFOS #####")]))
      end
  end.
Proof.
  destruct c as [| | |show]; unfold invoke; rewrite prog_bind_eq.
  - rewrite (method_eq _ _ _ _ _ (analyze_columns_eq self)). by destruct (columns_result self).
  - by rewrite (method_eq _ _ _ _ _ (analyze_correlations_run self)).
  - rewrite (method_eq _ _ out _ _ (surjective_pairing (get_advices self))).
    by destruct (get_advices self).1.
  - rewrite firstAnalysis_eq. by destruct (columns_result self).
Qed.

(** A call on the object of the flags [p] is the call of the
    specification. *)
Lemma invoke_object_at self c p out :
  invoke c (mkWorld (object_at self p) out) =
  let '(r, p', evs) := model_call self c p in (r, mkWorld (object_at self p') (out ++ evs)).
Proof.
  rewrite invoke_eq. destruct c as [| | |show]; cbn [model_call].
  - by rewrite app_nil_r, columns_state_object_at.
  - by rewrite app_nil_r.
  - by rewrite get_advices_object_at, app_nil_r.
  - change (columns_result (object_at self p)) with (columns_result self).
    destruct (columns_result self) as [text|e] eqn:Hres.
    + by rewrite (analysed_object_at _ _ _ Hres).
    + by rewrite columns_state_object_at.
Qed.

Lemma model_call_possible self c p : possible self p → possible self (model_call self c p).1.2.
Proof.
  unfold possible. destruct c as [| | |show]; cbn [model_call]; simpl; try done.
  - intros Hp [?| ->]%orb_true_iff; auto.
  - destruct (columns_result self) as [text|e] eqn:Hres; simpl.
    + apply columns_result_Ok_range in Hres as (a & b & c & ->). done.
    + intros Hp [?| ->]%orb_true_iff; auto.
Qed.

(** ** Sessions *)

Lemma run_app cs1 cs2 w :
  run (cs1 ++ cs2) w =
  let '(rs1, w1) := run cs1 w in let '(rs2, w2) := run cs2 w1 in (rs1 ++ rs2, w2).
Proof.
  revert w. induction cs1 as [|c cs1 IH]; intros w; simpl.
  - by destruct (run cs2 w).
  - destruct (invoke c w) as [r w']. rewrite IH.
    destruct (run cs1 w') as [rs1 w1]. by destruct (run cs2 w1).
Qed.

(** The states of the step relation are the states sessions end in. *)
Lemma reachable_run self w : reachable self w ↔ ∃ cs, w = (run cs (mkWorld self [])).2.
Proof.
  unfold reachable. split.
  - intros Hr.
    apply (rtc_ind_r (R := step) (λ w, ∃ cs, w = (run cs (mkWorld self [])).2) (mkWorld self []));
      [by exists []| |done].
    clear w Hr. intros w1 w2 _ Hstep [cs Hcs].
    destruct Hstep as [c w0]. subst w0. exists (cs ++ [c]). rewrite run_app.
    destruct (run cs _) as [rs w1]. simpl. by destruct (invoke c w1).
  - intros [cs ->]. induction cs as [|c cs IH] using rev_ind; [done|].
    rewrite run_app. destruct (run cs _) as [rs w1]. simpl in *.
    eapply rtc_r; [exact IH|]. pose proof (step_call c w1) as Hstep.
    by destruct (invoke c w1).
Qed.

(** The object of a session on a new object is the object of some flags. *)
Lemma reachable_object_at self w :
  fresh self → reachable self w → ∃ p, possible self p ∧ w_self w = object_at self p.
Proof.
  intros Hf Hr.
  apply (rtc_ind_r (R := step) (λ w, ∃ p, possible self p ∧ w_self w = object_at self p)
           (mkWorld self [])); [| |done].
  { exists (mkProgress false false). by rewrite object_at_fresh. }
  clear w Hr. intros w1 w2 _ Hstep (p & Hp & Hw).
  destruct Hstep as [c w0]. destruct w0 as [self1 out]. simpl in Hw. subst self1.
  pose proof (model_call_possible self c p Hp) as Hp'.
  rewrite invoke_object_at. destruct (model_call self c p) as [[r p'] evs]. by exists p'.
Qed.

(** A session on the object of the flags [p] is the session of the
    specification. *)
Lemma run_object_at self cs p out :
  run cs (mkWorld (object_at self p) out) =
  let '(rs, p', evs) := model_run self cs p in (rs, mkWorld (object_at self p') (out ++ evs)).
Proof.
  revert p out. induction cs as [|c cs IH]; intros p out; cbn [run model_run].
  { by rewrite app_nil_r. }
  rewrite invoke_object_at. destruct (model_call self c p) as [[r p1] evs1].
  rewrite IH. destruct (model_run self cs p1) as [[rs p2] evs2]. by rewrite app_assoc.
Qed.

(** The calls of [calls_to] store what the flags say. *)
Lemma model_run_calls_to self p :
  possible self p → (model_run self (calls_to p) (mkProgress false false)).1.2 = p.
Proof.
  unfold possible. destruct p as [[] []]; simpl; intros Hp; unfold columns_seen; simpl;
    by rewrite ?Hp.
Qed.

Lemma heatmap_events_ok show self : Forall (event_ok self) (heatmap_events show self).
Proof.
  unfold heatmap_events. destruct (show && show_corr_matrix self); by repeat constructor.
Qed.

Lemma call_events_ok self c : Forall (event_ok self) (call_events self c).
Proof.
  unfold call_events. destruct c as [| | |show]; cbn [model_call]; simpl; try by constructor.
  destruct (columns_result self); simpl; [|by repeat constructor].
  repeat (constructor; [done|]). apply heatmap_events_ok.
Qed.

Lemma model_call_events self c p : (model_call self c p).2 = call_events self c.
Proof.
  unfold call_events. destruct c; cbn [model_call]; try done.
  by destruct (columns_result self).
Qed.

Lemma model_run_events self cs p : (model_run self cs p).2 = cs ≫= call_events self.
Proof.
  revert p. induction cs as [|c cs IH]; intros p; [done|].
  cbn [model_run]. rewrite bind_cons, <-(model_call_events self c p), <-(IH (model_call self c p).1.2).
  destruct (model_call self c p) as [[r p1] evs1]. cbn [fst snd].
  by destruct (model_run self cs p1) as [[rs p2] evs2].
Qed.

(** [analyze_columns] and [analyze_correlations] write different
    attributes and read none the other writes. *)
Lemma columns_state_set_corr m self :
  columns_state (set_corr m self) = set_corr m (columns_state self).
Proof. unfold columns_state. simpl. by destruct (df_index (dataframe self)). Qed.

Lemma columns_state_dataframe self : dataframe (columns_state self) = dataframe self.
Proof. destruct (columns_state_frame self) as [m ->]. done. Qed.

(** ** Properties *)

(** C31. The methods implement the specification.  A session on a newly
    constructed object returns, call by call, the results of the machine
    of [model_run] started with nothing stored; it ends with the object
    of the machine's final flags, and the console and the plotting
    libraries have received the machine's events, in order. *)
Theorem session_refines obj mc annot cmap show self cs :
  Helper_init obj mc annot cmap show = Ok self →
  run cs (mkWorld self []) =
  let '(rs, p, evs) := model_run self cs (mkProgress false false) in
  (rs, mkWorld (object_at self p) evs).
Proof.
  intros Hf%Helper_init_fresh.
  etrans; [|apply (run_object_at self cs (mkProgress false false) [])].
  by rewrite object_at_fresh.
Qed.

(** C32. The objects a session can reach from a newly constructed object
    are exactly the objects of the four pairs of flags: the attributes
    given to the constructor never change, the dict is empty or holds the
    summaries of the columns the loop gets through, and the matrix is
    absent or is the correlation of the table.  On a table whose index is
    no range the dict stays empty. *)
Theorem reachable_objects obj mc annot cmap show self self' :
  Helper_init obj mc annot cmap show = Ok self →
  (∃ w, reachable self w ∧ w_self w = self') ↔
  ∃ p, possible self p ∧ self' = object_at self p.
Proof.
  intros Hf%Helper_init_fresh. split.
  - intros (w & Hr & <-). by apply reachable_object_at.
  - intros (p & Hp & ->). exists (run (calls_to p) (mkWorld self [])).2.
    split; [apply reachable_run; by eexists|].
    rewrite <-(object_at_fresh self Hf) at 1. rewrite run_object_at.
    pose proof (model_run_calls_to self p Hp) as Hrun.
    destruct (model_run self (calls_to p) _) as [[rs p'] evs]. simpl in *. by subst.
Qed.

(** C33. In every state of a session on a newly constructed object,
    [get_advices] returns: the [KeyError] of a dict with a missing key and
    the [TypeError] of the join cannot happen.  Its text is made of the
    advices of a prefix of the columns: none before the first analysis,
    all of them after an analysis that returned, and those before the
    first repeated label after an analysis that raised. *)
Theorem reachable_get_advices obj mc annot cmap show self w :
  Helper_init obj mc annot cmap show = Ok self → reachable self w →
  ∃ cs, cs `prefix_of` df_columns (dataframe self) ∧
    get_advices (w_self w) =
    (Ok (advices_text (infos_from (max_categorisable self) (df_len (dataframe self)) 0 cs)),
     w_self w).
Proof.
  intros Hf%Helper_init_fresh Hr.
  destruct (reachable_object_at self w Hf Hr) as (p & _ & ->).
  rewrite get_advices_object_at. unfold stored_infos. destruct (columns_done p).
  - eexists. split; [apply ok_prefix_prefix|done].
  - exists []. split; [apply prefix_nil|done].
Qed.

(** C37. What a session sends to the console and the plotting libraries
    does not depend on the order of its calls: each call emits the events
    of [call_events], whatever was called before, and a heatmap is always
    drawn from the correlation of the table, with the options given to
    the constructor. *)
Theorem session_events obj mc annot cmap show self cs :
  Helper_init obj mc annot cmap show = Ok self →
  w_out (run cs (mkWorld self [])).2 = cs ≫= call_events self ∧
  Forall (event_ok self) (w_out (run cs (mkWorld self [])).2).
Proof.
  intros Hf%Helper_init_fresh.
  assert (w_out (run cs (mkWorld self [])).2 = cs ≫= call_events self) as ->.
  { rewrite <-(object_at_fresh self Hf) at 1. rewrite run_object_at.
    rewrite <-(model_run_events self cs (mkProgress false false)).
    by destruct (model_run self cs _) as [[rs p'] evs]. }
  split; [done|]. apply Forall_bind, Forall_forall. intros c _. apply call_events_ok.
Qed.


(** [analyze_columns] and [analyze_correlations] commute: in either
    order each returns the same result, and the object is left the
    same. *)
Theorem columns_correlations_commute w :
  (run [AnalyzeColumns; AnalyzeCorrelations] w).2 =
  (run [AnalyzeCorrelations; AnalyzeColumns] w).2 ∧
  (run [AnalyzeColumns; AnalyzeCorrelations] w).1 =
  reverse (run [AnalyzeCorrelations; AnalyzeColumns] w).1.
Proof.
  destruct w as [self out]. cbn [run]. rewrite !invoke_eq.
  by rewrite columns_state_set_corr, columns_state_dataframe.
Qed.

End lifecycle.

(** ** The theorems at the example tables *)

Lemma session_refines_witness :
  run [FirstAnalysis true; GetAdvices] (mkWorld (helper_of 12 scenario1_df) []) =
  let '(rs, p, evs) :=
    model_run (helper_of 12 scenario1_df) [FirstAnalysis true; GetAdvices]
      (mkProgress false false) in
  (rs, mkWorld (object_at (helper_of 12 scenario1_df) p) evs).
Proof.
  apply (session_refines (ObjDataFrame scenario1_df) 12 true "RdYlGn" true). reflexivity.
Defined.

Lemma reachable_objects_witness :
  (∃ w, reachable (helper_of 12 dup_tail_df) w ∧
        w_self w = object_at (helper_of 12 dup_tail_df) (mkProgress true false)) ↔
  ∃ p, possible (helper_of 12 dup_tail_df) p ∧
       object_at (helper_of 12 dup_tail_df) (mkProgress true false) =
       object_at (helper_of 12 dup_tail_df) p.
Proof.
  apply (reachable_objects (ObjDataFrame dup_tail_df) 12 true "RdYlGn" true). reflexivity.
Defined.

Lemma reachable_get_advices_witness :
  ∃ cs, cs `prefix_of` df_columns dup_tail_df ∧
    get_advices (w_self (invoke AnalyzeColumns (mkWorld (helper_of 12 dup_tail_df) [])).2) =
    (Ok (advices_text (infos_from 12 (df_len dup_tail_df) 0 cs)),
     w_self (invoke AnalyzeColumns (mkWorld (helper_of 12 dup_tail_df) [])).2).
Proof.
  apply (reachable_get_advices (ObjDataFrame dup_tail_df) 12 true "RdYlGn" true
           (helper_of 12 dup_tail_df) _ eq_refl).
  apply rtc_once, step_call.
Defined.

Lemma session_events_witness :
  w_out (run [GetAdvices; FirstAnalysis false] (mkWorld (helper_of 12 scenario1_df) [])).2 =
  [GetAdvices; FirstAnalysis false] ≫= call_events (helper_of 12 scenario1_df) ∧
  Forall (event_ok (helper_of 12 scenario1_df))
    (w_out (run [GetAdvices; FirstAnalysis false] (mkWorld (helper_of 12 scenario1_df) [])).2).
Proof.
  apply (session_events (ObjDataFrame scenario1_df) 12 true "RdYlGn" true). reflexivity.
Defined.
