(* ===== verification/Scenarios.v ===== *)
(** * The scenarios of the specification, run

    The end-to-end scenarios of section 8 of the specification and the
    error paths, evaluated on the tables of [Tables] with the executable
    correlation of [Pearson].  Each example is an instance of a theorem
    of the other files, named in its comment: the examples show the
    texts the program prints, and where it does not do what the
    specification describes, what it does. *)

From S2P Require Import Prelude PyString PyFloat Interval DataFrame Pearson ColumnInfos Format.
From S2P Require Import Helper Tables Columns Correlations Advices FirstAnalysis Lifecycle.

(** ** Runs *)

(** The summaries [analyze_columns] leaves in the object. *)
Definition summaries (self : Helper value) : gmap nat (ColumnInfos value) :=
  dataframe_col_infos (analyze_columns self).2.

(** The advice report after [analyze_columns]. *)
Definition advice_report (self : Helper value) : result string :=
  (get_advices (analyze_columns self).2).1.

(** The correlation report. *)
Definition correlation_report (self : Helper value) : result string :=
  (analyze_correlations self).1.

(** ** Texts *)

(** The advice line of a column as the program prints it when the column
    has at most one distinct value. *)
Definition deleted_text (name : string) (position : Z) : string :=
  "The column " +:+ DQUOTE +:+ name +:+ DQUOTE +:+ " (index " +:+ fmt_d position +:+
  ")should be deleted.".

(** The line of a reported pair, as text. *)
Definition pair_text (a b strength sign value : string) : string :=
  LF +:+ DQUOTE +:+ a +:+ DQUOTE +:+ " and " +:+ DQUOTE +:+ b +:+ DQUOTE +:+
  " have a " +:+ strength +:+ " " +:+ sign +:+ " correlation : " +:+ value.

(** ** Scenarios *)

(** Scenario 1 ([analyze_correlations_spec]): two columns [1, 2, 3, 4, 5].  The correlation report
    is one line, a very strong positive correlation of 1.000000 between
    A and B; the matrix is stored in the object. *)
Example scenario1_correlations :
  analyze_correlations scenario1 =
  (Ok (pair_text "A" "B" "very strong" "positive" "1.000000"),
   set_corr (Some (mkCorr ["A"; "B"]%string [[1; 1]; [1; 1]]%float)) scenario1).
Proof. vm_compute. reflexivity. Qed.

(** Scenario 2 ([analyze_columns_uniques_null]): a column [True, True, True, False, NaN].  One null is
    counted and [unique()] counts the null as a value, so the column has
    three distinct values and the advice is the cast into a category.  The
    specification expects two distinct values and the boolean advice. *)
Example scenario2_flag_column :
  summaries scenario2 !! 0 =
    Some (mkColumnInfos 0 "flag" 1 4 "object" 3 (Some [VBool true; VBool false; VNaN])) ∧
  advice_report scenario2 =
    Ok (LF +:+ advice_text_spec "flag" 0 "casted into a category").
Proof. split; vm_compute; reflexivity. Qed.

(** Scenario 3 ([get_advice_deleted]): five identical values.  The column has one distinct
    value and is advised for deletion; the text lacks the space the format
    of the specification has between the position and [should]. *)
Example scenario3_constant_column :
  advice_report scenario3 = Ok (LF +:+ deleted_text "const" 0) ∧
  deleted_text "const" 0 ≠ advice_text_spec "const" 0 "deleted".
Proof. split; [vm_compute; reflexivity|by vm_compute]. Qed.

(** Scenario 4 ([analyze_columns_categories]): with [max_categorisable = 2], a column of three
    distinct values has no categories and no advice: the advice report is
    the line feed alone. *)
Example scenario4_not_categorisable :
  categories <$> summaries scenario4 !! 0 = Some None ∧
  advice_report scenario4 = Ok LF.
Proof. split; vm_compute; reflexivity. Qed.

(** Scenario 5 ([analyze_correlations_spec]): a column next to a constant column.  The coefficient
    of the pair is NaN, the report is empty and nothing is raised. *)
Example scenario5_constant_correlation :
  (is_nan <$> cm_at (df_corr scenario5_df) 0 1) = Some true ∧
  correlation_report scenario5 = Ok EmptyString.
Proof. split; vm_compute; reflexivity. Qed.

(** A text column before the numeric ones ([analyze_correlations_names]).  The matrix is over A and
    E, and its one finding, at positions 0 and 1, is their correlation;
    the report names the columns at positions 0 and 1 of the table,
    [label] and A. *)
Example mixed_table_names :
  cm_labels (df_corr mixed_df) = ["A"; "E"]%string ∧
  correlation_report mixed =
    Ok (pair_text "label" "A" "very strong" "negative" "-0.800000") ∧
  corr_text (cm_labels (df_corr mixed_df)) (df_corr mixed_df) =
    pair_text "A" "E" "very strong" "negative" "-0.800000".
Proof. repeat split; vm_compute; reflexivity. Qed.

(** A dtype outside [color_dict] ([analyze_columns_KeyError]): [analyze_columns] raises [KeyError]
    when it formats the table, after the summaries of all columns have
    been stored. *)
Example int32_table_KeyError :
  (analyze_columns (helper_of 12 int32_df)).1 = Raise KeyError ∧
  size (summaries (helper_of 12 int32_df)) = 2.
Proof. split; vm_compute; reflexivity. Qed.

(** Scenario 1, the whole analysis ([firstAnalysis_spec]): the calls to [print],
    [sns.heatmap] and [plt.show], in order. *)
Example scenario1_firstAnalysis :
  w_out (firstAnalysis true (mkWorld scenario1 [])).2 =
  [Print (LF +:+ "##### GENERAL DATAFRAME INFOS #####");
   Print (main_infos 2 5 0 5 1 +:+ LF +:+
          column_line "1;31;47" 1 0 (column_info_spec 12 5 0 colA) +:+ LF +:+
          column_line "1;31;47" 1 1 (column_info_spec 12 5 1 colB));
   Print (LF +:+ "##### CORRELATION INFOS #####");
   Print (pair_text "A" "B" "very strong" "positive" "1.000000");
   Print (LF +:+ "##### GENERAL ADVICES #####");
   Print (LF +:+ advice_text_spec "A" 0 "casted into a category" +:+ LF +:+
          advice_text_spec "B" 1 "casted into a category");
   Heatmap (mkCorr ["A"; "B"]%string [[1; 1]; [1; 1]]%float) "RdYlGn" true
     ["A"; "B"]%string ["A"; "B"]%string (-1) 1;
   PltShow].
Proof. vm_compute. reflexivity. Qed.

(** A repeated label after another column ([reachable_get_advices]):
    [analyze_columns] raises at the second column and leaves the summary
    of the first in the object, and [get_advices] then reports on that
    column alone without an error. *)
Example repeated_label_session :
  (run [AnalyzeColumns; GetAdvices] (mkWorld (helper_of 12 dup_tail_df) [])).1 =
  [Raise AttributeError;
   Ok (Some (LF +:+ advice_text_spec "B" 0 "casted into a category"))].
Proof. vm_compute. reflexivity. Qed.

